(* ===== verification/_CoqProject ===== *)
-Q . S2P
Prelude.v
JsString.v
JsValue.v
JsDate.v
Schema.v
FieldResolver.v
Classify.v
Normalize.v
Filters.v
Stats.v
Csv.v
Render.v
Table.v
Charts.v
Page.v
App.v
Session.v
