(* ===== verification/Prelude.v ===== *)
(** * A verification development for gestion-maintenance

    The program is one browser script, [src/gestion-maintenance/js/app.js],
    that loads a spreadsheet of equipment-maintenance rows, normalises
    their columns into canonical records, filters the records, counts
    them for two charts, renders a table and exports the view as CSV.
    It runs in one thread.  The state lives in global variables
    ([currentData], [filteredData], [currentWorkbook], [dataTable]) and in
    the values of the DOM selects.  DOM events drive the script
    (file choice, sheet choice, the four filter selects, reset, export),
    and so do two asynchronous completions: [FileReader.onload] and the
    [fetch] of the default workbook.

    Library layout (in dependency order, see [_CoqProject]):
    - [Prelude] (this file): the notation scope [js_scope], the hint
      database [maint], and the generic list algorithms the script gets
      from the JavaScript runtime: substring search ([includes], as
      [String.prototype.includes]), [join] ([Array.prototype.join]) and
      [split_on] ([String.prototype.split] on one separator).  Each comes
      with its specification.
    - [JsString]: JavaScript strings as lists of UTF-16 code units, with
      [toUpperCase], [toLowerCase] and [trim], and [u], which decodes a
      UTF-8 literal of this file into code units.
    - [JsValue]: spreadsheet cells ([cell]: string, number, boolean), JS
      truthiness, [ToString], raw rows as ordered association lists with
      property lookup, [JSON.stringify] of a row, the exceptions the
      script can raise, the state-and-exception monad [ST] every stateful
      operation is written in, and object literals ([jsval]).
    - [JsDate]: [new Date(v)] for a cell, the time values the table's
      date comparator subtracts: the parser of the ECMAScript Date Time
      String Format, MakeDay in closed form ([days_from_civil]) and
      TimeClip; then the Gregorian calendar (month lengths, leap years)
      against which [days_from_civil] is proved to count days, and the
      zero-padded [YYYY-MM-DD] writer [iso_date] that [parse_iso] reads
      back.
    - [Schema]: types of the object literals handed to the libraries
      ([jty], a checker [has_type] over [jsval]), with the schemas of the
      Chart.js configuration and of the DataTables options as their
      documentation states them; an object type admits only the keys it
      lists, since both libraries silently ignore a misspelt option.
    - [FieldResolver]: the [row['a'] || row['b'] || ... || ''] chains of
      [normalizeData] (lines 133-147).
    - [Classify]: [detectType] (lines 158-172) and [detectStatut]
      (lines 175-196).
    - [Normalize]: the canonical record and [normalizeData] (124-155).
    - [Filters]: the predicate of [applyFilters] (199-235) and the values
      [resetFilters] writes (238-245).
    - [Stats]: [updateStats] (255-266) and the counts of
      [updateStatusChart] and [updateTypeChart] (283-287, 339-345), with
      [Proper] instances stating that they ignore the order of the
      records, used to rewrite the table's sorted rows into the filtered
      view.
    - [Csv]: the text built by [exportToCSV] (487-504) and its file name
      (511), and [parse_csv], an RFC 4180 reader of the downloaded file
      (a state machine over code units, quoted and unquoted).
    - [Render]: [escapeHtml] (473-477) and the row markup of [updateTable]
      (412-447), with [row_cells], the cells of a row as the browser's
      parser and DataTables read them.
    - [Table]: the date sort of [updateTable] (405-409), the rows it
      writes and the DataTables options (457-469).  [Array.prototype.sort]
      is modelled by a stable insertion sort: ECMA-262 fixes the result of
      a sort with a consistent comparator, and the model is proved to give
      that result.
    - [Charts]: the configuration literals of [updateStatusChart] and
      [updateTypeChart] (289-327, 347-396) and the registry of live charts
      of Chart.js, whose [new Chart] throws on a canvas in use, with the
      registry invariant ([registry_wf]) its operations keep.
    - [Page]: the drawn page (counters, [window.statusChart],
      [window.typeChart], the table body, the [dataTable] global) and the
      drawing operations [updateStats], [updateCharts], [updateTable],
      [updateDisplay] (248-470), written in a Section over any state that
      contains a page.  [updateTable] writes the new rows, then the
      [destroy()] of line 454 puts back the rows the old instance read
      at its creation ([grid_rows]), and the new instance reads those:
      [kept_rows] is the rows a drawing leaves.
    - [App]: the session.  The record [app] holds the globals of lines
      2-5 and the DOM values the handlers read and write (the four filter
      selects, the sheet select, the file name, the title, the page), the
      reads in flight and the effects (alerts, downloads, uncaught
      exceptions).  Each handler is a function of the monad
      [M := ST app]: [loadSheetData], [reader.onload] and [onerror]
      ([readDone]), [readExcelFile], [handleFileUpload], the end of
      [loadDefaultFile]'s fetch, the sheet listener, [applyFilters],
      [resetFilters], [updateDisplay], [exportToCSV].  JavaScript does not
      roll back a throwing handler, and neither does [M].  [step] is one
      DOM or asynchronous event.  Starting a read appends the file to
      [pending]; any pending read may complete next, so interleavings of
      reads are explicit.  [reachable] is the closure of [step] from the
      page's initial state.  The invariant [Inv] and the lemmas that run
      each handler on every branch are here.
    - [Session]: the properties of whole sessions, the asynchronous
      completions ([async_step]), and a concrete session for witnesses.

    How the components call each other: [App.loadSheetData] calls
    [Normalize.normalizeData] and [App.applyFilters].  [normalizeData]
    calls [FieldResolver.resolve] and the two classifiers.
    [applyFilters] calls [Filters.filterData] and [Page.updateDisplay],
    which draws with [Stats], [Charts], [Table] and [Render].
    [App.exportToCSV] calls [Csv.csvString].

    Theorems, by group (claim ids C1-C38 in the doc comments):
    - Session ([Session]): in every reachable state the counters and
      both charts are the drawing of [filteredData] and the table is
      enhanced with the rows of some drawing; the Chart.js registry holds
      exactly the two charts the window variables name, with typed
      configurations, and the table's options are typed; every redraw
      succeeds, because the destroy guards free both canvases and the
      table; [filteredData] is the filter of [currentData] whenever
      records are loaded; every record held is well formed.  The
      asynchronous completions always terminate.  The handlers are
      specified branch by branch: a parse error only alerts; a
      successful sheet switch redraws.  Behaviours that contradict the
      spec: once the table has a DataTables instance no event changes
      its rows ([table_stale]: the [destroy()] of line 454 restores the
      rows of the first drawing, which the new instance reads), while
      counters and charts follow the filters; a sheet with no equipment
      leaves the previous sheet's view and export in place (the early
      return of [applyFilters]); a normalisation exception or a missing
      sheet leaves a new workbook with the old records; the read that
      finishes last wins; a normalisation exception on a sheet switch
      escapes the listener uncaught.
    - Pipeline (Normalize, FieldResolver, Classify): [normalizeData]
      refines a per-row specification and throws exactly on non-string
      truthy equipment; its length bound; the first scenario of the spec;
      the alias chains; [detectType]'s case insensitivity and substring
      matching; the dead 'non réparé' tests (the status classifier is
      unchanged when they are dropped) and the key names searched by
      [detectStatut].
    - Filters and counts: the filter callback is a conjunction of
      independent constraints; the view is an ordered sublist;
      idempotence; match-all; the counters sum to the total; each chart
      configuration has one value and one colour per label, its values
      summing to the number of records.
    - Libraries: the Chart.js registry invariant (distinct ids, one live
      chart per canvas) is kept by [new Chart] and [destroy()] (lemmas of
      [Charts]); the configuration and option literals have the types the
      libraries document, and name every key the libraries read.
    - Output: the table order is the unique stable sort by decreasing
      date when every record has a valid date, and the comparator is not
      consistent otherwise; on [YYYY-MM-DD] dates the comparator follows
      the calendar (later day first, zero on the same day); the rows
      written parse back cell by cell into the escaped fields, and the
      column DataTables orders by is the date; HTML escaping is injective and leaves the row
      markup's tags fixed; the downloaded CSV reads back as the header
      and the fields of every record when no field holds a double quote,
      commas and line feeds included; the text has one line more than
      records plus one per line feed inside a field, against the line
      count the spec states, and a double quote breaks the record.

    Not modelled: the XLSX parser ([XLSX.read], [XLSX.utils.sheet_to_json])
    and the HTML page are outside [src/].  A workbook is therefore given
    as the rows [sheet_to_json] returns for each sheet.  Of Chart.js and
    DataTables, libraries outside the repository, only the lifecycle the
    script relies on is modelled: the registry of live charts, and the
    enhancement of the table with its warning on a second
    initialisation, and the rows [destroy()] puts back into the table
    body; and what they are handed: the configuration and
    option objects, typed against their documented schemas, and the
    cells DataTables reads from the table.  Their drawing, sorting and
    paging are not modelled: the theorems show which column DataTables
    is told to sort by, not the order it then displays.  [console.log] has no observable effect.  [Date.parse]
    on strings outside the ECMAScript Date Time String Format is
    implementation-specific; the model treats them as invalid dates.

    Bounds and fuel: no model of the script's code uses fuel; every
    loop of the script is a structural recursion on a list.  Only the
    reader [Render.row_cells] takes fuel, the length of the markup,
    which is enough because each cell read consumes at least one code
    unit; [row_cells_columns] shows it reads all ten cells.  Termination
    of the event machine's asynchronous part is a theorem
    ([async_terminates]).
    Numbers in cells are integers ([Z]).  [ToString] on integers
    of magnitude below 10^21 is plain decimal, which is all a spreadsheet
    cell of this program holds.  Fractional numbers are not modelled.
    The case mapping is exact on code units below 0x100 (Basic Latin and
    Latin-1 Supplement, which covers every literal of the script); other
    code units are left unchanged.  Time values are integers of
    milliseconds, clipped to 8.64e15 as [TimeClip] does.  The calendar
    theorem is stated for the four-digit years 0000-9999 of
    [YYYY-MM-DD]; their time values are far inside the TimeClip range
    (|days| <= 10^8). *)

From stdpp Require Export base list strings gmap finite.

Declare Scope js_scope.
Delimit Scope js_scope with js.

Create HintDb maint discriminated.
Create Rewrite HintDb maint.

(** ** Substring search *)

Section Substring.
Context {A : Type} `{!EqDecision A}.

(** [starts_with s p]: [s] begins with [p]. *)
Fixpoint starts_with (s p : list A) {struct p} : bool :=
  match p, s with
  | [], _ => true
  | x :: p', y :: s' => bool_decide (x = y) && starts_with s' p'
  | _ :: _, [] => false
  end.

(** [includes s p]: [p] occurs in [s] at some position, tried from the
    left as [String.prototype.includes] does. *)
Fixpoint includes (s p : list A) : bool :=
  starts_with s p || match s with [] => false | _ :: s' => includes s' p end.

Lemma starts_with_spec s p : starts_with s p = true ↔ ∃ k, s = p ++ k.
Proof.
  revert s. induction p as [|x p IH]; intros [|y s]; simpl.
  - split; [eauto|done].
  - split; [eauto|done].
  - split; [done|intros [k ?]; discriminate].
  - rewrite andb_true_iff, bool_decide_eq_true, IH.
    split; [intros [-> [k ->]]; eauto|intros [k Hk]; simplify_eq; eauto].
Qed.

Lemma includes_spec s p : includes s p = true ↔ ∃ a b, s = a ++ p ++ b.
Proof.
  induction s as [|y s IH]; cbn [includes]; rewrite orb_true_iff, starts_with_spec.
  - split.
    + intros [[k Hk]|]; [|done]. exists [], k. done.
    + intros [[|??] [b Hb]]; [left; eauto|discriminate].
  - rewrite IH. split.
    + intros [[k Hk]|[a [b ->]]]; [exists [], k; done|exists (y :: a), b; done].
    + intros [[|z a] [b Hb]]; [left; eauto|].
      simpl in Hb. simplify_eq. right. eauto.
Qed.

Lemma includes_app_mid a p b : includes (a ++ p ++ b) p = true.
Proof. apply includes_spec. eauto. Qed.

Lemma includes_nil s : includes s [] = true.
Proof. destruct s; done. Qed.

Lemma includes_app_l s t p : includes s p = true → includes (s ++ t) p = true.
Proof.
  rewrite !includes_spec. intros (a & b & ->). exists a, (b ++ t).
  by rewrite <- !(assoc_L (++)).
Qed.

Lemma includes_app_r s t p : includes t p = true → includes (s ++ t) p = true.
Proof.
  rewrite !includes_spec. intros (a & b & ->). exists (s ++ a), b.
  by rewrite <- !(assoc_L (++)).
Qed.

Lemma includes_trans s p q :
  includes s p = true → includes p q = true → includes s q = true.
Proof.
  rewrite !includes_spec. intros (a & b & ->) (c & d & ->).
  exists (a ++ c), (d ++ b). by rewrite <- !(assoc_L (++)).
Qed.

(** A pattern that contains an element absent from [s] does not occur in
    [s]. *)
Lemma includes_absent s p x :
  x ∈ p → x ∉ s → includes s p = false.
Proof.
  intros Hp Hs. apply not_true_is_false. rewrite includes_spec.
  intros (a & b & ->). apply Hs. set_solver.
Qed.

(** ** Delimited pieces *)

(** What follows the first occurrence of [p] in [s]. *)
Fixpoint after (p s : list A) : option (list A) :=
  if starts_with s p then Some (drop (length p) s)
  else match s with [] => None | _ :: s' => after p s' end.

(** What precedes the first occurrence of [p] in [s], and what follows
    it; all of [s] when [p] does not occur. *)
Fixpoint before (p s : list A) : list A * list A :=
  if starts_with s p then ([], drop (length p) s)
  else match s with
       | [] => ([], [])
       | y :: s' => let '(c, r) := before p s' in (y :: c, r)
       end.

(** The pieces of [s] between an opening [o] and the next closing [c],
    left to right, at most [fuel] of them. *)
Fixpoint between (o c : list A) (fuel : nat) (s : list A) : list (list A) :=
  match fuel with
  | O => []
  | S f => match after o s with
           | None => []
           | Some r => let '(x, r') := before c r in x :: between o c f r'
           end
  end.

Lemma starts_with_app p r : starts_with (p ++ r) p = true.
Proof. apply starts_with_spec. eauto. Qed.

Lemma starts_with_head y s x p : x ≠ y → starts_with (y :: s) (x :: p) = false.
Proof. intros Hxy. simpl. by rewrite bool_decide_false. Qed.

Lemma after_app x p u r : x ∉ u → after (x :: p) (u ++ (x :: p) ++ r) = Some r.
Proof.
  induction u as [|y u IH]; intros Hu; simpl.
  - rewrite bool_decide_true, (starts_with_app p r) by done. simpl. by rewrite drop_app_length.
  - rewrite bool_decide_false by set_solver. simpl. apply IH. set_solver.
Qed.

Lemma after_absent x p s : x ∉ s → after (x :: p) s = None.
Proof.
  induction s as [|y s IH]; intros Hs; [done|].
  cbn [after]. rewrite starts_with_head by set_solver. apply IH. set_solver.
Qed.

Lemma before_app x p u r : x ∉ u → before (x :: p) (u ++ x :: p ++ r) = (u, r).
Proof.
  induction u as [|y u IH]; intros Hu; simpl.
  - rewrite bool_decide_true, (starts_with_app p r) by done. simpl. by rewrite drop_app_length.
  - rewrite bool_decide_false by set_solver. simpl. rewrite IH by set_solver. done.
Qed.

(** A piece free of the closing's first element, opened after a prefix
    free of the opening's first element, comes out first. *)
Lemma between_app o c x p y q f u v r :
  o = x :: p → c = y :: q → x ∉ u → y ∉ v →
  between o c (S f) (u ++ o ++ v ++ c ++ r) = v :: between o c f r.
Proof.
  intros -> -> Hu Hv. cbn [between]. rewrite after_app by done.
  change ((y :: q) ++ r) with (y :: q ++ r). by rewrite before_app by done.
Qed.

End Substring.

(** Occurrences survive a map applied to both sides, as a case mapping
    is applied to the text and to the pattern. *)
Lemma includes_fmap {A B} `{!EqDecision A, !EqDecision B} (f : A → B) (s p : list A) :
  includes s p = true → includes (f <$> s) (f <$> p) = true.
Proof.
  rewrite !includes_spec. intros (a & b & ->).
  exists (f <$> a), (f <$> b). by rewrite !fmap_app.
Qed.

#[export] Hint Resolve includes_app_mid includes_nil : maint.

(** ** [Array.prototype.join] and [String.prototype.split] *)

Section JoinSplit.
Context {A : Type} `{!EqDecision A}.

(** [join sep xs] is [xs.join(sep)]: the pieces with [sep] between them;
    the empty array joins to the empty string. *)
Fixpoint join (sep : list A) (xs : list (list A)) : list A :=
  match xs with
  | [] => []
  | [x] => x
  | x :: xs' => x ++ sep ++ join sep xs'
  end.

(** [split_on c s] is [s.split(c)] for a one-unit separator: the pieces
    between the occurrences of [c], always at least one. *)
Fixpoint split_on (c : A) (s : list A) : list (list A) :=
  match s with
  | [] => [[]]
  | y :: s' =>
      let rest := split_on c s' in
      if bool_decide (y = c) then [] :: rest
      else match rest with
           | [] => [[y]]
           | piece :: pieces => (y :: piece) :: pieces
           end
  end.

Lemma join_elem sep xs x : x ∈ xs → ∃ a b, join sep xs = a ++ x ++ b.
Proof.
  induction xs as [|y [|y' xs] IH]; intros Hin; [set_solver| |].
  - apply list_elem_of_singleton in Hin as ->. exists [], []. simpl. by rewrite app_nil_r.
  - change (join sep (y :: y' :: xs)) with (y ++ sep ++ join sep (y' :: xs)).
    apply elem_of_cons in Hin as [->|Hin]; [by exists [], (sep ++ join sep (y' :: xs))|].
    destruct (IH Hin) as (a & b & ->). exists (y ++ sep ++ a), b.
    by rewrite <- !(assoc_L (++)).
Qed.

Lemma includes_join sep xs x : x ∈ xs → includes (join sep xs) x = true.
Proof. intros Hin. apply includes_spec, join_elem, Hin. Qed.

Lemma split_on_not_nil c s : split_on c s ≠ [].
Proof.
  induction s as [|y s IH]; simpl; [done|].
  case_bool_decide; [done|]. by destruct (split_on c s).
Qed.

(** A piece free of [c] followed by [c] splits off as a first piece. *)
Lemma split_on_app c x s :
  c ∉ x → split_on c (x ++ c :: s) = x :: split_on c s.
Proof.
  induction x as [|y x IH]; intros Hx; simpl.
  - by rewrite bool_decide_true.
  - rewrite bool_decide_false by set_solver.
    rewrite IH by set_solver. done.
Qed.

Lemma split_on_free c x : c ∉ x → split_on c x = [x].
Proof.
  induction x as [|y x IH]; intros Hx; simpl; [done|].
  rewrite bool_decide_false by set_solver. rewrite IH by set_solver. done.
Qed.

(** Splitting undoes joining when no piece contains the separator. *)
Lemma split_on_join c xs :
  xs ≠ [] → Forall (λ x, c ∉ x) xs → split_on c (join [c] xs) = xs.
Proof.
  induction xs as [|x [|x' xs] IH]; intros Hne Hf; [done| |].
  - inversion Hf. by apply split_on_free.
  - inversion Hf as [|?? Hx Hrest]; subst. simpl.
    rewrite split_on_app by done. f_equal. by apply IH.
Qed.

End JoinSplit.

#[export] Hint Resolve split_on_not_nil : maint.

(** ** Case analysis on the comparisons of code units *)

(** [case_N_tests] splits every [N] comparison of the goal and of its
    hypotheses into the two cases of its specification, then tries [lia]. *)
(** Run monadic code: rewrite with the [maint] equations and reduce
    until nothing changes. *)
Ltac run_maint := repeat progress (autorewrite with maint; simpl).

Ltac case_N_tests :=
  repeat match goal with
         | H : context [(_ =? _)%N] |- _ => revert H
         | H : context [(_ <=? _)%N] |- _ => revert H
         | H : context [(_ <? _)%N] |- _ => revert H
         end;
  repeat match goal with
         | |- context [(?a =? ?b)%N] => destruct (N.eqb_spec a b)
         | |- context [(?a <=? ?b)%N] => destruct (N.leb_spec a b)
         | |- context [(?a <? ?b)%N] => destruct (N.ltb_spec a b)
         end;
  simpl; intros; try lia; try done.

(** ** Checking a property of all code units below a bound *)

(** A decidable property of the code units below [n] follows from one
    evaluation of its check on [0 .. n-1]. *)
Lemma N_below_check (P : N → Prop) `{!∀ c, Decision (P c)} (n : nat) :
  bool_decide (Forall P (N.of_nat <$> seq 0 n)) = true → ∀ c, (c < N.of_nat n)%N → P c.
Proof.
  intros Hb c Hc. apply bool_decide_eq_true in Hb. rewrite Forall_forall in Hb. apply Hb.
  apply list_elem_of_fmap. exists (N.to_nat c). rewrite elem_of_seq. lia.
Qed.

(** ** [omap] on lists: the rows a pipeline keeps *)

Lemma omap_cons_app {A B} (f : A → option B) x (l : list A) :
  omap f (x :: l) = option_list (f x) ++ omap f l.
Proof. simpl. by destruct (f x). Qed.

Lemma length_omap_le {A B} (f : A → option B) (l : list A) : length (omap f l) ≤ length l.
Proof.
  induction l as [|x l IH]; [done|]. rewrite omap_cons_app, length_app.
  destruct (f x); simpl; lia.
Qed.

Lemma length_omap_eq {A B} (f : A → option B) (l : list A) :
  length (omap f l) = length l ↔ Forall (λ x, is_Some (f x)) l.
Proof.
  induction l as [|x l IH]; [split; auto|]. rewrite omap_cons_app, length_app, Forall_cons.
  destruct (f x); simpl.
  - rewrite <- IH. split; [intros; split; [by eexists|lia]|intros [_ ?]; lia].
  - pose proof (length_omap_le f l). split; [lia|intros [[? ?] _]; discriminate].
Qed.

Lemma Exists_false_iff {A} (f : A → bool) (l : list A) :
  Exists (λ x, f x = false) l ↔ ¬ Forall (λ x, f x = true) l.
Proof.
  induction l as [|x l IH].
  - split; [inversion 1|intros H; exfalso; apply H; constructor].
  - rewrite Exists_cons, Forall_cons, IH. destruct (f x); naive_solver.
Qed.

Lemma Forall_omap {A B} (f : A → option B) (P : B → Prop) (l : list A) :
  (∀ x y, f x = Some y → P y) → Forall P (omap f l).
Proof.
  intros Hf. induction l as [|x l IH]; [constructor|].
  rewrite omap_cons_app. apply Forall_app. split; [|done].
  destruct (f x) eqn:E; simpl; [constructor; [by eapply Hf|constructor]|constructor].
Qed.

Lemma sum_list_fmap_add {A} (f g : A → nat) (l : list A) :
  sum_list ((λ x, f x + g x) <$> l) = sum_list (f <$> l) + sum_list (g <$> l).
Proof. induction l as [|x l IH]; [done|]. rewrite !fmap_cons. cbn [sum_list]. rewrite IH. unfold id. lia. Qed.

Lemma elem_of_join {A} (x : A) (sep : list A) (xs : list (list A)) :
  x ∈ join sep xs → x ∈ sep ∨ ∃ y, y ∈ xs ∧ x ∈ y.
Proof.
  induction xs as [|y [|y' xs] IH]; simpl; [set_solver|set_solver|].
  rewrite !elem_of_app. intros [Hy|[Hs|Hj]]; [set_solver|by left|].
  destruct (IH Hj) as [?|(z & Hz & ?)]; [by left|right; exists z; set_solver].
Qed.

(** ** Occurrences of a code unit *)

Definition occurrences (c : N) (s : list N) : nat := length (List.filter (N.eqb c) s).

Lemma occurrences_app c s t : occurrences c (s ++ t) = occurrences c s + occurrences c t.
Proof. unfold occurrences. by rewrite List.filter_app, length_app. Qed.

Lemma occurrences_absent c s : c ∉ s → occurrences c s = 0.
Proof.
  unfold occurrences. induction s as [|d s IH]; intros Hc; [done|]. simpl.
  rewrite elem_of_cons in Hc. destruct (N.eqb_spec c d); [naive_solver|]. apply IH. naive_solver.
Qed.

#[export] Hint Rewrite occurrences_app : maint.

(** [s.split(c)] has one piece more than [s] has occurrences of [c]. *)
Lemma split_on_length c s : length (split_on c s) = S (occurrences c s).
Proof.
  unfold occurrences. induction s as [|y s IH]; [done|]. cbn [split_on List.filter].
  case_bool_decide as Hy.
  - subst. rewrite N.eqb_refl. cbn [length]. by rewrite IH.
  - rewrite (proj2 (N.eqb_neq c y)) by congruence.
    destruct (split_on c s) eqn:E; [by apply split_on_not_nil in E|]. done.
Qed.

Lemma occurrences_join c sep xs :
  xs ≠ [] → occurrences c (join sep xs) = (length xs - 1) * occurrences c sep + sum_list (occurrences c <$> xs).
Proof.
  induction xs as [|x [|x' xs] IH]; intros _; [done|cbn [join length fmap list_fmap sum_list]; unfold id; lia|].
  change (join sep (x :: x' :: xs)) with (x ++ sep ++ join sep (x' :: xs)).
  rewrite !occurrences_app, IH by done. rewrite !fmap_cons. cbn [sum_list length]. unfold id. lia.
Qed.

(** ** Filtering keeps a sublist *)

Lemma filter_sublist {A} (p : A → bool) (l : list A) : List.filter p l `sublist_of` l.
Proof.
  induction l as [|x l IH]; simpl; [done|].
  destruct (p x); [by apply sublist_skip|by apply sublist_cons].
Qed.

Lemma NoDup_fmap_filter {A B} (f : A → B) (p : A → bool) (l : list A) :
  NoDup (f <$> l) → NoDup (f <$> List.filter p l).
Proof. intros Hl. eapply sublist_NoDup; [exact Hl|]. apply fmap_sublist, filter_sublist. Qed.

Lemma Forall_list_filter {A} (P : A → Prop) (p : A → bool) (l : list A) :
  Forall P l → Forall P (List.filter p l).
Proof. induction 1; simpl; [done|]. case_match; auto. Qed.

Lemma elem_of_List_filter {A} (p : A → bool) (l : list A) x :
  x ∈ List.filter p l ↔ p x = true ∧ x ∈ l.
Proof.
  induction l as [|y l IH]; simpl; [set_solver|].
  rewrite elem_of_cons. destruct (p y) eqn:Hy; rewrite ?elem_of_cons, IH;
    split; intros; destruct_and?; destruct_or?; subst; intuition congruence.
Qed.

Lemma length_filter_perm {A} (p : A → bool) (l1 l2 : list A) :
  l1 ≡ₚ l2 → length (List.filter p l1) = length (List.filter p l2).
Proof. induction 1; simpl; repeat case_match; simpl; congruence. Qed.
