(* ===== verification/JsString.v ===== *)
(** JavaScript strings.  A string is the list of its UTF-16 code units, as
    ECMAScript defines it.  Literals of the script are written here as
    UTF-8 Rocq literals decoded by [u].  The operations are the ones
    [app.js] calls: [toUpperCase] (line 159), [toLowerCase] (line 186),
    [trim] (line 136), and [ToString] on the integer numbers a cell can
    hold (lines 159, 491-500). *)

From Stdlib Require Ascii.
From S2P Require Import Prelude.

Abbreviation jstr := (list N) (only parsing).

(** ** Literals *)

Definition bytes_of (s : string) : list N :=
  map Ascii.N_of_ascii (String.list_ascii_of_string s).

(** UTF-8 to UTF-16: one code unit for the scalar values below 0x10000, a
    surrogate pair above. *)
Fixpoint utf16_of_utf8 (l : list N) : list N :=
  match l with
  | [] => []
  | b1 :: r =>
      if (b1 <? 128)%N then b1 :: utf16_of_utf8 r
      else if (b1 <? 224)%N then
        match r with
        | b2 :: r' => (N.land b1 31 * 64 + N.land b2 63)%N :: utf16_of_utf8 r'
        | [] => []
        end
      else if (b1 <? 240)%N then
        match r with
        | b2 :: b3 :: r' =>
            (N.land b1 15 * 4096 + N.land b2 63 * 64 + N.land b3 63)%N
              :: utf16_of_utf8 r'
        | _ => []
        end
      else
        match r with
        | b2 :: b3 :: b4 :: r' =>
            let v := (N.land b1 7 * 262144 + N.land b2 63 * 4096
                      + N.land b3 63 * 64 + N.land b4 63 - 65536)%N in
            (55296 + v / 1024)%N :: (56320 + v mod 1024)%N :: utf16_of_utf8 r'
        | _ => []
        end
  end.

Definition u (s : string) : jstr := utf16_of_utf8 (bytes_of s).

(** Literals stay folded under [simpl]; [vm_compute] decodes them. *)
Arguments u : simpl never.

Notation "‹ s ›" := (u s%string) (format "‹ s ›") : js_scope.
Open Scope js_scope.

(** ** Case mapping ([String.prototype.toUpperCase], [toLowerCase]) *)

(** The Unicode default case conversion of one code unit below 0x100.
    The exceptions of Latin-1 are ß (upper case "SS"), µ (upper case
    U+039C) and ÿ (upper case U+0178).  Code units from 0x100 up are left
    unchanged. *)
Definition to_upper_unit (c : N) : list N :=
  if (97 <=? c)%N && (c <=? 122)%N then [(c - 32)%N]
  else if (c =? 181)%N then [924%N]
  else if (c =? 223)%N then [83%N; 83%N]
  else if (224 <=? c)%N && (c <=? 254)%N && negb (c =? 247)%N then [(c - 32)%N]
  else if (c =? 255)%N then [376%N]
  else [c].

Definition to_lower_unit (c : N) : N :=
  if (65 <=? c)%N && (c <=? 90)%N then (c + 32)%N
  else if (192 <=? c)%N && (c <=? 222)%N && negb (c =? 215)%N then (c + 32)%N
  else c.

Definition toUpperCase (s : jstr) : jstr := s ≫= to_upper_unit.
Definition toLowerCase (s : jstr) : jstr := to_lower_unit <$> s.

Lemma toUpperCase_app s t : toUpperCase (s ++ t) = toUpperCase s ++ toUpperCase t.
Proof. apply bind_app. Qed.

Lemma toLowerCase_app s t : toLowerCase (s ++ t) = toLowerCase s ++ toLowerCase t.
Proof. apply fmap_app. Qed.

Lemma toLowerCase_cons c s : toLowerCase (c :: s) = to_lower_unit c :: toLowerCase s.
Proof. done. Qed.

(** Outside Latin-1 both mappings are the identity. *)
Lemma to_lower_unit_high c : (256 ≤ c)%N → to_lower_unit c = c.
Proof.
  intros Hc. unfold to_lower_unit.
  destruct (N.leb_spec c 90), (N.leb_spec c 222); try lia. by rewrite !andb_false_r.
Qed.

Lemma to_upper_unit_high c : (256 ≤ c)%N → to_upper_unit c = [c].
Proof.
  intros Hc. unfold to_upper_unit.
  destruct (N.leb_spec c 122), (N.eqb_spec c 181), (N.eqb_spec c 223),
    (N.leb_spec c 254), (N.eqb_spec c 255); try lia. by rewrite !andb_false_r.
Qed.

Lemma to_upper_to_lower_unit c : to_upper_unit (to_lower_unit c) = to_upper_unit c.
Proof.
  destruct (N.lt_ge_cases c 256) as [Hc|Hc].
  - by apply (N_below_check (λ c, to_upper_unit (to_lower_unit c) = to_upper_unit c) 256);
      [vm_compute|].
  - by rewrite to_lower_unit_high.
Qed.

Lemma to_upper_unit_idem c : to_upper_unit c ≫= to_upper_unit = to_upper_unit c.
Proof.
  destruct (N.lt_ge_cases c 256) as [Hc|Hc].
  - by apply (N_below_check (λ c, to_upper_unit c ≫= to_upper_unit = to_upper_unit c) 256);
      [vm_compute|].
  - rewrite to_upper_unit_high by done. simpl. by rewrite to_upper_unit_high.
Qed.

(** Upper-casing ignores an earlier lower-casing, and is idempotent. *)
Lemma toUpperCase_cons c s : toUpperCase (c :: s) = to_upper_unit c ++ toUpperCase s.
Proof. done. Qed.

Lemma toUpperCase_toLowerCase s : toUpperCase (toLowerCase s) = toUpperCase s.
Proof.
  induction s as [|c s IH]; [done|].
  by rewrite toLowerCase_cons, !toUpperCase_cons, to_upper_to_lower_unit, IH.
Qed.

Lemma toUpperCase_idem s : toUpperCase (toUpperCase s) = toUpperCase s.
Proof.
  induction s as [|c s IH]; [done|].
  rewrite !toUpperCase_cons, toUpperCase_app, IH. unfold toUpperCase at 1.
  by rewrite to_upper_unit_idem.
Qed.

#[export] Hint Rewrite toUpperCase_app toLowerCase_app toLowerCase_cons : maint.

(** ** [String.prototype.trim] *)

(** WhiteSpace and LineTerminator of ECMAScript: TAB, LF, VT, FF, CR, SP,
    NBSP, ZWNBSP and the space separators of Unicode (Zs), LS and PS. *)
Definition is_js_space (c : N) : bool :=
  (c =? 9)%N || (c =? 10)%N || (c =? 11)%N || (c =? 12)%N || (c =? 13)%N
  || (c =? 32)%N || (c =? 160)%N || (c =? 5760)%N
  || ((8192 <=? c)%N && (c <=? 8202)%N)
  || (c =? 8232)%N || (c =? 8233)%N || (c =? 8239)%N || (c =? 8287)%N
  || (c =? 12288)%N || (c =? 65279)%N.

Fixpoint drop_spaces (s : jstr) : jstr :=
  match s with
  | [] => []
  | c :: s' => if is_js_space c then drop_spaces s' else s
  end.

Definition trim (s : jstr) : jstr := reverse (drop_spaces (reverse (drop_spaces s))).

Lemma drop_spaces_nil_iff s : drop_spaces s = [] ↔ Forall (λ c, is_js_space c = true) s.
Proof.
  induction s as [|c s IH]; simpl; [split; auto|].
  rewrite Forall_cons. destruct (is_js_space c); [rewrite IH; naive_solver|].
  split; [done|intros [? _]; discriminate].
Qed.

Lemma Forall_drop_spaces s :
  Forall (λ c, is_js_space c = true) (drop_spaces s) ↔ drop_spaces s = [].
Proof.
  induction s as [|c s IH]; simpl; [done|].
  destruct (is_js_space c) eqn:Hc; [done|].
  rewrite Forall_cons, Hc. naive_solver.
Qed.

(** [trim s] is empty exactly when every code unit of [s] is white space. *)
Lemma trim_nil_iff s : trim s = [] ↔ Forall (λ c, is_js_space c = true) s.
Proof.
  unfold trim. rewrite <- drop_spaces_nil_iff. split.
  - intros H. apply (f_equal reverse) in H. rewrite reverse_involutive in H.
    apply drop_spaces_nil_iff, Forall_reverse, Forall_drop_spaces in H. done.
  - intros ->. done.
Qed.

(** ** [ToString] of an integer number *)

Fixpoint digits_of_uint (d : Decimal.uint) : jstr :=
  match d with
  | Decimal.Nil => []
  | Decimal.D0 d => 48%N :: digits_of_uint d
  | Decimal.D1 d => 49%N :: digits_of_uint d
  | Decimal.D2 d => 50%N :: digits_of_uint d
  | Decimal.D3 d => 51%N :: digits_of_uint d
  | Decimal.D4 d => 52%N :: digits_of_uint d
  | Decimal.D5 d => 53%N :: digits_of_uint d
  | Decimal.D6 d => 54%N :: digits_of_uint d
  | Decimal.D7 d => 55%N :: digits_of_uint d
  | Decimal.D8 d => 56%N :: digits_of_uint d
  | Decimal.D9 d => 57%N :: digits_of_uint d
  end.

(** Number::toString of an integer: a minus sign, then its decimal digits
    without leading zeros. *)
Definition Z_toString (z : Z) : jstr :=
  match z with
  | Z0 => [48%N]
  | Zpos p => digits_of_uint (Pos.to_uint p)
  | Zneg p => 45%N :: digits_of_uint (Pos.to_uint p)
  end.

(** The code units of a decimal numeral: digits and the minus sign. *)
Definition numeral_unit (c : N) : Prop := c = 45%N ∨ (48 ≤ c ≤ 57)%N.

Lemma digits_of_uint_numeral d : Forall numeral_unit (digits_of_uint d).
Proof.
  induction d; simpl; repeat constructor; try done; unfold numeral_unit; lia.
Qed.

Lemma Z_toString_numeral z : Forall numeral_unit (Z_toString z).
Proof.
  destruct z; simpl; [repeat constructor; unfold numeral_unit; lia| |];
    [|constructor; [by left|]]; apply digits_of_uint_numeral.
Qed.

#[export] Hint Resolve Z_toString_numeral : maint.
