(* ===== verification/JsValue.v ===== *)
(** Spreadsheet values as the script sees them.  A [cell] is what
    [XLSX.utils.sheet_to_json(worksheet, { defval: '' })] (app.js line
    109) puts in a row object: a string (an empty cell is [''] because of
    [defval]), a number, or a boolean.  A raw row is the object's own
    properties in enumeration order.  The file also holds the three
    operations the script applies to these values: truthiness (the [||]
    and [if] of lines 133-147, 136), [ToString] (template literals, lines
    491-500, and [toString()], line 159), and [JSON.stringify] of a whole
    row (line 186).  It ends with the exceptions of the script. *)

From S2P Require Import Prelude JsString.

Inductive cell :=
  | CStr (s : jstr)
  | CNum (n : Z)
  | CBool (b : bool).

#[export] Instance cell_eq_dec : EqDecision cell.
Proof. solve_decision. Defined.

(** ToBoolean: the empty string, zero and [false] are falsy. *)
Definition truthy (c : cell) : bool :=
  match c with
  | CStr s => negb (bool_decide (s = []))
  | CNum n => negb (n =? 0)%Z
  | CBool b => b
  end.

(** ToString: what [`${v}`] and [v.toString()] produce. *)
Definition cell_toString (c : cell) : jstr :=
  match c with
  | CStr s => s
  | CNum n => Z_toString n
  | CBool true => ‹"true"›
  | CBool false => ‹"false"›
  end.

(** A row object: its own enumerable properties in enumeration order.
    The keys of a parsed sheet row are distinct ([row_wf]). *)
Abbreviation row := (list (jstr * cell)) (only parsing).

Definition row_wf (r : row) : Prop := NoDup r.*1.

(** Property read [row[k]]: [None] is [undefined]. *)
Fixpoint prop (r : row) (k : jstr) : option cell :=
  match r with
  | [] => None
  | (k', v) :: r' => if bool_decide (k' = k) then Some v else prop r' k
  end.

Lemma prop_Some r k v : row_wf r → (k, v) ∈ r → prop r k = Some v.
Proof.
  unfold row_wf. induction r as [|[k' v'] r IH]; simpl; [set_solver|].
  rewrite NoDup_cons. intros [Hk Hnd] Hin. apply elem_of_cons in Hin.
  case_bool_decide as Hkk; [subst k'|].
  - destruct Hin as [Heq|Hin]; [by simplify_eq|].
    exfalso. apply Hk. apply list_elem_of_fmap. exists (k, v). done.
  - destruct Hin as [Heq|Hin]; [by simplify_eq|]. by apply IH.
Qed.

Lemma prop_elem r k v : prop r k = Some v → (k, v) ∈ r.
Proof.
  induction r as [|[k' v'] r IH]; simpl; [done|].
  case_bool_decide; intros Hp; simplify_eq; set_solver.
Qed.

(** ** [JSON.stringify] *)

Definition hex_unit (n : N) : N := if (n <? 10)%N then (48 + n)%N else (87 + n)%N.

(** UnicodeEscape: [\u] and four lower-case hexadecimal digits. *)
Definition unicode_escape (c : N) : jstr :=
  [92%N; 117%N; hex_unit (c / 4096); hex_unit ((c / 256) mod 16);
   hex_unit ((c / 16) mod 16); hex_unit (c mod 16)].

Definition is_lead (c : N) : bool := (55296 <=? c)%N && (c <=? 56319)%N.
Definition is_trail (c : N) : bool := (56320 <=? c)%N && (c <=? 57343)%N.

(** The escapes of QuoteJSONString for a code point that is not a
    surrogate. *)
Definition json_escape_unit (c : N) : jstr :=
  if (c =? 8)%N then [92%N; 98%N]
  else if (c =? 9)%N then [92%N; 116%N]
  else if (c =? 10)%N then [92%N; 110%N]
  else if (c =? 12)%N then [92%N; 102%N]
  else if (c =? 13)%N then [92%N; 114%N]
  else if (c =? 34)%N then [92%N; 34%N]
  else if (c =? 92)%N then [92%N; 92%N]
  else if (c <? 32)%N then unicode_escape c
  else [c].

(** QuoteJSONString without the quotes: a surrogate pair is copied, a lone
    surrogate is escaped. *)
Fixpoint json_quote_units (s : jstr) : jstr :=
  match s with
  | [] => []
  | c :: r =>
      if is_lead c then
        match r with
        | d :: r' =>
            if is_trail d then c :: d :: json_quote_units r'
            else unicode_escape c ++ json_quote_units r
        | [] => unicode_escape c
        end
      else if is_trail c then unicode_escape c ++ json_quote_units r
      else json_escape_unit c ++ json_quote_units r
  end.

Definition json_string (s : jstr) : jstr := [34%N] ++ json_quote_units s ++ [34%N].

Definition json_cell (c : cell) : jstr :=
  match c with
  | CStr s => json_string s
  | CNum n => Z_toString n
  | CBool b => cell_toString (CBool b)
  end.

Definition json_member (kv : jstr * cell) : jstr := json_string kv.1 ++ [58%N] ++ json_cell kv.2.

(** [JSON.stringify(row)]: the members ["key":value], comma separated, in
    braces. *)
Definition json_row (r : row) : jstr := [123%N] ++ join [44%N] (json_member <$> r) ++ [125%N].

(** Every member's text occurs in the text of the row. *)
Lemma json_row_member r kv : kv ∈ r → includes (json_row r) (json_member kv) = true.
Proof.
  intros Hin. unfold json_row. apply includes_app_r, includes_app_l, includes_join.
  by apply list_elem_of_fmap_2.
Qed.

(** A string of printable code units of the Basic Multilingual Plane,
    without surrogates, quotes or backslashes, is copied unchanged. *)
Definition plain_unit (c : N) : bool :=
  (32 <=? c)%N && (c <? 55296)%N && negb (c =? 34)%N && negb (c =? 92)%N.

Lemma json_escape_plain c :
  plain_unit c = true →
  is_lead c = false ∧ is_trail c = false ∧ json_escape_unit c = [c].
Proof. unfold plain_unit, is_lead, is_trail, json_escape_unit. case_N_tests. Qed.

Lemma json_quote_plain s : forallb plain_unit s = true → json_quote_units s = s.
Proof.
  induction s as [|c s IH]; simpl; [done|].
  rewrite andb_true_iff. intros [Hc Hs].
  destruct (json_escape_plain c Hc) as (-> & -> & ->). simpl. by rewrite IH.
Qed.

(** The text of a row contains the quoted name of each of its keys. *)
Lemma json_row_key r k v :
  (k, v) ∈ r → includes (json_row r) (json_string k) = true.
Proof.
  intros Hin. eapply includes_trans; [by apply json_row_member|].
  apply includes_spec. exists [], ([58%N] ++ json_cell v). done.
Qed.

(** ** Exceptions *)

(** The exceptions the modelled code can raise: a [TypeError] (calling a
    method a value does not have) and the error [XLSX.read] throws on bytes
    that are not a workbook. *)
Inductive js_error :=
  | TypeError (message : jstr)
  | ParseError (message : jstr)
  | Error (message : jstr).

Definition error_message (e : js_error) : jstr :=
  match e with TypeError m | ParseError m | Error m => m end.

(** A computation of the script that returns a value or throws. *)
Inductive throws (A : Type) :=
  | Ok (a : A)
  | Throw (e : js_error).
Arguments Ok {A} a.
Arguments Throw {A} e.

#[export] Instance throws_ret : MRet throws := λ A a, Ok a.
#[export] Instance throws_bind : MBind throws :=
  λ A B f m, match m with Ok a => f a | Throw e => Throw e end.

Lemma throws_bind_Ok {A B} (a : A) (f : A → throws B) : (Ok a ≫= f) = f a.
Proof. done. Qed.

Lemma throws_bind_Throw {A B} e (f : A → throws B) : (Throw e ≫= f) = Throw e.
Proof. done. Qed.

Lemma throws_mret {A} (a : A) : (mret a : throws A) = Ok a.
Proof. done. Qed.

#[export] Hint Rewrite @throws_bind_Ok @throws_bind_Throw @throws_mret : maint.

(** ** Stateful code that can throw *)

(** A computation over a state [S] that returns a value or throws.  As
    in JavaScript, a throw does not undo the updates made before it. *)
Definition ST (S A : Type) : Type := S → throws A * S.

#[export] Instance ST_ret {S} : MRet (ST S) := λ A a s, (Ok a, s).
#[export] Instance ST_bind {S} : MBind (ST S) :=
  λ A B f m s, match m s with (Ok a, s') => f a s' | (Throw e, s') => (Throw e, s') end.

Section ST.
Context {S : Type}.

Definition st_get : ST S S := λ s, (Ok s, s).
Definition st_modify (f : S → S) : ST S unit := λ s, (Ok (), f s).
Definition st_raise {A} (e : js_error) : ST S A := λ s, (Throw e, s).
Definition st_lift {A} (t : throws A) : ST S A :=
  match t with Ok a => mret a | Throw e => st_raise e end.

Lemma st_bind_run {A B} (m : ST S A) (f : A → ST S B) s :
  (m ≫= f) s = match m s with (Ok a, s') => f a s' | (Throw e, s') => (Throw e, s') end.
Proof. done. Qed.

Lemma st_ret_run {A} (a : A) s : (mret a : ST S A) s = (Ok a, s).
Proof. done. Qed.

Lemma st_get_run s : st_get s = (Ok s, s).
Proof. done. Qed.

Lemma st_modify_run f s : st_modify f s = (Ok (), f s).
Proof. done. Qed.

Lemma st_lift_run {A} (t : throws A) s :
  st_lift t s = match t with Ok a => (Ok a, s) | Throw e => (Throw e, s) end.
Proof. by destruct t. Qed.

End ST.

#[export] Hint Rewrite @st_bind_run @st_ret_run @st_get_run @st_modify_run @st_lift_run : maint.

(** ** Object and array literals *)

(** The value of an object or array literal of the script whose fields
    are strings, numbers and booleans: the configurations handed to
    Chart.js and DataTables.  An object keeps its keys in source order. *)
Inductive jsval :=
  | JStr (s : jstr)
  | JNum (n : Z)
  | JBool (b : bool)
  | JArr (xs : list jsval)
  | JObj (fields : list (jstr * jsval)).

(** Reading the path of keys [ks] in nested objects. *)
Fixpoint jget (v : jsval) (ks : list jstr) : option jsval :=
  match ks with
  | [] => Some v
  | k :: ks' =>
      match v with
      | JObj fs => (fix find (fs : list (jstr * jsval)) : option jsval :=
                     match fs with
                     | [] => None
                     | (k', v') :: fs' => if bool_decide (k' = k) then jget v' ks' else find fs'
                     end) fs
      | _ => None
      end
  end.
