(* ===== verification/JsDate.v ===== *)
(** [new Date(v)] for a cell [v]: the time value (milliseconds since the
    epoch, UTC) the date comparator of [updateTable] (app.js lines
    405-409) subtracts.  [None] is NaN, an invalid date.

    A string is parsed by [Date.parse].  ECMAScript fixes the result for
    the Date Time String Format (ECMA-262, "Date Time String Format"):
    [YYYY], [YYYY-MM] or [YYYY-MM-DD], or a six-digit signed year, then
    optionally [THH:mm], [THH:mm:ss] or [THH:mm:ss.sss] and an offset [Z]
    or [+HH:mm] / [-HH:mm].  Date-only forms are UTC.  A date-time form
    without an offset is local time; the model takes the host's time
    zone to be UTC.  Fields are range-checked as V8 does: a day is
    [01]-[31] and MakeDay carries an overflowing day into the next month.
    A string outside the format is parsed by implementation-specific
    heuristics; the model takes the engine that rejects it (NaN).
    Numbers are time values, clipped by TimeClip; booleans convert to
    0 and 1.  The second part proves that [days_from_civil] counts the
    days of the Gregorian calendar and that [parse_iso] reads back the
    dates [iso_date] writes. *)

From S2P Require Import Prelude JsString JsValue.

Definition ms_per_day : Z := 86400000.

(** TimeClip: a time value beyond 8.64e15 ms is NaN. *)
Definition time_clip (t : Z) : option Z :=
  if (Z.abs t <=? 8640000000000000)%Z then Some t else None.

Definition digit_value (c : N) : option Z :=
  if (48 <=? c)%N && (c <=? 57)%N then Some (Z.of_N c - 48)%Z else None.

(** Exactly [n] decimal digits at the head of [s], read onto [acc]. *)
Fixpoint take_digits (n : nat) (acc : Z) (s : jstr) : option (Z * jstr) :=
  match n, s with
  | O, _ => Some (acc, s)
  | S n', c :: s' => d ← digit_value c; take_digits n' (acc * 10 + d)%Z s'
  | S _, [] => None
  end.

(** The code unit [c] at the head of [s]. *)
Definition expect (c : N) (s : jstr) : option jstr :=
  match s with
  | d :: s' => if (d =? c)%N then Some s' else None
  | [] => None
  end.

(** [YYYY] or [+YYYYYY] / [-YYYYYY]; [-000000] is not a year. *)
Definition parse_year (s : jstr) : option (Z * jstr) :=
  match expect 43 s, expect 45 s with
  | Some s', _ => take_digits 6 0 s'
  | None, Some s' =>
      '(y, r) ← take_digits 6 0 s'; if (y =? 0)%Z then None else Some ((- y)%Z, r)
  | None, None => take_digits 4 0 s
  end.

(** The date part: year, month (default 1), day (default 1). *)
Definition parse_date_part (s : jstr) : option (Z * Z * Z * jstr) :=
  '(y, r) ← parse_year s;
  match expect 45 r with
  | None => Some (y, 1%Z, 1%Z, r)
  | Some r1 =>
      '(m, r2) ← take_digits 2 0 r1;
      match expect 45 r2 with
      | None => Some (y, m, 1%Z, r2)
      | Some r3 => '(d, r4) ← take_digits 2 0 r3; Some (y, m, d, r4)
      end
  end.

(** Seconds and milliseconds after [HH:mm], both optional. *)
Definition parse_seconds (s : jstr) : option (Z * Z * jstr) :=
  match expect 58 s with
  | None => Some (0%Z, 0%Z, s)
  | Some r =>
      '(ss, r1) ← take_digits 2 0 r;
      match expect 46 r1 with
      | None => Some (ss, 0%Z, r1)
      | Some r2 => '(ms, r3) ← take_digits 3 0 r2; Some (ss, ms, r3)
      end
  end.

(** The offset that ends a date-time form, in minutes to subtract:
    nothing (local time, UTC here), [Z], or a signed [HH:mm]. *)
Definition parse_offset (s : jstr) : option Z :=
  match s with
  | [] => Some 0%Z
  | [90%N] => Some 0%Z
  | c :: r =>
      sign ← (if (c =? 43)%N then Some 1%Z else if (c =? 45)%N then Some (-1)%Z else None);
      '(hh, r1) ← take_digits 2 0 r;
      r2 ← expect 58 r1;
      '(mm, r3) ← take_digits 2 0 r2;
      if bool_decide (r3 = []) && (hh <=? 23)%Z && (mm <=? 59)%Z
      then Some (sign * (hh * 60 + mm))%Z else None
  end.

(** MakeDay for a proleptic Gregorian date: days since 1970-01-01.  The
    day enters linearly, so a day past the month's end carries over. *)
Definition days_from_civil (y m d : Z) : Z :=
  let y' := if (m <=? 2)%Z then (y - 1)%Z else y in
  let era := (y' / 400)%Z in
  let yoe := (y' - era * 400)%Z in
  let mp := ((m + 9) mod 12)%Z in
  let doy := ((153 * mp + 2) / 5 + d - 1)%Z in
  let doe := (yoe * 365 + yoe / 4 - yoe / 100 + doy)%Z in
  (era * 146097 + doe - 719468)%Z.

(** [Date.parse] on the Date Time String Format. *)
Definition parse_iso (s : jstr) : option Z :=
  '(y, m, d, r) ← parse_date_part s;
  if negb ((1 <=? m)%Z && (m <=? 12)%Z && (1 <=? d)%Z && (d <=? 31)%Z) then None else
  let day := days_from_civil y m d in
  match expect 84 r with
  | None => if bool_decide (r = []) then Some (day * ms_per_day)%Z else None
  | Some r1 =>
      '(hh, r2) ← take_digits 2 0 r1;
      r3 ← expect 58 r2;
      '(mi, r4) ← take_digits 2 0 r3;
      '(ss, ms, r5) ← parse_seconds r4;
      off ← parse_offset r5;
      if (hh <=? 24)%Z && (mi <=? 59)%Z && (ss <=? 59)%Z
         && (negb (hh =? 24)%Z || ((mi =? 0)%Z && (ss =? 0)%Z && (ms =? 0)%Z))
      then Some (day * ms_per_day + hh * 3600000 + mi * 60000 + ss * 1000 + ms - off * 60000)%Z
      else None
  end.

(** The time value of [new Date(c)]. *)
Definition date_time (c : cell) : option Z :=
  match c with
  | CStr s => parse_iso s ≫= time_clip
  | CNum n => time_clip n
  | CBool b => Some (if b then 1%Z else 0%Z)
  end.

(** ** The calendar [days_from_civil] counts

    [days_from_civil] is the closed form of MakeDay (era of 400 years,
    year of era, day of year counted from March).  The lemmas below show
    it counts days as the Gregorian calendar does: one day per day, the
    month lengths with February's leap day, 31 days from December 1 to
    January 1, day 0 on 1970-01-01; hence it is strictly increasing in
    calendar order.  [iso_date] writes a date as [YYYY-MM-DD] and
    [parse_iso] reads it back. *)

Local Open Scope Z_scope.

Definition year_days (y : Z) : Z := 365 * y + y / 4 - y / 100 + y / 400.

Lemma era_days y : 146097 * (y / 400) + (365 * (y - y / 400 * 400) + (y - y / 400 * 400) / 4 - (y - y / 400 * 400) / 100) = year_days y.
Proof.
  unfold year_days. set (q := y / 400). set (r := y - q * 400).
  assert (y = r + q * 100 * 4) as Hy by (subst r; lia).
  assert (y / 4 = r / 4 + q * 100) as H4 by (rewrite Hy, Z.div_add; lia).
  assert (y = r + q * 4 * 100) as Hy' by (subst r; lia).
  assert (y / 100 = r / 100 + q * 4) as H100 by (rewrite Hy', Z.div_add; lia).
  rewrite H4, H100. lia.
Qed.

Definition leap (y : Z) : bool := ((y mod 4 =? 0) && negb (y mod 100 =? 0)) || (y mod 400 =? 0).

Lemma div_step y k : 0 < k → y / k - (y - 1) / k = if y mod k =? 0 then 1 else 0.
Proof.
  intros Hk. pose proof (Z.div_mod y k ltac:(lia)). pose proof (Z.mod_pos_bound y k Hk).
  destruct (Z.eqb_spec (y mod k) 0) as [E|E].
  - assert (y - 1 = (y / k - 1) * k + (k - 1)) as Hy by lia.
    rewrite Hy, Z.div_add_l, (Z.div_small (k - 1) k) by lia. lia.
  - assert (y - 1 = (y / k) * k + (y mod k - 1)) as Hy by lia.
    rewrite Hy, Z.div_add_l, (Z.div_small (y mod k - 1) k) by lia. lia.
Qed.

Lemma mod_factor y a b : 0 < a → 0 < b → y mod (a * b) = 0 → y mod a = 0.
Proof.
  intros Ha Hb H. apply Z.mod_divide in H; [|lia]. apply Z.mod_divide; [lia|].
  eapply Z.divide_trans; [|exact H]. by exists b; lia.
Qed.

Lemma year_days_succ y : year_days y - year_days (y - 1) = 365 + (if leap y then 1 else 0).
Proof.
  unfold year_days, leap.
  pose proof (div_step y 4 ltac:(lia)). pose proof (div_step y 100 ltac:(lia)).
  pose proof (div_step y 400 ltac:(lia)).
  pose proof (mod_factor y 4 25 ltac:(lia) ltac:(lia) : y mod 100 = 0 → y mod 4 = 0).
  pose proof (mod_factor y 100 4 ltac:(lia) ltac:(lia) : y mod 400 = 0 → y mod 100 = 0).
  destruct (Z.eqb_spec (y mod 4) 0), (Z.eqb_spec (y mod 100) 0), (Z.eqb_spec (y mod 400) 0);
    simpl in *; lia.
Qed.

Definition days_in_month (y m : Z) : Z :=
  if m =? 2 then (if leap y then 29 else 28)
  else if (m =? 4) || (m =? 6) || (m =? 9) || (m =? 11) then 30 else 31.

Lemma days_from_civil_eq y m d :
  days_from_civil y m d =
    year_days (if m <=? 2 then y - 1 else y) + (153 * ((m + 9) mod 12) + 2) / 5 + d - 1 - 719468.
Proof.
  unfold days_from_civil. set (y' := if m <=? 2 then y - 1 else y).
  rewrite <- (era_days y'). lia.
Qed.

Lemma days_from_civil_day y m d : days_from_civil y m d = days_from_civil y m 1 + (d - 1).
Proof. rewrite !days_from_civil_eq. lia. Qed.

(** Decides the comparisons of constants left by a case split. *)
Ltac ground_tests :=
  repeat match goal with
  | |- context [?t] =>
      lazymatch t with
      | (_ =? _)%Z => idtac | (_ <=? _)%Z => idtac | (_ / _)%Z => idtac | (_ mod _)%Z => idtac
      end;
      let v := eval vm_compute in t in
      lazymatch v with
      | true => change t with true
      | false => change t with false
      | Z0 => change t with v
      | Zpos _ => change t with v
      | Zneg _ => change t with v
      end
  end; cbn [orb andb negb].

Lemma days_from_civil_next_month y m :
  1 <= m <= 11 → days_from_civil y (m + 1) 1 = days_from_civil y m 1 + days_in_month y m.
Proof.
  intros Hm. pose proof (year_days_succ y).
  assert (m = 1 ∨ m = 2 ∨ m = 3 ∨ m = 4 ∨ m = 5 ∨ m = 6 ∨ m = 7 ∨ m = 8 ∨ m = 9 ∨ m = 10 ∨ m = 11)
    as Hc by lia.
  rewrite !days_from_civil_eq. unfold days_in_month.
  destruct_or! Hc; subst m; ground_tests; destruct (leap y); lia.
Qed.

Lemma days_from_civil_next_year y : days_from_civil (y + 1) 1 1 = days_from_civil y 12 1 + 31.
Proof. rewrite !days_from_civil_eq. ground_tests. replace (y + 1 - 1) with y by lia. lia. Qed.

Lemma days_from_civil_epoch : days_from_civil 1970 1 1 = 0.
Proof. reflexivity. Qed.

Lemma days_in_month_range y m : 28 <= days_in_month y m <= 31.
Proof. unfold days_in_month. repeat case_match; lia. Qed.

Lemma days_from_civil_month_lt y m m' :
  1 <= m → m < m' <= 12 → days_from_civil y m 1 + days_in_month y m <= days_from_civil y m' 1.
Proof.
  intros Hm [Hlt Hm']. replace m' with (m + 1 + Z.of_nat (Z.to_nat (m' - m - 1))) in * by lia.
  induction (Z.to_nat (m' - m - 1)) as [|k IH].
  - rewrite Z.add_0_r, days_from_civil_next_month by lia. lia.
  - replace (m + 1 + Z.of_nat (S k)) with (m + 1 + Z.of_nat k + 1) in * by lia.
    rewrite days_from_civil_next_month by lia.
    pose proof (days_in_month_range y (m + 1 + Z.of_nat k)). lia.
Qed.

Lemma days_from_civil_year_end y m :
  1 <= m <= 12 → days_from_civil y m 1 + days_in_month y m <= days_from_civil (y + 1) 1 1.
Proof.
  intros Hm. rewrite days_from_civil_next_year.
  destruct (Z.eq_dec m 12) as [->|]; [unfold days_in_month; ground_tests; lia|].
  pose proof (days_from_civil_month_lt y m 12 ltac:(lia) ltac:(lia)). lia.
Qed.

Lemma days_from_civil_month_ge y m : 1 <= m <= 12 → days_from_civil y 1 1 <= days_from_civil y m 1.
Proof.
  intros Hm. destruct (Z.eq_dec m 1) as [->|]; [lia|].
  pose proof (days_from_civil_month_lt y 1 m ltac:(lia) ltac:(lia)).
  pose proof (days_in_month_range y 1). lia.
Qed.

Lemma days_from_civil_year_le y y' : y <= y' → days_from_civil y 1 1 <= days_from_civil y' 1 1.
Proof.
  intros Hy. replace y' with (y + Z.of_nat (Z.to_nat (y' - y))) by lia.
  induction (Z.to_nat (y' - y)) as [|k IH]; [rewrite Z.add_0_r; lia|].
  replace (y + Z.of_nat (S k)) with (y + Z.of_nat k + 1) by lia.
  pose proof (days_from_civil_year_end (y + Z.of_nat k) 1 ltac:(lia)).
  pose proof (days_in_month_range (y + Z.of_nat k) 1). lia.
Qed.

(** A calendar date: the day exists in its month. *)
Definition valid_date (y m d : Z) : Prop := 1 <= m <= 12 ∧ 1 <= d <= days_in_month y m.

(** Calendar order of [(year, month, day)]. *)
Definition date_lt (a b : Z * Z * Z) : Prop :=
  let '(y, m, d) := a in let '(y', m', d') := b in
  y < y' ∨ (y = y' ∧ (m < m' ∨ (m = m' ∧ d < d'))).

Lemma days_from_civil_lt y m d y' m' d' :
  valid_date y m d → valid_date y' m' d' → date_lt (y, m, d) (y', m', d') →
  days_from_civil y m d < days_from_civil y' m' d'.
Proof.
  intros [Hm Hd] [Hm' Hd'] Hlt. rewrite (days_from_civil_day y), (days_from_civil_day y').
  destruct Hlt as [Hy|[-> [Hlt|[-> Hlt]]]]; [|pose proof (days_from_civil_month_lt y' m m'); lia|lia].
  pose proof (days_from_civil_year_end y m Hm).
  pose proof (days_from_civil_year_le (y + 1) y' ltac:(lia)).
  pose proof (days_from_civil_month_ge y' m' Hm'). lia.
Qed.

(** [n] zero-padded decimal digits of [z]. *)
Definition digit_char (x : Z) : N := Z.to_N (48 + x).
Fixpoint digits (n : nat) (z : Z) : jstr :=
  match n with
  | O => []
  | S n' => digit_char ((z / 10 ^ Z.of_nat n') mod 10) :: digits n' z
  end.

(** A date as [YYYY-MM-DD]. *)
Definition iso_date (y m d : Z) : jstr := digits 4 y ++ [45%N] ++ digits 2 m ++ [45%N] ++ digits 2 d.

Lemma digit_value_char x : 0 <= x < 10 → digit_value (digit_char x) = Some x.
Proof.
  intros Hx. unfold digit_value, digit_char.
  rewrite (proj2 (N.leb_le _ _)), (proj2 (N.leb_le _ _)) by lia. simpl. f_equal. lia.
Qed.

Lemma take_digits_digits n acc z r :
  take_digits n acc (digits n z ++ r) = Some (acc * 10 ^ Z.of_nat n + z mod 10 ^ Z.of_nat n, r).
Proof.
  revert acc. induction n as [|n IH]; intros acc; simpl.
  - rewrite Z.mod_1_r. f_equal. f_equal. lia.
  - rewrite digit_value_char by (apply Z.mod_pos_bound; lia). simpl. rewrite IH. do 2 f_equal.
    rewrite Nat2Z.inj_succ, Z.pow_succ_r, (Z.mul_comm 10) by lia.
    rewrite Z.rem_mul_r by lia. ring.
Qed.

Lemma expect_digits c n z r : (c < 48)%N → expect c (digits (S n) z ++ r) = None.
Proof.
  intros Hc. simpl. unfold digit_char.
  rewrite (proj2 (N.eqb_neq _ _)); [done|].
  pose proof (Z.mod_pos_bound (z / 10 ^ Z.of_nat n) 10). lia.
Qed.

Lemma expect_head c r : expect c (c :: r) = Some r.
Proof. simpl. by rewrite N.eqb_refl. Qed.

Lemma parse_year_digits y r : 0 <= y < 10000 → parse_year (digits 4 y ++ r) = Some (y, r).
Proof.
  intros Hy. unfold parse_year. rewrite !expect_digits by lia.
  cbn -[digits take_digits]. rewrite take_digits_digits, Z.mod_small by done. done.
Qed.

Lemma parse_date_part_iso y m d :
  0 <= y < 10000 → 0 <= m < 100 → 0 <= d < 100 →
  parse_date_part (iso_date y m d) = Some (y, m, d, []).
Proof.
  intros Hy Hm Hd. unfold parse_date_part, iso_date. rewrite parse_year_digits by done.
  cbn -[digits take_digits]. rewrite take_digits_digits.
  cbn -[digits take_digits]. rewrite <- (app_nil_r (digits 2 d)), take_digits_digits.
  cbn -[digits take_digits]. rewrite !Z.mod_small by done. done.
Qed.

Lemma parse_iso_date y m d :
  0 <= y < 10000 → 0 <= m < 100 → 0 <= d < 100 →
  parse_iso (iso_date y m d) =
    if (1 <=? m) && (m <=? 12) && (1 <=? d) && (d <=? 31) then Some (days_from_civil y m d * ms_per_day)
    else None.
Proof.
  intros Hy Hm Hd. unfold parse_iso. rewrite parse_date_part_iso by done. simpl.
  by destruct ((1 <=? m) && (m <=? 12) && (1 <=? d) && (d <=? 31)).
Qed.

Lemma days_from_civil_bound y m d :
  0 <= y < 10000 → valid_date y m d → Z.abs (days_from_civil y m d) <= 100000000.
Proof.
  intros Hy [Hm Hd]. pose proof (days_in_month_range y m).
  rewrite days_from_civil_eq.
  assert (0 <= (153 * ((m + 9) mod 12) + 2) / 5 <= 337).
  { pose proof (Z.mod_pos_bound (m + 9) 12). split; [apply Z.div_pos; lia|].
    apply Z.div_le_upper_bound; lia. }
  assert (∀ z, -1 <= z < 10000 → -1000 <= year_days z <= 4000000).
  { intros z Hz. unfold year_days. Z.div_mod_to_equations. lia. }
  destruct (m <=? 2); [specialize (H1 (y - 1)) | specialize (H1 y)]; lia.
Qed.

Lemma date_time_iso y m d :
  0 <= y < 10000 → valid_date y m d →
  date_time (CStr (iso_date y m d)) = Some (days_from_civil y m d * ms_per_day).
Proof.
  intros Hy Hv. pose proof (days_from_civil_bound y m d Hy Hv). destruct Hv as [Hm Hd].
  pose proof (days_in_month_range y m).
  simpl. rewrite parse_iso_date by lia.
  rewrite (proj2 (Z.leb_le 1 m)), (proj2 (Z.leb_le m 12)), (proj2 (Z.leb_le 1 d)), (proj2 (Z.leb_le d 31))
    by lia.
  simpl. unfold time_clip, ms_per_day. rewrite (proj2 (Z.leb_le _ _)) by lia. done.
Qed.

Lemma days_from_civil_order y m d y' m' d' :
  valid_date y m d → valid_date y' m' d' →
  (days_from_civil y m d < days_from_civil y' m' d' ↔ date_lt (y, m, d) (y', m', d')) ∧
  (days_from_civil y m d = days_from_civil y' m' d' ↔ (y, m, d) = (y', m', d')).
Proof.
  intros Hv Hv'.
  assert ((y, m, d) = (y', m', d') ∨ date_lt (y, m, d) (y', m', d') ∨ date_lt (y', m', d') (y, m, d))
    as Htri by (simpl; destruct (Z.lt_total y y') as [|[->|]]; [|destruct (Z.lt_total m m') as [|[->|]];
                 [|destruct (Z.lt_total d d') as [|[->|]]|]|]; naive_solver).
  destruct Htri as [Heq|[Hlt|Hlt]]; [simplify_eq; split; split; simpl; (lia || done)|..];
    [pose proof (days_from_civil_lt _ _ _ _ _ _ Hv Hv' Hlt)|pose proof (days_from_civil_lt _ _ _ _ _ _ Hv' Hv Hlt)];
    simpl in *; split; split; intros; (lia || simplify_eq; lia).
Qed.
