(* ===== verification/Schema.v ===== *)
(** Types of the object literals the script hands to its libraries: a
    small schema language over [jsval] and a checker, with the schemas
    of the Chart.js configuration ([new Chart(ctx, config)], Chart.js 3
    and later) and of the DataTables options ([$(...).DataTable(options)],
    DataTables 1.13) as their documentation states them, restricted to
    the options those libraries document for the chart types and
    extensions the page loads.  An object type lists the keys it allows,
    each with its type, and the keys it requires; a key outside the list
    is a typing error, as a misspelt option is silently ignored by both
    libraries.  The libraries are outside the repository: the schemas
    are their contract, not code of [src/]. *)

From S2P Require Import Prelude JsString JsValue.

Module Schema.

Inductive jty :=
  | TAny
  | TStr
  | TEnum (ss : list jstr)
  | TNum
  | TBool
  | TArr (t : jty)
  | TTuple (ts : list jty)
  | TObj (fs : list (jstr * jty)) (req : list jstr)
  | TDict (t : jty)
  | TOr (t1 t2 : jty).

(** [has_type v t]: the value [v] has type [t].  Recursion is on the
    type, so a union may test the same value twice. *)
Fixpoint has_type (v : jsval) (t : jty) {struct t} : bool :=
  match t with
  | TAny => true
  | TStr => if v is JStr _ then true else false
  | TEnum ss => if v is JStr s then bool_decide (s ∈ ss) else false
  | TNum => if v is JNum _ then true else false
  | TBool => if v is JBool _ then true else false
  | TArr t' => if v is JArr vs then forallb (λ x, has_type x t') vs else false
  | TTuple ts =>
      if v is JArr vs then
        (fix go (ts : list jty) (vs : list jsval) : bool :=
           match ts, vs with
           | [], [] => true
           | t' :: ts', x :: vs' => has_type x t' && go ts' vs'
           | _, _ => false
           end) ts vs
      else false
  | TObj fs req =>
      if v is JObj kvs then
        forallb (λ kv,
          (fix field (fs : list (jstr * jty)) : bool :=
             match fs with
             | [] => false
             | (k, t') :: fs' => if bool_decide (k = kv.1) then has_type kv.2 t' else field fs'
             end) fs) kvs
        && bool_decide (NoDup kvs.*1) && forallb (λ k, bool_decide (k ∈ kvs.*1)) req
      else false
  | TDict t' => if v is JObj kvs then forallb (λ kv, has_type kv.2 t') kvs && bool_decide (NoDup kvs.*1) else false
  | TOr t1 t2 => has_type v t1 || has_type v t2
  end.

(** ** Chart.js *)

(** A font: [size], [weight], [family], [style], [lineHeight]. *)
Definition font_ty : jty :=
  TObj [(‹"size"›, TNum); (‹"weight"›, TOr (TEnum [‹"normal"›; ‹"bold"›; ‹"lighter"›; ‹"bolder"›]) TNum);
        (‹"family"›, TStr); (‹"style"›, TEnum [‹"normal"›; ‹"italic"›; ‹"oblique"›; ‹"initial"›; ‹"inherit"›]);
        (‹"lineHeight"›, TOr TNum TStr)] [].

(** A colour option: one colour or one per data point. *)
Definition color_ty : jty := TOr TStr (TArr TStr).

(** The dataset properties common to bar and doughnut datasets. *)
Definition dataset_ty : jty :=
  TObj [(‹"label"›, TStr); (‹"data"›, TArr TNum); (‹"backgroundColor"›, color_ty);
        (‹"borderColor"›, color_ty); (‹"borderWidth"›, TOr TNum (TArr TNum));
        (‹"hoverOffset"›, TNum); (‹"hidden"›, TBool); (‹"order"›, TNum)] [‹"data"›].

Definition title_ty : jty :=
  TObj [(‹"display"›, TBool); (‹"text"›, TOr TStr (TArr TStr)); (‹"font"›, font_ty);
        (‹"color"›, TStr); (‹"padding"›, TNum);
        (‹"align"›, TEnum [‹"start"›; ‹"center"›; ‹"end"›])] [].

Definition legend_ty : jty :=
  TObj [(‹"display"›, TBool);
        (‹"position"›, TEnum [‹"top"›; ‹"left"›; ‹"bottom"›; ‹"right"›; ‹"chartArea"›]);
        (‹"labels"›, TObj [(‹"padding"›, TNum); (‹"font"›, font_ty); (‹"color"›, TStr);
                           (‹"boxWidth"›, TNum)] [])] [].

(** A cartesian axis. *)
Definition scale_ty : jty :=
  TObj [(‹"beginAtZero"›, TBool); (‹"display"›, TBool); (‹"stacked"›, TBool);
        (‹"min"›, TNum); (‹"max"›, TNum); (‹"title"›, title_ty)] [].

Definition chart_options_ty : jty :=
  TObj [(‹"responsive"›, TBool); (‹"maintainAspectRatio"›, TBool); (‹"aspectRatio"›, TNum);
        (‹"indexAxis"›, TEnum [‹"x"›; ‹"y"›]); (‹"cutout"›, TOr TNum TStr);
        (‹"plugins"›, TObj [(‹"legend"›, legend_ty); (‹"title"›, title_ty)] []);
        (‹"scales"›, TDict scale_ty)] [].

(** [new Chart(ctx, config)]: [type] and [data] are required. *)
Definition chart_config_ty : jty :=
  TObj [(‹"type"›, TEnum [‹"bar"›; ‹"line"›; ‹"doughnut"›; ‹"pie"›; ‹"polarArea"›; ‹"radar"›;
                          ‹"bubble"›; ‹"scatter"›]);
        (‹"data"›, TObj [(‹"labels"›, TArr TAny); (‹"datasets"›, TArr dataset_ty)] [‹"datasets"›]);
        (‹"options"›, chart_options_ty)] [‹"type"›; ‹"data"›].

(** ** DataTables *)

(** The options of DataTables 1.13 with the Buttons and Responsive
    extensions; [order] is a list of [[column, direction]] pairs. *)
Definition datatables_options_ty : jty :=
  TObj [(‹"language"›, TObj [(‹"url"›, TStr)] []);
        (‹"pageLength"›, TNum); (‹"lengthMenu"›, TArr TNum);
        (‹"order"›, TArr (TTuple [TNum; TEnum [‹"asc"›; ‹"desc"›]]));
        (‹"dom"›, TStr); (‹"buttons"›, TArr TStr); (‹"responsive"›, TBool);
        (‹"paging"›, TBool); (‹"searching"›, TBool); (‹"ordering"›, TBool);
        (‹"info"›, TBool)] [].

End Schema.
