(* ===== verification/FieldResolver.v ===== *)
(** The field resolver of [normalizeData] (app.js lines 133-147).  Each
    canonical field is read with a chain
    [row['a'] || row['b'] || row['c'] || ''].  JavaScript's [||] returns
    its first operand when that operand is truthy and its second
    otherwise, so the chain yields the first truthy alias value and falls
    back to [''].  The alias lists are the keys of the source, in source
    order. *)

From S2P Require Import Prelude JsString JsValue.

Module FieldResolver.

(** [js_or a b] is [a || b] for a property read [a]; [undefined] is
    falsy. *)
Definition js_or (a : option cell) (b : cell) : cell :=
  match a with
  | Some c => if truthy c then c else b
  | None => b
  end.

(** [row[k1] || row[k2] || ... || '']. *)
Fixpoint resolve (r : row) (aliases : list jstr) : cell :=
  match aliases with
  | [] => CStr []
  | k :: ks => js_or (prop r k) (resolve r ks)
  end.

(** The alias lists of lines 133, 139-142 and 144-147. *)
Definition aliases_equipement : list jstr := [‹"équipement"›; ‹"Equipement"›; ‹"EQUIPEMENT"›].
Definition aliases_marque : list jstr := [‹"marque"›; ‹"Marque"›; ‹"MARQUE"›].
Definition aliases_inventaire : list jstr := [‹"inventaire"›; ‹"Inventaire"›; ‹"INVENTAIRE"›].
Definition aliases_serie : list jstr := [‹"n° série"›; ‹"N° série"›; ‹"N° Série"›; ‹"serie"›].
Definition aliases_etablissement : list jstr :=
  [‹"établissement"›; ‹"Etablissement"›; ‹"ETABLISSEMENT"›].
Definition aliases_panne : list jstr := [‹"panne"›; ‹"Panne"›; ‹"PANNE"›].
Definition aliases_technicien : list jstr := [‹"technicien"›; ‹"Technicien"›; ‹"TECHNICIEN"›].
Definition aliases_date : list jstr := [‹"date"›; ‹"Date"›; ‹"DATE"›].

(** ** The contract of the resolver *)

(** Whether the alias [k] holds a truthy value in [r]. *)
Definition truthy_at (r : row) (k : jstr) : bool :=
  match prop r k with Some c => truthy c | None => false end.

(** The contract of spec section 4.1: the value of the first alias that
    holds a value, or the empty string. *)
Definition resolve_spec (r : row) (aliases : list jstr) : cell :=
  match list_find (λ k, truthy_at r k = true) aliases with
  | Some (_, k) => default (CStr []) (prop r k)
  | None => CStr []
  end.

Lemma resolve_falsy r ks : truthy (resolve r ks) = false → resolve r ks = CStr [].
Proof.
  induction ks as [|k ks IH]; simpl; [done|].
  unfold js_or. destruct (prop r k) as [c|]; [|exact IH].
  destruct (truthy c) eqn:Hc; [congruence|exact IH].
Qed.

Lemma js_or_at r k b :
  js_or (prop r k) b = if truthy_at r k then default (CStr []) (prop r k) else b.
Proof. unfold js_or, truthy_at. destruct (prop r k) as [c|]; [destruct (truthy c)|]; done. Qed.

(** C20: The chain of [||] computes the contract: the first alias holding a
    truthy value wins, and the empty string is the fallback. *)
Theorem resolve_refines r ks : resolve r ks = resolve_spec r ks.
Proof.
  unfold resolve_spec. induction ks as [|k ks IH]; [done|]. simpl.
  rewrite js_or_at. case_decide as Hd; [by rewrite Hd|].
  rewrite (not_true_is_false _ Hd), IH. by destruct (list_find _ ks) as [[??]|].
Qed.

End FieldResolver.
