(* ===== verification/Classify.v ===== *)
(** The two classifiers of the pipeline.  [detectType] (app.js lines
    158-172) maps an establishment name to a type by substring search on
    its upper-case form.  [detectStatut] (lines 175-196) reads the status
    of a raw row in three phases: the flag columns compared with [=== 1],
    then keywords searched in the lower-case [JSON.stringify] of the whole
    row, then the default ['rec']. *)

From S2P Require Import Prelude JsString JsValue.

Module Classify.

(** The values the script stores in [type] and [statut]. *)
Inductive EtabType := EP | CEM | Lycee | Direction | Autre.
Inductive Statut := Rec | Re | Nr.

#[export] Instance etabtype_eq_dec : EqDecision EtabType.
Proof. solve_decision. Defined.
#[export] Instance statut_eq_dec : EqDecision Statut.
Proof. solve_decision. Defined.

#[export] Program Instance etabtype_finite : Finite EtabType :=
  {| enum := [EP; CEM; Lycee; Direction; Autre] |}.
Next Obligation. compute_done. Qed.
Next Obligation. intros []; compute_done. Qed.

#[export] Program Instance statut_finite : Finite Statut := {| enum := [Rec; Re; Nr] |}.
Next Obligation. compute_done. Qed.
Next Obligation. intros []; compute_done. Qed.

(** The strings the script stores (lines 162-171 and 178-195). *)
Definition type_code (t : EtabType) : jstr :=
  match t with
  | EP => ‹"EP"›
  | CEM => ‹"CEM"›
  | Lycee => ‹"Lycée"›
  | Direction => ‹"Direction"›
  | Autre => ‹"Autre"›
  end.

Definition statut_code (s : Statut) : jstr :=
  match s with
  | Rec => ‹"rec"›
  | Re => ‹"re"›
  | Nr => ‹"nr"›
  end.

(** ** [detectType] *)

Definition detectType (etablissement : cell) : EtabType :=
  let etablissementStr := toUpperCase (cell_toString etablissement) in
  if includes etablissementStr ‹"EP"› || includes etablissementStr ‹"PRIMAIRE"› then EP
  else if includes etablissementStr ‹"CEM"› then CEM
  else if includes etablissementStr ‹"LYCEE"› || includes etablissementStr ‹"LYCÉE"› then Lycee
  else if includes etablissementStr ‹"DIRECTION"› then Direction
  else Autre.

(** ** [detectStatut] *)

(** [row[k] === 1]: the property holds the number one. *)
Definition strictly_one (v : option cell) : bool := bool_decide (v = Some (CNum 1)).

(** The flag columns of each status, in the order of lines 177, 179, 181. *)
Definition flag_rec (r : row) : bool :=
  strictly_one (prop r ‹"rec"›) || strictly_one (prop r ‹"REC"›)
  || strictly_one (prop r ‹"Reçu"›).
Definition flag_re (r : row) : bool :=
  strictly_one (prop r ‹"re"›) || strictly_one (prop r ‹"RE"›)
  || strictly_one (prop r ‹"Réparé"›).
Definition flag_nr (r : row) : bool :=
  strictly_one (prop r ‹"nr"›) || strictly_one (prop r ‹"NR"›)
  || strictly_one (prop r ‹"Non réparé"›).

(** The keyword tests of lines 187, 189 and 191 on the text [text]. *)
Definition text_rec (text : jstr) : bool :=
  includes text ‹"reçu"› || includes text ‹"recu"›.
Definition text_re (text : jstr) : bool :=
  includes text ‹"réparé"› || includes text ‹"reparé"› || includes text ‹"repar"›.
Definition text_nr (text : jstr) : bool :=
  includes text ‹"non réparé"› || includes text ‹"non reparé"› || includes text ‹"nr"›.

(** The text the keywords are searched in:
    [JSON.stringify(row).toLowerCase()]. *)
Definition row_text (r : row) : jstr := toLowerCase (json_row r).

(** Lines 187-195: the keyword phase on the text. *)
Definition statut_of_text (text : jstr) : Statut :=
  if text_rec text then Rec
  else if text_re text then Re
  else if text_nr text then Nr
  else Rec.

Definition detectStatut (r : row) : Statut :=
  if flag_rec r then Rec
  else if flag_re r then Re
  else if flag_nr r then Nr
  else statut_of_text (row_text r).

(** No flag column of the row holds the number one. *)
Definition no_flag (r : row) : bool := negb (flag_rec r || flag_re r || flag_nr r).

Lemma detectStatut_no_flag r : no_flag r = true → detectStatut r = statut_of_text (row_text r).
Proof.
  unfold no_flag, detectStatut.
  destruct (flag_rec r), (flag_re r), (flag_nr r); done.
Qed.

(** ** Properties of [detectType] *)

(** C36: [detectType] ignores letter case: a name, its lower-case form and
    its upper-case form get the same type. *)
Theorem detectType_case_insensitive s :
  detectType (CStr (toLowerCase s)) = detectType (CStr s) ∧
  detectType (CStr (toUpperCase s)) = detectType (CStr s).
Proof.
  unfold detectType. cbn [cell_toString].
  by rewrite toUpperCase_toLowerCase, toUpperCase_idem.
Qed.

(** C37 (spec gap): The first rule wins on any occurrence: a name whose upper-case form
    contains "EP" anywhere, inside a word included, is of type EP whatever
    else it contains. *)
Theorem detectType_EP_substring c :
  includes (toUpperCase (cell_toString c)) ‹"EP"› = true → detectType c = EP.
Proof. intros H. unfold detectType. cbv zeta. by rewrite H. Qed.

(** ** Properties of [detectStatut] *)

Lemma non_repare_includes_repare :
  includes ‹"non réparé"› ‹"réparé"› = true ∧ includes ‹"non reparé"› ‹"reparé"› = true.
Proof. by vm_compute. Qed.

(** When the repaired keywords of line 189 are absent, the third test is
    exactly the search for "nr". *)
Lemma text_nr_dead_keywords text :
  text_re text = false → text_nr text = includes text ‹"nr"›.
Proof.
  unfold text_re, text_nr. destruct non_repare_includes_repare as [H1 H2].
  destruct (includes text ‹"réparé"›) eqn:E1; [done|].
  destruct (includes text ‹"reparé"›) eqn:E2; [done|]. intros _.
  destruct (includes text ‹"non réparé"›) eqn:E3.
  { by rewrite (includes_trans _ _ _ E3 H1) in E1. }
  destruct (includes text ‹"non reparé"›) eqn:E4; [|done].
  by rewrite (includes_trans _ _ _ E4 H2) in E2.
Qed.

(** C5: The tests for "non réparé" and "non reparé" on line 191 are dead
    code: since line 189 is tested first and its "réparé" is part of
    "non réparé", the classification of a text is the same with the
    third test reduced to the search for "nr". *)
Theorem statut_of_text_nr_only text :
  statut_of_text text =
    if text_rec text then Rec else if text_re text then Re
    else if includes text ‹"nr"› then Nr else Rec.
Proof.
  unfold statut_of_text. destruct (text_rec text); [done|].
  destruct (text_re text) eqn:E; [done|]. by rewrite text_nr_dead_keywords.
Qed.

(** C6 (code bug): A row whose text says "non réparé" is classified as repaired: with
    no flag column set and no received keyword, [detectStatut] returns
    ['re'], never ['nr']. *)
Theorem detectStatut_non_repare r :
  no_flag r = true →
  text_rec (row_text r) = false →
  includes (row_text r) ‹"non réparé"› = true →
  detectStatut r = Re.
Proof.
  intros Hf Hrec Hnr. rewrite detectStatut_no_flag by done.
  unfold statut_of_text. rewrite Hrec.
  assert (text_re (row_text r) = true) as ->; [|done].
  unfold text_re. rewrite (includes_trans _ _ _ Hnr (proj1 non_repare_includes_repare)). done.
Qed.

(** The lower-cased text of a row contains the name of each of its
    columns when the name has no upper-case letter and needs no JSON
    escape. *)
Lemma row_text_key r k v :
  (k, v) ∈ r → forallb plain_unit k = true → toLowerCase k = k →
  includes (row_text r) k = true.
Proof.
  intros Hin Hk Hl. eapply includes_trans.
  { apply includes_fmap. apply (json_row_key _ _ _ Hin). }
  unfold json_string. rewrite json_quote_plain by done.
  unfold toLowerCase in Hl. rewrite !fmap_app, Hl. apply (includes_app_mid [_]).
Qed.

(** C15 (spec divergence): The name of the flag column "nr" alone classifies a row as not
    repaired.  A row of a sheet that has an "nr" column, with no flag set
    and no received or repaired keyword, is ['nr'] and not the default
    ['rec'] of line 195. *)
Theorem detectStatut_nr_column r v :
  (‹"nr"›, v) ∈ r →
  no_flag r = true →
  text_rec (row_text r) = false →
  text_re (row_text r) = false →
  detectStatut r = Nr.
Proof.
  intros Hin Hf Hrec Hre. rewrite detectStatut_no_flag by done.
  unfold statut_of_text, text_nr. rewrite Hrec, Hre.
  by rewrite (row_text_key _ _ _ Hin), orb_true_r.
Qed.

(** ** Witnesses on concrete rows *)

(** A middle school that hosts the BEPC exam is typed EP. *)
Lemma detectType_EP_substring_witness :
  includes (toUpperCase (cell_toString (CStr ‹"CEM Ibn Khaldoun (centre BEPC)"›))) ‹"EP"› = true ∧
  detectType (CStr ‹"CEM Ibn Khaldoun (centre BEPC)"›) = EP.
Proof. split; [|apply detectType_EP_substring]; vm_compute; reflexivity. Defined.

(** A row whose status cell reads "Non réparé" is classified ['re']. *)
Lemma detectStatut_non_repare_witness :
  let r := [(‹"équipement"›, CStr ‹"PC-07"›); (‹"état"›, CStr ‹"Non réparé"›)] in
  no_flag r = true ∧ text_rec (row_text r) = false ∧
  includes (row_text r) ‹"non réparé"› = true ∧ detectStatut r = Re.
Proof.
  cbv zeta. split; [|split; [|split]]; [vm_compute; reflexivity..|].
  apply detectStatut_non_repare; vm_compute; reflexivity.
Defined.

(** A row of a sheet with the three flag columns, none of them set, is
    classified ['nr']. *)
Lemma detectStatut_nr_column_witness :
  let r := [(‹"équipement"›, CStr ‹"PC-01"›); (‹"rec"›, CStr []); (‹"re"›, CStr []);
            (‹"nr"›, CStr [])] in
  no_flag r = true ∧ text_rec (row_text r) = false ∧ text_re (row_text r) = false ∧
  detectStatut r = Nr.
Proof.
  cbv zeta. split; [|split; [|split]]; [vm_compute; reflexivity..|].
  apply (detectStatut_nr_column _ (CStr [])); [|vm_compute; reflexivity..].
  set_solver.
Defined.

End Classify.
