(* ===== verification/Normalize.v ===== *)
(** The normalisation pipeline, [normalizeData] (app.js lines 124-155).
    Each raw row of the sheet becomes a canonical record.  [normalizeData]
    resolves the equipment with its alias chain and skips the row when
    the value is falsy or white space.  Otherwise it builds the object
    literal of lines 137-148 and pushes it.  [equipement.trim()] throws a
    [TypeError] when the resolved equipment is a number or a boolean, and
    the exception leaves [normalizeData] (and [loadSheetData]), so the
    function is modelled in the [throws] monad. *)

From S2P Require Import Prelude JsString JsValue FieldResolver Classify.

Module Normalize.
Import FieldResolver Classify.

(** The object literal of lines 137-148. *)
Record record := mkRecord {
  equipement : cell;
  marque : cell;
  inventaire : cell;
  serie : cell;
  etablissement : cell;
  type : EtabType;
  panne : cell;
  technicien : cell;
  statut : Statut;
  date : cell
}.

#[export] Instance record_eq_dec : EqDecision record.
Proof. solve_decision. Defined.

(** [equipement.trim()]: strings have [trim]; numbers and booleans do not. *)
Definition trim_cell (c : cell) : throws jstr :=
  match c with
  | CStr s => Ok (trim s)
  | _ => Throw (TypeError ‹"equipement.trim is not a function"›)
  end.

(** Lines 137-148, for the resolved equipment [equipement]. *)
Definition build_record (row : row) (equipement : cell) : record :=
  {| equipement := equipement;
     marque := resolve row aliases_marque;
     inventaire := resolve row aliases_inventaire;
     serie := resolve row aliases_serie;
     etablissement := resolve row aliases_etablissement;
     type := detectType (js_or (prop row ‹"établissement"›) (CStr []));
     panne := resolve row aliases_panne;
     technicien := resolve row aliases_technicien;
     statut := detectStatut row;
     date := resolve row aliases_date |}.

(** The body of [data.forEach] (lines 132-151) for one row: [None] when
    the row is skipped. *)
Definition normalizeRow (row : row) : throws (option record) :=
  let equipement := resolve row aliases_equipement in
  if truthy equipement then
    t ← trim_cell equipement;
    if bool_decide (t = []) then mret None else mret (Some (build_record row equipement))
  else mret None.

Fixpoint normalize_rows (data : list row) : throws (list record) :=
  match data with
  | [] => mret []
  | row :: rest =>
      o ← normalizeRow row;
      rs ← normalize_rows rest;
      mret (option_list o ++ rs)
  end.

(** Line 125 returns [] for an empty array; otherwise the loop runs. *)
Definition normalizeData (data : list row) : throws (list record) :=
  match data with
  | [] => mret []
  | _ => normalize_rows data
  end.

(** ** The contract of the pipeline *)

(** The resolved equipment of a row is a string or a falsy value, so that
    [trim] can be called on it when the code calls it. *)
Definition equipement_ok (row : row) : bool :=
  match resolve row aliases_equipement with
  | CStr _ => true
  | c => negb (truthy c)
  end.

(** Spec section 4.4: a row is kept when its equipment is a string that is
    not empty after trimming; a kept row gives the record of lines
    137-148. *)
Definition keeps (row : row) : bool :=
  match resolve row aliases_equipement with
  | CStr s => negb (bool_decide (trim s = []))
  | _ => false
  end.

Definition normalize_spec (row : row) : option record :=
  if keeps row then Some (build_record row (resolve row aliases_equipement)) else None.

(** The invariant of a canonical record: its equipment is a string that is
    not blank. *)
Definition record_wf (r : record) : Prop := ∃ s, equipement r = CStr s ∧ trim s ≠ [].

Lemma normalizeRow_ok row :
  equipement_ok row = true → normalizeRow row = Ok (normalize_spec row).
Proof.
  unfold equipement_ok, normalizeRow, normalize_spec, keeps. cbv zeta.
  destruct (resolve row aliases_equipement) as [s|n|b]; simpl.
  - intros _. destruct s as [|c s]; simpl; [done|]. by case_bool_decide.
  - destruct (n =? 0)%Z; done.
  - destruct b; done.
Qed.

Lemma normalizeRow_throw row :
  equipement_ok row = false → normalizeRow row = Throw (TypeError ‹"equipement.trim is not a function"›).
Proof.
  unfold equipement_ok, normalizeRow. cbv zeta.
  destruct (resolve row aliases_equipement) as [s|n|b]; simpl; [done| |].
  - by destruct (n =? 0)%Z.
  - by destruct b.
Qed.

Lemma normalizeData_rows data : normalizeData data = normalize_rows data.
Proof. by destruct data. Qed.

Lemma normalize_rows_cons row data :
  normalize_rows (row :: data) =
    (o ← normalizeRow row; rs ← normalize_rows data; mret (option_list o ++ rs)).
Proof. done. Qed.

Lemma normalize_rows_Ok data rs :
  normalize_rows data = Ok rs ↔
  Forall (λ row, equipement_ok row = true) data ∧ rs = omap normalize_spec data.
Proof.
  revert rs. induction data as [|row data IH]; intros rs.
  { simpl. split; [intros [= <-]; done|intros [_ ->]; done]. }
  rewrite normalize_rows_cons, omap_cons_app, Forall_cons.
  destruct (equipement_ok row) eqn:Hok.
  - rewrite normalizeRow_ok by done. rewrite throws_bind_Ok.
    destruct (normalize_rows data) as [rs'|e] eqn:Hrest; autorewrite with maint.
    + destruct (proj1 (IH rs') eq_refl) as [Hf ->].
      split; [intros [= <-]; done|intros [_ ->]; done].
    + split; [done|]. intros [[_ Hf] ->].
      pose proof (proj2 (IH _) (conj Hf eq_refl)) as Hc. discriminate Hc.
  - rewrite normalizeRow_throw by done. autorewrite with maint.
    split; [done|intros [[? _] _]; discriminate].
Qed.

(** C3: When every row's equipment is a string or falsy,
    [normalizeData] returns the kept rows' records, in input order. *)
Theorem normalizeData_refines data :
  Forall (λ row, equipement_ok row = true) data →
  normalizeData data = Ok (omap normalize_spec data).
Proof.
  intros Hf. rewrite normalizeData_rows.
  destruct (normalize_rows data) as [rs|e] eqn:E.
  - by destruct (proj1 (normalize_rows_Ok data rs) E) as [_ ->].
  - exfalso. pose proof (proj2 (normalize_rows_Ok data _) (conj Hf eq_refl)). congruence.
Qed.

(** C4 (spec divergence): [normalizeData] throws exactly when some row's resolved
    equipment is a non-zero number or [true]: [equipement.trim] is then
    not a function. *)
Theorem normalizeData_throws data :
  (∃ e, normalizeData data = Throw e) ↔ Exists (λ row, equipement_ok row = false) data.
Proof.
  rewrite normalizeData_rows, Exists_false_iff. split.
  - intros [e He] Hf. pose proof (proj2 (normalize_rows_Ok data _) (conj Hf eq_refl)).
    congruence.
  - intros Hnot. destruct (normalize_rows data) as [rs|e] eqn:E; [|by eauto].
    by apply normalize_rows_Ok in E as [Hf _].
Qed.

Lemma normalizeData_Ok data rs :
  normalizeData data = Ok rs →
  Forall (λ row, equipement_ok row = true) data ∧ rs = omap normalize_spec data.
Proof. rewrite normalizeData_rows. apply normalize_rows_Ok. Qed.

Lemma normalize_spec_wf data : Forall record_wf (omap normalize_spec data).
Proof.
  apply Forall_omap. intros row r. unfold normalize_spec, keeps.
  destruct (resolve row aliases_equipement) as [s| |]; simpl; [|done..].
  case_bool_decide as Ht; simpl; intros [= <-]. by exists s.
Qed.

(** C16: Every record [normalizeData] returns has a string
    equipment that is not blank (spec section 3). *)
Theorem normalizeData_wf data rs : normalizeData data = Ok rs → Forall record_wf rs.
Proof. intros [_ ->]%normalizeData_Ok. apply normalize_spec_wf. Qed.

(** C18: [normalizeData] never adds rows, and keeps them all
    exactly when every row has a non-blank string equipment (spec
    section 8, first property). *)
Theorem normalizeData_length data rs :
  normalizeData data = Ok rs →
  length rs ≤ length data ∧ (length rs = length data ↔ Forall (λ row, keeps row = true) data).
Proof.
  intros [_ ->]%normalizeData_Ok. split; [apply length_omap_le|].
  rewrite length_omap_eq. apply Forall_iff. intros row. unfold normalize_spec.
  destruct (keeps row); split; try done; intros [? ?]; discriminate.
Qed.

Lemma normalizeRow_Some row r :
  normalizeRow row = Ok (Some r) → r = build_record row (resolve row aliases_equipement).
Proof.
  destruct (equipement_ok row) eqn:Hok.
  - rewrite normalizeRow_ok by done. unfold normalize_spec. destruct (keeps row); congruence.
  - by rewrite normalizeRow_throw.
Qed.

(** C38 (spec divergence): The type is computed from the key
    "établissement" alone (line 143), while the establishment itself is
    resolved through its three aliases (line 142).  A row that spells the
    column "Etablissement" keeps the name and gets the type ['Autre']. *)
Theorem normalize_type_accented_key row r :
  normalizeRow row = Ok (Some r) →
  prop row ‹"établissement"› = None →
  type r = Autre ∧ etablissement r = resolve row aliases_etablissement.
Proof.
  intros ->%normalizeRow_Some Hnone. unfold build_record. simpl. rewrite Hnone. done.
Qed.

(** ** The scenarios of spec section 8 *)

Definition scenario_rows : list row :=
  [[(‹"équipement"›, CStr ‹"PC-01"›); (‹"Marque"›, CStr ‹"Dell"›);
    (‹"établissement"›, CStr ‹"CEM Ibn Khaldoun"›); (‹"rec"›, CNum 1)];
   [(‹"Equipement"›, CStr []); (‹"Marque"›, CStr ‹"HP"›)]].

(** The first scenario: one record, of type CEM and status ['rec'];
    the row with an empty equipment is dropped. *)
Theorem normalize_scenario_drop :
  normalizeData scenario_rows =
    Ok [{| equipement := CStr ‹"PC-01"›; marque := CStr ‹"Dell"›; inventaire := CStr [];
           serie := CStr []; etablissement := CStr ‹"CEM Ibn Khaldoun"›; type := CEM;
           panne := CStr []; technicien := CStr []; statut := Rec; date := CStr [] |}].
Proof. vm_compute. reflexivity. Qed.

(** The second scenario: no flag column and no keyword, so the status
    is the default ['rec']; "Lycée" is recognised through the upper-case
    mapping of "é". *)
Theorem normalize_scenario_default :
  normalizeData [[(‹"équipement"›, CStr ‹"Imprimante"›); (‹"établissement"›, CStr ‹"Lycée Ahmed"›)]] =
    Ok [{| equipement := CStr ‹"Imprimante"›; marque := CStr []; inventaire := CStr [];
           serie := CStr []; etablissement := CStr ‹"Lycée Ahmed"›; type := Lycee;
           panne := CStr []; technicien := CStr []; statut := Rec; date := CStr [] |}].
Proof. vm_compute. reflexivity. Qed.

(** ** Witnesses *)

Lemma normalizeData_refines_witness :
  Forall (λ row, equipement_ok row = true) scenario_rows ∧
  normalizeData scenario_rows = Ok (omap normalize_spec scenario_rows).
Proof.
  assert (Forall (λ row, equipement_ok row = true) scenario_rows) as Hf
    by (repeat constructor).
  split; [exact Hf|apply normalizeData_refines, Hf].
Defined.

Lemma normalizeData_wf_witness :
  normalizeData scenario_rows = Ok (omap normalize_spec scenario_rows) ∧
  Forall record_wf (omap normalize_spec scenario_rows).
Proof.
  assert (normalizeData scenario_rows = Ok (omap normalize_spec scenario_rows)) as H
    by (vm_compute; reflexivity).
  split; [exact H|apply (normalizeData_wf _ _ H)].
Defined.

Lemma normalizeData_length_witness :
  normalizeData scenario_rows = Ok (omap normalize_spec scenario_rows) ∧
  length (omap normalize_spec scenario_rows) ≤ length scenario_rows.
Proof.
  assert (normalizeData scenario_rows = Ok (omap normalize_spec scenario_rows)) as H
    by (vm_compute; reflexivity).
  split; [exact H|apply (proj1 (normalizeData_length _ _ H))].
Defined.

Lemma normalize_type_accented_key_witness :
  let row := [(‹"Equipement"›, CStr ‹"PC-02"›); (‹"Etablissement"›, CStr ‹"CEM Ibn Khaldoun"›)] in
  let r := build_record row (CStr ‹"PC-02"›) in
  normalizeRow row = Ok (Some r) ∧ prop row ‹"établissement"› = None ∧
  type r = Autre ∧ etablissement r = CStr ‹"CEM Ibn Khaldoun"›.
Proof.
  cbv zeta.
  assert (normalizeRow [(‹"Equipement"›, CStr ‹"PC-02"›); (‹"Etablissement"›, CStr ‹"CEM Ibn Khaldoun"›)] =
          Ok (Some (build_record [(‹"Equipement"›, CStr ‹"PC-02"›);
                                  (‹"Etablissement"›, CStr ‹"CEM Ibn Khaldoun"›)] (CStr ‹"PC-02"›))))
    as H by (vm_compute; reflexivity).
  assert (prop [(‹"Equipement"›, CStr ‹"PC-02"›); (‹"Etablissement"›, CStr ‹"CEM Ibn Khaldoun"›)]
            ‹"établissement"› = None) as Hn by (vm_compute; reflexivity).
  destruct (normalize_type_accented_key _ _ H Hn) as [Ht He].
  split; [exact H|split; [exact Hn|split; [exact Ht|rewrite He; vm_compute; reflexivity]]].
Defined.

End Normalize.
