(* ===== verification/Filters.v ===== *)
(** The filter engine: the callback of [applyFilters] (app.js lines
    209-231), applied by [currentData.filter], and the select values
    written by [resetFilters] (lines 239-242).  The four filters are the
    values of the DOM selects [wilayaFilter], [typeFilter],
    [technicienFilter] and [statutFilter] (lines 203-206); ['all'] means
    no constraint.  The records carry no region: the wilaya test compares
    the select with the only region the page serves, ['El Bayadh']. *)

From S2P Require Import Prelude JsString JsValue Classify Normalize.

Module Filters.
Import Classify Normalize.

Record filters := mkFilters {
  wilayaFilter : jstr;
  typeFilter : jstr;
  technicienFilter : jstr;
  statutFilter : jstr
}.

#[export] Instance filters_eq_dec : EqDecision filters.
Proof. solve_decision. Defined.

(** [a !== b] for a cell [a] and a string [b]. *)
Definition strict_neq_str (c : cell) (s : jstr) : bool :=
  match c with
  | CStr t => negb (bool_decide (t = s))
  | _ => true
  end.

Definition neq (a b : jstr) : bool := negb (bool_decide (a = b)).

(** The callback of lines 209-231. *)
Definition passes (f : filters) (row : record) : bool :=
  if neq (wilayaFilter f) ‹"all"› && neq (wilayaFilter f) ‹"El Bayadh"› then false
  else if neq (typeFilter f) ‹"all"› && neq (type_code (type row)) (typeFilter f) then false
  else if neq (technicienFilter f) ‹"all"› && strict_neq_str (technicien row) (technicienFilter f)
  then false
  else if neq (statutFilter f) ‹"all"› && neq (statut_code (statut row)) (statutFilter f) then false
  else true.

(** [filteredData = currentData.filter(...)] (line 209). *)
Definition filterData (f : filters) (data : list record) : list record :=
  List.filter (passes f) data.

(** Lines 239-242. *)
Definition reset_filters : filters :=
  {| wilayaFilter := ‹"El Bayadh"›; typeFilter := ‹"all"›;
     technicienFilter := ‹"all"›; statutFilter := ‹"all"› |}.

(** ** The contract of spec section 4.5 *)

(** A constraint is either no constraint or an exact value. *)
Inductive constraint := MatchAll | Equals (v : jstr).

Definition constraint_of (v : jstr) : constraint :=
  if bool_decide (v = ‹"all"›) then MatchAll else Equals v.

(** [sat c a]: the field value [a] ([None] when it is not a string)
    satisfies [c]. *)
Definition sat (c : constraint) (a : option jstr) : bool :=
  match c with
  | MatchAll => true
  | Equals v => bool_decide (a = Some v)
  end.

Definition cell_string (c : cell) : option jstr :=
  match c with CStr s => Some s | _ => None end.

(** A record passes when it satisfies the four constraints, each on its
    own field; the region of every record is ['El Bayadh']. *)
Definition passes_spec (f : filters) (row : record) : bool :=
  sat (constraint_of (wilayaFilter f)) (Some ‹"El Bayadh"›)
  && sat (constraint_of (typeFilter f)) (Some (type_code (type row)))
  && sat (constraint_of (technicienFilter f)) (cell_string (technicien row))
  && sat (constraint_of (statutFilter f)) (Some (statut_code (statut row))).

Lemma sat_constraint_of v a :
  sat (constraint_of v) a = negb (neq v ‹"all"› && negb (bool_decide (a = Some v))).
Proof. unfold constraint_of, neq. destruct (bool_decide (v = _)); simpl; [done|]. by destruct (bool_decide _). Qed.

Lemma bool_decide_Some (a v : jstr) : bool_decide (Some a = Some v) = bool_decide (a = v).
Proof. apply bool_decide_ext. naive_solver. Qed.

Lemma strict_neq_str_spec c v : strict_neq_str c v = negb (bool_decide (cell_string c = Some v)).
Proof. destruct c; simpl; [by rewrite bool_decide_Some|done..]. Qed.

Lemma neq_sym a b : neq a b = neq b a.
Proof. unfold neq. f_equal. apply bool_decide_ext. naive_solver. Qed.

Lemma if_false_chain (a b c d : bool) :
  (if a then false else if b then false else if c then false else if d then false else true)
  = negb a && negb b && negb c && negb d.
Proof. by destruct a, b, c, d. Qed.

(** C21: The callback of [applyFilters] is the conjunction of
    four independent constraints, each ['all'] or an exact match on its
    own field (spec section 4.5). *)
Theorem passes_refines f row : passes f row = passes_spec f row.
Proof.
  unfold passes, passes_spec. rewrite if_false_chain, !sat_constraint_of, strict_neq_str_spec.
  rewrite !bool_decide_Some, (neq_sym (wilayaFilter f) ‹"El Bayadh"›). reflexivity.
Qed.

(** The selection with every select on ['all']. *)
Definition all_filters : filters :=
  {| wilayaFilter := ‹"all"›; typeFilter := ‹"all"›;
     technicienFilter := ‹"all"›; statutFilter := ‹"all"› |}.

Lemma filter_idem {A} (p : A → bool) (l : list A) : List.filter p (List.filter p l) = List.filter p l.
Proof.
  induction l as [|x l IH]; simpl; [done|].
  destruct (p x) eqn:E; simpl; [rewrite E|]; congruence.
Qed.

Lemma filter_all_true {A} (p : A → bool) (l : list A) :
  (∀ x, p x = true) → List.filter p l = l.
Proof. intros Hp. induction l as [|x l IH]; simpl; [done|]. by rewrite Hp, IH. Qed.

Lemma filter_all_false {A} (p : A → bool) (l : list A) :
  (∀ x, p x = false) → List.filter p l = [].
Proof. intros Hp. induction l as [|x l IH]; simpl; [done|]. by rewrite Hp, IH. Qed.

(** C22: The filtered view keeps the records that satisfy
    the four constraints, in their order, and nothing else. *)
Theorem filterData_spec f data :
  filterData f data `sublist_of` data ∧
  ∀ row, row ∈ filterData f data ↔ row ∈ data ∧ passes_spec f row = true.
Proof.
  split; [apply filter_sublist|]. intros row. unfold filterData.
  rewrite !list_elem_of_In, filter_In. unfold passes, passes_spec.
  rewrite if_false_chain, !sat_constraint_of, strict_neq_str_spec.
  rewrite !bool_decide_Some, (neq_sym (wilayaFilter f) ‹"El Bayadh"›). done.
Qed.

(** Applying the filters twice gives the same view (spec section 8). *)
Theorem filterData_idempotent f data : filterData f (filterData f data) = filterData f data.
Proof. apply filter_idem. Qed.

(** C34: With every select on ['all'], and with the selection that
    [resetFilters] writes, the view is the whole data in its order. *)
Theorem filterData_match_all data :
  filterData all_filters data = data ∧ filterData reset_filters data = data.
Proof. split; apply filter_all_true; intros row; by vm_compute. Qed.

(** C29 (spec gap): Any wilaya other than ['all'] and ['El Bayadh'] empties
    the view, whatever the records. *)
Theorem filterData_other_wilaya f data :
  wilayaFilter f ≠ ‹"all"› → wilayaFilter f ≠ ‹"El Bayadh"› → filterData f data = [].
Proof.
  intros H1 H2. apply filter_all_false. intros row. unfold passes, neq.
  rewrite (bool_decide_false _ H1), (bool_decide_false _ H2). done.
Qed.

Lemma filterData_other_wilaya_witness :
  ‹"Oran"› ≠ ‹"all"› ∧ ‹"Oran"› ≠ ‹"El Bayadh"› ∧
  filterData {| wilayaFilter := ‹"Oran"›; typeFilter := ‹"all"›;
                technicienFilter := ‹"all"›; statutFilter := ‹"all"› |}
    [{| equipement := CStr ‹"PC-01"›; marque := CStr []; inventaire := CStr [];
        serie := CStr []; etablissement := CStr []; type := Autre; panne := CStr [];
        technicien := CStr []; statut := Rec; date := CStr [] |}] = [].
Proof.
  assert (‹"Oran"› ≠ ‹"all"›) as H1 by (vm_compute; discriminate).
  assert (‹"Oran"› ≠ ‹"El Bayadh"›) as H2 by (vm_compute; discriminate).
  split; [exact H1|split; [exact H2|apply filterData_other_wilaya; [exact H1|exact H2]]].
Defined.

End Filters.
