(* ===== verification/Stats.v ===== *)
(** The aggregator: the counters of [updateStats] (app.js lines 255-266)
    and the data of the two charts, [statusCounts] of [updateStatusChart]
    (lines 283-287) and [typeCounts] of [updateTypeChart] (lines
    339-345).  Each count is the length of [filteredData.filter(...)] for
    one status or one type. *)

From S2P Require Import Prelude JsString JsValue Classify Normalize Filters.

Module Stats.
Import Classify Normalize Filters.

(** [data.filter(d => d.statut === s).length]. *)
Definition count_statut (s : Statut) (data : list record) : nat :=
  length (List.filter (λ d, bool_decide (statut d = s)) data).

(** [data.filter(d => d.type === t).length]. *)
Definition count_type (t : EtabType) (data : list record) : nat :=
  length (List.filter (λ d, bool_decide (type d = t)) data).

(** The four counters of lines 256-259. *)
Record stats := mkStats { total : nat; recus : nat; repares : nat; nonRepares : nat }.

Definition updateStats (data : list record) : stats :=
  {| total := length data;
     recus := count_statut Rec data;
     repares := count_statut Re data;
     nonRepares := count_statut Nr data |}.

(** The object of lines 283-287: labels and values in key order. *)
Definition statusCounts (data : list record) : list (jstr * nat) :=
  [(‹"Reçus"›, count_statut Rec data);
   (‹"Réparés"›, count_statut Re data);
   (‹"Non réparés"›, count_statut Nr data)].

(** The object of lines 339-345. *)
Definition typeCounts (data : list record) : list (jstr * nat) :=
  [(‹"EP"›, count_type EP data);
   (‹"CEM"›, count_type CEM data);
   (‹"Lycée"›, count_type Lycee data);
   (‹"Direction"›, count_type Direction data);
   (‹"Autre"›, count_type Autre data)].

(** ** Counting by a key over a finite type *)

Section CountByKey.
Context {K : Type} `{!EqDecision K, !Finite K} (key : record → K).

Definition count_key (k : K) (data : list record) : nat :=
  length (List.filter (λ d, bool_decide (key d = k)) data).

Definition indicator (k0 k : K) : nat := if bool_decide (k0 = k) then 1 else 0.

Lemma count_key_cons k d data :
  count_key k (d :: data) = indicator (key d) k + count_key k data.
Proof. unfold count_key, indicator. simpl. by destruct (bool_decide _). Qed.

Lemma sum_indicator_absent (ks : list K) k0 : k0 ∉ ks → sum_list (indicator k0 <$> ks) = 0.
Proof.
  induction ks as [|k ks IH]; intros Hk; [done|]. rewrite fmap_cons. cbn [sum_list].
  rewrite IH by set_solver. unfold indicator, id. rewrite bool_decide_false by set_solver. done.
Qed.

(** Exactly one key of a list without duplicates that contains [k0] is
    [k0]. *)
Lemma sum_indicator (ks : list K) k0 : NoDup ks → k0 ∈ ks → sum_list (indicator k0 <$> ks) = 1.
Proof.
  induction ks as [|k ks IH]; [set_solver|]. rewrite NoDup_cons. intros [Hk Hnd] Hin.
  rewrite fmap_cons. cbn [sum_list]. unfold indicator at 1. case_bool_decide as E.
  - subst k. rewrite sum_indicator_absent; done.
  - apply elem_of_cons in Hin as [?|Hin]; [done|]. rewrite IH; done.
Qed.

(** Every record is counted under exactly one key: the counts of all the
    keys of the finite type sum to the number of records. *)
Lemma count_key_total data : sum_list ((λ k, count_key k data) <$> enum K) = length data.
Proof.
  induction data as [|d data IH].
  - induction (enum K) as [|k ks IHk]; [done|]. rewrite fmap_cons. cbn [sum_list].
    rewrite IHk. done.
  - setoid_rewrite count_key_cons.
    rewrite sum_list_fmap_add, IH, sum_indicator; [done|apply NoDup_enum|apply elem_of_enum].
Qed.

End CountByKey.

Lemma count_statut_total data :
  count_statut Rec data + count_statut Re data + count_statut Nr data = length data.
Proof.
  rewrite <- (count_key_total statut data).
  change (enum Statut) with [Rec; Re; Nr]. rewrite !fmap_cons, fmap_nil.
  cbn [sum_list sum_list_with]. unfold id, count_statut, count_key. lia.
Qed.

(** The three status counters of the cards sum to the
    total (spec section 8), because every record has exactly one of the
    three statuses. *)
Theorem updateStats_sum data :
  recus (updateStats data) + repares (updateStats data) + nonRepares (updateStats data)
  = total (updateStats data).
Proof. apply count_statut_total. Qed.

(** Both charts always carry their full label set, in a fixed order
    (zero counts included), and each chart's counts sum to the number of
    records shown (spec section 4.6). *)
Theorem chart_counts_cover data :
  (statusCounts data).*1 = [‹"Reçus"›; ‹"Réparés"›; ‹"Non réparés"›] ∧
  sum_list (statusCounts data).*2 = length data ∧
  (typeCounts data).*1 = [‹"EP"›; ‹"CEM"›; ‹"Lycée"›; ‹"Direction"›; ‹"Autre"›] ∧
  sum_list (typeCounts data).*2 = length data.
Proof.
  split; [done|split; [|split; [done|]]].
  - change (sum_list (statusCounts data).*2)
      with (count_statut Rec data + (count_statut Re data + (count_statut Nr data + 0))).
    pose proof (count_statut_total data). lia.
  - change (sum_list (typeCounts data).*2)
      with (count_type EP data + (count_type CEM data + (count_type Lycee data
            + (count_type Direction data + (count_type Autre data + 0))))).
    rewrite <- (count_key_total type data).
    change (enum EtabType) with [EP; CEM; Lycee; Direction; Autre].
    rewrite !fmap_cons, fmap_nil. cbn [sum_list sum_list_with]. unfold id. done.
Qed.

(** ** Order does not matter

    The counters and both count objects depend only on which records are
    shown, not on their order: they are invariant under permutation. *)

#[export] Instance count_statut_perm st : Proper ((≡ₚ) ==> (=)) (count_statut st).
Proof. intros d1 d2 H. by apply length_filter_perm. Qed.

#[export] Instance count_type_perm t : Proper ((≡ₚ) ==> (=)) (count_type t).
Proof. intros d1 d2 H. by apply length_filter_perm. Qed.

#[export] Instance updateStats_perm : Proper ((≡ₚ) ==> (=)) updateStats.
Proof.
  intros d1 d2 H. unfold updateStats.
  by rewrite (Permutation_length H), !(count_statut_perm _ _ _ H).
Qed.

#[export] Instance statusCounts_perm : Proper ((≡ₚ) ==> (=)) statusCounts.
Proof. intros d1 d2 H. unfold statusCounts. by rewrite !(count_statut_perm _ _ _ H). Qed.

#[export] Instance typeCounts_perm : Proper ((≡ₚ) ==> (=)) typeCounts.
Proof. intros d1 d2 H. unfold typeCounts. by rewrite !(count_type_perm _ _ _ H). Qed.

End Stats.
