(* ===== verification/Csv.v ===== *)
(** The exporter: the text [exportToCSV] builds (app.js lines 487-504)
    and the name of the downloaded file (line 511).  The header row is
    [headers.join(',')].  Each record is the ten template literals
    ["${row.f}"], joined by commas.  The rows are joined by ['\n'].  No
    quote inside a field is escaped.  The file is read back by an RFC
    4180 reader ([parse_csv]), as a spreadsheet imports it. *)

From S2P Require Import Prelude JsString JsValue Classify Normalize.

Module Csv.
Import Classify Normalize.

(** Line 487. *)
Definition headers : list jstr :=
  [‹"Équipement"›; ‹"Marque"›; ‹"Inventaire"›; ‹"N° Série"›; ‹"Établissement"›;
   ‹"Type"›; ‹"Panne"›; ‹"Technicien"›; ‹"Statut"›; ‹"Date"›].

(** The template literal ["${v}"]. *)
Definition quote (s : jstr) : jstr := [34%N] ++ s ++ [34%N].

(** The values of lines 491-500, as [ToString] renders them. *)
Definition csv_fields (row : record) : list jstr :=
  [cell_toString (equipement row); cell_toString (marque row);
   cell_toString (inventaire row); cell_toString (serie row);
   cell_toString (etablissement row); type_code (type row);
   cell_toString (panne row); cell_toString (technicien row);
   statut_code (statut row); cell_toString (date row)].

(** Lines 490-501: one record's line. *)
Definition csv_line (row : record) : jstr := join [44%N] (quote <$> csv_fields row).

(** Lines 488-504: [csvRows.join('\n')]. *)
Definition csvString (data : list record) : jstr :=
  join [10%N] (join [44%N] headers :: (csv_line <$> data)).

(** Line 511: [maintenance_<sheet>_<date>.csv], the date being the part of
    [new Date().toISOString()] before the ['T']. *)
Definition csv_filename (sheet iso_now : jstr) : jstr :=
  ‹"maintenance_"› ++ sheet ++ ‹"_"› ++ default [] (head (split_on 84%N iso_now)) ++ ‹".csv"›.

(** ** Reading the file back

    A reader of RFC 4180 CSV, as a spreadsheet imports the downloaded
    file: a field opened by a double quote runs to the next lone double
    quote, [""] inside it standing for one quote, and may hold commas
    and line feeds; outside quotes a comma ends the field and a line
    feed the record.  [fld] and [row] are the field and record read so
    far. *)
Inductive csv_state := Unquoted | Quoted.

Fixpoint csv_read (st : csv_state) (fld : jstr) (row : list jstr) (s : jstr) : list (list jstr) :=
  match s with
  | [] => [row ++ [fld]]
  | c :: s' =>
      match st with
      | Quoted =>
          if (c =? 34)%N then
            match s' with
            | d :: s'' => if (d =? 34)%N then csv_read Quoted (fld ++ [34%N]) row s''
                          else csv_read Unquoted fld row s'
            | [] => csv_read Unquoted fld row s'
            end
          else csv_read Quoted (fld ++ [c]) row s'
      | Unquoted =>
          if (c =? 44)%N then csv_read Unquoted [] (row ++ [fld]) s'
          else if (c =? 10)%N then (row ++ [fld]) :: csv_read Unquoted [] [] s'
          else if (c =? 34)%N && bool_decide (fld = []) then csv_read Quoted fld row s'
          else csv_read Unquoted (fld ++ [c]) row s'
      end
  end.

Definition parse_csv (s : jstr) : list (list jstr) := csv_read Unquoted [] [] s.

(** The records left once a record [row] ends at the head of [t]. *)
Definition finish (row : list jstr) (t : jstr) : list (list jstr) :=
  match t with [] => [row] | _ :: t' => row :: csv_read Unquoted [] [] t' end.

(** No field of the record contains the code unit [c]. *)
Definition fields_free (c : N) (row : record) : Prop := Forall (λ f, c ∉ f) (csv_fields row).

Lemma csv_line_free c row : c ≠ 44%N → c ≠ 34%N → fields_free c row → c ∉ csv_line row.
Proof.
  intros H44 H34 Hf Hin. apply elem_of_join in Hin as [Hin|(y & Hy & Hin)]; [set_solver|].
  apply list_elem_of_fmap in Hy as (f & -> & Hf'). unfold fields_free in Hf. rewrite Forall_forall in Hf.
  unfold quote in Hin. rewrite !elem_of_app in Hin. specialize (Hf f Hf'). set_solver.
Qed.

Lemma read_quoted_body f fld row t :
  34%N ∉ f → csv_read Quoted fld row (f ++ t) = csv_read Quoted (fld ++ f) row t.
Proof.
  revert fld. induction f as [|c f IH]; intros fld Hf; simpl; [by rewrite app_nil_r|].
  rewrite (proj2 (N.eqb_neq c 34)) by set_solver. rewrite IH by set_solver.
  by rewrite <- (assoc_L (++)).
Qed.

Lemma read_end f row t :
  t = [] ∨ head t = Some 10%N → csv_read Unquoted f row t = finish (row ++ [f]) t.
Proof. intros [->|Ht]; [done|]. destruct t as [|c t]; simplify_eq/=. done. Qed.

(** One quoted field free of double quotes, then a comma, a line feed or
    the end. *)
Lemma read_field f row t :
  34%N ∉ f → head t ≠ Some 34%N →
  csv_read Unquoted [] row (quote f ++ t) = csv_read Unquoted f row t.
Proof.
  intros Hf Ht. unfold quote. cbn [app csv_read]. rewrite N.eqb_refl. simpl.
  rewrite <- (assoc_L (++)), read_quoted_body by done. simpl.
  destruct t as [|d t]; simpl; [done|]. rewrite (proj2 (N.eqb_neq d 34)); [done|].
  intros ->. by apply Ht.
Qed.

Lemma read_row fs row t :
  fs ≠ [] → Forall (λ f, 34%N ∉ f) fs → t = [] ∨ head t = Some 10%N →
  csv_read Unquoted [] row (join [44%N] (quote <$> fs) ++ t) = finish (row ++ fs) t.
Proof.
  intros Hne Hfs Ht. assert (head t ≠ Some 34%N) as Ht34 by (destruct Ht as [->|Hh]; [done|by rewrite Hh]).
  revert row Hne. induction Hfs as [|f fs Hf Hfs IH]; intros row Hne; [done|].
  destruct fs as [|f' fs]; cbn [fmap list_fmap join].
  - by rewrite read_field, read_end.
  - rewrite <- !(assoc_L (++)), read_field by done. simpl.
    rewrite IH by done. by rewrite <- (assoc_L (++)).
Qed.

Lemma read_header t :
  t = [] ∨ head t = Some 10%N → csv_read Unquoted [] [] (join [44%N] headers ++ t) = finish headers t.
Proof. intros [->|Ht]; [vm_compute; reflexivity|]. destruct t; simplify_eq/=. vm_compute. reflexivity. Qed.

Lemma read_line r t :
  fields_free 34%N r → t = [] ∨ head t = Some 10%N →
  csv_read Unquoted [] [] (csv_line r ++ t) = finish (csv_fields r) t.
Proof. intros Hr Ht. unfold csv_line. by rewrite read_row. Qed.

Lemma read_lines data :
  data ≠ [] → Forall (fields_free 34%N) data →
  csv_read Unquoted [] [] (join [10%N] (csv_line <$> data)) = csv_fields <$> data.
Proof.
  intros Hne Hf. induction Hf as [|r data Hr Hf IH]; [done|].
  destruct data as [|r' data].
  - rewrite <- (app_nil_r (join _ _)). cbn [join fmap list_fmap].
    by rewrite read_line by (done || by left).
  - change (join [10%N] (csv_line <$> r :: r' :: data))
      with (csv_line r ++ [10%N] ++ join [10%N] (csv_line <$> r' :: data)).
    rewrite read_line by (done || by right). cbn [finish app].
    rewrite IH by done. done.
Qed.

(** When no field contains a line break, the CSV text has exactly the
    header line and one line per record, in order (spec section 8). *)
Theorem csvString_lines data :
  Forall (fields_free 10%N) data →
  split_on 10%N (csvString data) = join [44%N] headers :: (csv_line <$> data).
Proof.
  intros Hf. apply split_on_join; [done|]. constructor; [apply (bool_decide_unpack _); by vm_compute|].
  apply Forall_fmap. eapply Forall_impl; [exact Hf|]. intros row Hr.
  by apply csv_line_free.
Qed.

(** A record whose fault description quotes a screen size in inches. *)
Definition record_quote_panne : record :=
  {| equipement := CStr ‹"PC-04"›; marque := CStr ‹"Dell"›; inventaire := CStr [];
     serie := CStr []; etablissement := CStr ‹"Lycée Ahmed"›; type := Lycee;
     panne := CStr (‹"écran 15"› ++ [34%N] ++ ‹" fissuré"›); technicien := CStr [];
     statut := Rec; date := CStr ‹"2024-03-01"› |}.

Lemma parse_csvString data :
  Forall (fields_free 34%N) data → parse_csv (csvString data) = headers :: (csv_fields <$> data).
Proof.
  intros Hf. unfold parse_csv, csvString. destruct data as [|r data].
  - rewrite <- (app_nil_r (join _ _)). cbn [join fmap list_fmap]. by rewrite read_header by (by left).
  - change (join [10%N] (join [44%N] headers :: (csv_line <$> r :: data)))
      with (join [44%N] headers ++ [10%N] ++ join [10%N] (csv_line <$> r :: data)).
    rewrite read_header by (by right). cbn [finish app]. by rewrite read_lines.
Qed.

(** C23: The downloaded file reads back, in an RFC 4180 CSV reader, as
    the header row followed by the ten fields of each exported record, in
    order, whenever no field holds a double quote: commas and line feeds
    inside a field survive, every field being quoted. *)
Theorem csvString_roundtrip data :
  Forall (fields_free 34%N) data → parse_csv (csvString data) = headers :: (csv_fields <$> data).
Proof. apply parse_csvString. Qed.

(** The template does not double a quote inside a field, so a reader
    gives the record back with other fields. *)
Lemma csvString_quote_misread :
  parse_csv (csvString [record_quote_panne]) ≠ [headers; csv_fields record_quote_panne].
Proof. intros H. vm_compute in H. congruence. Qed.

Lemma csv_line_occurrences row :
  occurrences 10%N (csv_line row) = sum_list (occurrences 10%N <$> csv_fields row).
Proof.
  unfold csv_line. rewrite occurrences_join by (by unfold csv_fields).
  change (occurrences 10%N [44%N]) with 0. rewrite Nat.mul_0_r, Nat.add_0_l, <- list_fmap_compose.
  f_equal. apply list_fmap_ext. intros i f _. unfold compose, quote. rewrite !occurrences_app.
  change (occurrences 10%N [34%N]) with 0. lia.
Qed.

(** C13 (spec divergence): The exported text has one line more than
    records only when no field holds a line feed: [csvRows.join('\n')]
    puts the fields in unescaped, so each line feed of a field adds a
    line, against the header-plus-one-line-per-record layout the spec
    states. *)
Theorem csvString_line_count data :
  length (split_on 10%N (csvString data)) =
    S (length data) + sum_list ((λ row, sum_list (occurrences 10%N <$> csv_fields row)) <$> data).
Proof.
  rewrite split_on_length. unfold csvString. rewrite occurrences_join by done.
  rewrite fmap_cons, length_cons, length_fmap. cbn [sum_list].
  change (occurrences 10%N [10%N]) with 1.
  replace (occurrences 10%N (join [44%N] headers)) with 0 by (vm_compute; reflexivity).
  rewrite <- list_fmap_compose.
  rewrite (list_fmap_ext (occurrences 10%N ∘ csv_line) _ data) by (intros; apply csv_line_occurrences).
  unfold id. lia.
Qed.

Lemma csvString_roundtrip_witness :
  let r := {| equipement := CStr ‹"PC-01"›; marque := CStr ‹"Dell"›; inventaire := CNum 1024;
              serie := CStr []; etablissement := CStr ‹"CEM Ibn Khaldoun"›; type := CEM;
              panne := CStr (‹"écran, clavier"› ++ [10%N] ++ ‹"souris"›); technicien := CStr ‹"Henri"›;
              statut := Rec; date := CStr ‹"2024-03-01"› |} in
  Forall (fields_free 34%N) [r] ∧ parse_csv (csvString [r]) = [headers; csv_fields r].
Proof.
  cbv zeta. match goal with |- Forall _ ?l ∧ _ => assert (Forall (fields_free 34%N) l) as H end.
  { apply (bool_decide_unpack _). by vm_compute. }
  split; [exact H|apply csvString_roundtrip, H].
Defined.

End Csv.
