(* ===== verification/Render.v ===== *)
(** Table rendering: [escapeHtml] (app.js lines 473-477) and the markup
    of one table row built by [updateTable] (lines 412-447).
    [escapeHtml] sets a [div]'s [textContent] and reads back its
    [innerHTML].  The HTML serialisation of a text node escapes [&], the
    no-break space, [<] and [>] (HTML standard, "escaping a string", text
    mode), so the function is that substitution. *)

From S2P Require Import Prelude JsString JsValue Classify Normalize.

Module Render.
Import Classify Normalize.

Definition escape_unit (c : N) : jstr :=
  if (c =? 38)%N then ‹"&amp;"›
  else if (c =? 160)%N then ‹"&nbsp;"›
  else if (c =? 60)%N then ‹"&lt;"›
  else if (c =? 62)%N then ‹"&gt;"›
  else [c].

(** [escapeHtml(text)] for the string [text]. *)
Definition escapeHtml (text : jstr) : jstr := text ≫= escape_unit.

(** Lines 416-434: the badge text and class of a status.  The [default]
    branch of the [switch] has no counterpart: [statut] is always one of
    the three values. *)
Definition statut_badge (s : Statut) : jstr * jstr :=
  match s with
  | Rec => (‹"Reçu"›, ‹"statut-rec"›)
  | Re => (‹"Réparé"›, ‹"statut-re"›)
  | Nr => (‹"Non réparé"›, ‹"statut-nr"›)
  end.

(** The line break and indentation before each cell of the template
    literal of lines 436-447. *)
Definition cell_indent : jstr := [10%N] ++ replicate 12 32%N.

Definition td (content : jstr) : jstr := cell_indent ++ ‹"<td>"› ++ content ++ ‹"</td>"›.

(** [tr.innerHTML] of lines 436-447. *)
Definition row_html (row : record) : jstr :=
  let '(statutText, statutClass) := statut_badge (statut row) in
  td (escapeHtml (cell_toString (equipement row))) ++
  td (escapeHtml (cell_toString (marque row))) ++
  td (escapeHtml (cell_toString (inventaire row))) ++
  td (escapeHtml (cell_toString (serie row))) ++
  td (escapeHtml (cell_toString (etablissement row))) ++
  td (escapeHtml (type_code (type row))) ++
  td (escapeHtml (cell_toString (panne row))) ++
  td (escapeHtml (cell_toString (technicien row))) ++
  td (‹"<span class="› ++ [34%N] ++ ‹"statut-badge "› ++ statutClass ++ [34%N] ++ ‹">"›
      ++ statutText ++ ‹"</span>"›) ++
  td (escapeHtml (cell_toString (date row))) ++
  [10%N] ++ replicate 8 32%N.

(** The content of the badge cell (line 445). *)
Definition badge_cell (s : Statut) : jstr :=
  let '(statutText, statutClass) := statut_badge s in
  ‹"<span class="› ++ [34%N] ++ ‹"statut-badge "› ++ statutClass ++ [34%N] ++ ‹">"›
  ++ statutText ++ ‹"</span>"›.

(** The cells of a row as the browser's parser gives them and DataTables
    reads them: the markup between each [<td>] and the next [</td>].
    There are no nested cells in the template, so this is the [td]
    elements' [innerHTML], in column order. *)
Definition row_cells (html : jstr) : list jstr := between ‹"<td>"› ‹"</td>"› (length html) html.

(** The ten columns of a record in the order of the template. *)
Definition columns (row : record) : list jstr :=
  [escapeHtml (cell_toString (equipement row)); escapeHtml (cell_toString (marque row));
   escapeHtml (cell_toString (inventaire row)); escapeHtml (cell_toString (serie row));
   escapeHtml (cell_toString (etablissement row)); escapeHtml (type_code (type row));
   escapeHtml (cell_toString (panne row)); escapeHtml (cell_toString (technicien row));
   badge_cell (statut row); escapeHtml (cell_toString (date row))].

(** ** Escaping *)

Lemma escape_unit_cases c :
  (c = 38 ∨ c = 160 ∨ c = 60 ∨ c = 62)%N ∨
  (escape_unit c = [c] ∧ c ≠ 38 ∧ c ≠ 160 ∧ c ≠ 60 ∧ c ≠ 62)%N.
Proof. unfold escape_unit. case_N_tests; first [left; lia|right; split; [done|lia]]. Qed.

(** No markup delimiter survives escaping. *)
Lemma escape_unit_no_markup c : (60 ∉ escape_unit c ∧ 62 ∉ escape_unit c)%N.
Proof.
  destruct (escape_unit_cases c) as [[-> | [-> | [-> | ->]]] | (-> & ? & ? & ? & ?)];
    [split; apply (bool_decide_unpack _); by vm_compute..|set_solver].
Qed.

Lemma escapeHtml_no_markup s : (60 ∉ escapeHtml s ∧ 62 ∉ escapeHtml s)%N.
Proof.
  unfold escapeHtml. rewrite !list_elem_of_bind.
  split; intros (c & Hc & _); destruct (escape_unit_no_markup c); contradiction.
Qed.

(** C24: Data cannot add markup to a table row: whatever the
    record, the row's markup holds exactly the 22 tag openings and the 22
    tag closings of the template (ten cells and the status badge). *)
Theorem row_html_markup row :
  occurrences 60%N (row_html row) = 22 ∧ occurrences 62%N (row_html row) = 22.
Proof.
  assert (∀ s, occurrences 60%N (escapeHtml s) = 0 ∧ occurrences 62%N (escapeHtml s) = 0)
    as Hesc.
  { intros s. destruct (escapeHtml_no_markup s). split; by apply occurrences_absent. }
  unfold row_html, td. destruct (statut row); cbn [statut_badge]; autorewrite with maint;
    rewrite ?(proj1 (Hesc _)), ?(proj2 (Hesc _)); split; vm_compute; reflexivity.
Qed.

Lemma between_td f c rest :
  60%N ∉ c → between ‹"<td>"› ‹"</td>"› (S f) (td c ++ rest) = c :: between ‹"<td>"› ‹"</td>"› f rest.
Proof.
  intros Hc. unfold td. rewrite <- !(assoc_L (++)).
  apply (between_app _ _ 60%N [116; 100; 62]%N 60%N [47; 116; 100; 62]%N); [done|done| |done].
  apply (bool_decide_unpack _). by vm_compute.
Qed.

Lemma between_badge f s rest :
  between ‹"<td>"› ‹"</td>"› (S f) (td (badge_cell s) ++ rest) =
    badge_cell s :: between ‹"<td>"› ‹"</td>"› f rest.
Proof.
  assert (before ‹"</td>"› (badge_cell s ++ ‹"</td>"› ++ rest) = (badge_cell s, rest)) as Hb
    by (destruct s; vm_compute; reflexivity).
  unfold td. rewrite <- !(assoc_L (++)). cbn [between].
  rewrite (after_app 60%N [116; 100; 62]%N) by (apply (bool_decide_unpack _); by vm_compute).
  by rewrite Hb.
Qed.

Lemma row_html_badge row :
  row_html row = td (escapeHtml (cell_toString (equipement row))) ++
    td (escapeHtml (cell_toString (marque row))) ++ td (escapeHtml (cell_toString (inventaire row))) ++
    td (escapeHtml (cell_toString (serie row))) ++ td (escapeHtml (cell_toString (etablissement row))) ++
    td (escapeHtml (type_code (type row))) ++ td (escapeHtml (cell_toString (panne row))) ++
    td (escapeHtml (cell_toString (technicien row))) ++ td (badge_cell (statut row)) ++
    td (escapeHtml (cell_toString (date row))) ++ [10%N] ++ replicate 8 32%N.
Proof. unfold row_html, badge_cell. by destruct (statut_badge (statut row)). Qed.

Lemma row_html_length row : 10 <= length (row_html row).
Proof. rewrite row_html_badge. unfold td. rewrite !length_app. simpl. lia. Qed.

(** The markup of a row reads back as its ten cells: the cells
    between [<td>] and [</td>] are, in order, the escaped fields of the
    record with the status badge in the ninth place and the date in the
    tenth. *)
Theorem row_cells_columns row : row_cells (row_html row) = columns row.
Proof.
  assert (∀ f, between ‹"<td>"› ‹"</td>"› (10 + f) (row_html row) = columns row) as Hf.
  { intros f. rewrite row_html_badge.
    change (10 + f) with (S (S (S (S (S (S (S (S (S (S f)))))))))).
    do 8 (rewrite between_td by apply (proj1 (escapeHtml_no_markup _))).
    rewrite between_badge, between_td by apply (proj1 (escapeHtml_no_markup _)).
    destruct f; vm_compute; reflexivity. }
  unfold row_cells. pose proof (row_html_length row).
  replace (length (row_html row)) with (10 + (length (row_html row) - 10)) by lia. apply Hf.
Qed.

Lemma escapeHtml_cons c s : escapeHtml (c :: s) = escape_unit c ++ escapeHtml s.
Proof. done. Qed.

Lemma escape_unit_not_nil c : escape_unit c ≠ [].
Proof.
  destruct (escape_unit_cases c) as [[-> | [-> | [-> | ->]]] | (-> & _)]; by vm_compute.
Qed.

(** Two escaped units that start two equal texts are the same unit: the
    escapes form a prefix code. *)
Lemma escape_unit_prefix c1 c2 r1 r2 :
  escape_unit c1 ++ r1 = escape_unit c2 ++ r2 → c1 = c2 ∧ r1 = r2.
Proof.
  intros H.
  destruct (escape_unit_cases c1) as [[-> | [-> | [-> | ->]]] | (E1 & ? & ? & ? & ?)];
    destruct (escape_unit_cases c2) as [[-> | [-> | [-> | ->]]] | (E2 & ? & ? & ? & ?)];
    rewrite ?E1, ?E2 in H; vm_compute in H; simplify_eq; auto; lia.
Qed.

(** C26: Escaping loses no information: two texts with the same escaped
    form are equal, so the table shows every value as it is. *)
Theorem escapeHtml_inj s1 s2 : escapeHtml s1 = escapeHtml s2 → s1 = s2.
Proof.
  revert s2. induction s1 as [|c s1 IH]; intros [|d s2]; rewrite ?escapeHtml_cons; try done.
  - intros H. symmetry in H. apply app_eq_nil in H as [H _]. by apply escape_unit_not_nil in H.
  - intros H. apply app_eq_nil in H as [H _]. by apply escape_unit_not_nil in H.
  - intros H. apply escape_unit_prefix in H as [-> H]. f_equal. by apply IH.
Qed.

Lemma escapeHtml_inj_witness :
  escapeHtml ‹"Dell & <HP>"› = escapeHtml (‹"Dell & "› ++ ‹"<HP>"›) ∧
  ‹"Dell & <HP>"› = ‹"Dell & "› ++ ‹"<HP>"›.
Proof.
  assert (escapeHtml ‹"Dell & <HP>"› = escapeHtml (‹"Dell & "› ++ ‹"<HP>"›)) as H
    by (vm_compute; reflexivity).
  split; [exact H|apply escapeHtml_inj, H].
Defined.

End Render.
