(* ===== verification/Table.v ===== *)
(** The table of [updateTable] (app.js lines 400-470): the copy of
    [filteredData] sorted by date (lines 405-409), one row of markup per
    record in that order (lines 412-450), and the options of the
    DataTables widget (lines 457-469).

    [Array.prototype.sort] is specified by ECMA-262 only up to its
    result: when the comparator is consistent, the result is the unique
    permutation sorted by the comparator that keeps equal elements in
    their original order (the sort is stable).  The model of the sort is
    a stable insertion sort, [sort_by].  The theorems show that it
    produces that unique result.  When the comparator is not consistent,
    ECMA-262 leaves the order implementation-defined and the model
    fixes one: it is still a permutation. *)

From stdpp Require Import sorting.
From S2P Require Import Prelude JsString JsValue JsDate Schema Classify Normalize Render.

Module Table.
Import Schema Classify Normalize Render.

(** ** The sort *)

Section ArraySort.
Context {A : Type} (cmp : A → A → Z).

(** [x] goes before the first element it does not sort after. *)
Fixpoint insert_by (x : A) (l : list A) : list A :=
  match l with
  | [] => [x]
  | y :: l' => if (cmp x y <=? 0)%Z then x :: l else y :: insert_by x l'
  end.

(** [l.sort(cmp)] on a copy of [l]. *)
Definition sort_by (l : list A) : list A := foldr insert_by [] l.

Lemma insert_by_perm x l : insert_by x l ≡ₚ x :: l.
Proof.
  induction l as [|y l IH]; simpl; [done|].
  destruct (cmp x y <=? 0)%Z; [done|]. rewrite IH. apply perm_swap.
Qed.

Lemma sort_by_perm l : sort_by l ≡ₚ l.
Proof.
  induction l as [|x l IH]; simpl; [done|]. rewrite insert_by_perm. by f_equiv.
Qed.

(** Where the comparator compares a key, in decreasing order, on the
    elements satisfying [P]. *)
Variables (P : A → Prop) (key : A → Z).
Hypothesis cmp_key : ∀ x y, P x → P y → cmp x y = (key y - key x)%Z.

Definition desc (x y : A) : Prop := (key y ≤ key x)%Z.

Definition same_key (t : Z) (x : A) : bool := bool_decide (key x = t).

Lemma insert_by_sorted x l :
  P x → Forall P l → Sorted desc l → Sorted desc (insert_by x l).
Proof.
  intros Hx. induction l as [|y l IH]; intros Hl Hs; simpl; [by repeat constructor|].
  apply Forall_cons in Hl as [Hy Hl]. apply Sorted_inv in Hs as [Hs Hhd].
  rewrite cmp_key by done. destruct (Z.leb_spec (key y - key x) 0).
  - constructor; [by constructor|]. constructor. unfold desc. lia.
  - constructor; [by apply IH|]. destruct l as [|z l]; simpl; [constructor; unfold desc; lia|].
    apply HdRel_inv in Hhd. apply Forall_cons in Hl as [Hz _].
    rewrite cmp_key by done. destruct (Z.leb_spec (key z - key x) 0); constructor; unfold desc in *; lia.
Qed.

Lemma sort_by_Forall l : Forall P l → Forall P (sort_by l).
Proof. intros Hl. by rewrite (sort_by_perm l). Qed.

Lemma sort_by_sorted l : Forall P l → Sorted desc (sort_by l).
Proof.
  induction l as [|x l IH]; intros Hl; simpl; [constructor|].
  apply Forall_cons in Hl as [Hx Hl]. apply insert_by_sorted; [done| |by apply IH].
  by apply sort_by_Forall.
Qed.

(** Inserting [x] passes only elements of a larger key, so among the
    elements of any one key [x] comes first. *)
Lemma insert_by_same_key t x l :
  P x → Forall P l →
  List.filter (same_key t) (insert_by x l) = List.filter (same_key t) (x :: l).
Proof.
  intros Hx. induction l as [|y l IH]; intros Hl; simpl; [done|].
  apply Forall_cons in Hl as [Hy Hl]. rewrite cmp_key by done.
  destruct (Z.leb_spec (key y - key x) 0); [done|]. simpl. rewrite IH by done. simpl.
  unfold same_key. do 2 case_bool_decide; simpl; try done; lia.
Qed.

Lemma sort_by_same_key t l :
  Forall P l → List.filter (same_key t) (sort_by l) = List.filter (same_key t) l.
Proof.
  induction l as [|x l IH]; intros Hl; simpl; [done|].
  apply Forall_cons in Hl as [Hx Hl].
  rewrite insert_by_same_key by auto using sort_by_Forall. simpl. by rewrite IH.
Qed.

Lemma desc_head x l : Sorted desc (x :: l) → Forall (λ y, key y ≤ key x)%Z l.
Proof.
  intros Hs. apply Sorted_StronglySorted in Hs; [|intros ???; unfold desc; lia].
  by apply StronglySorted_inv in Hs as [_ Hf].
Qed.

(** A permutation sorted by decreasing key in which each key's elements
    keep a given order is unique. *)
Lemma desc_stable_unique l1 l2 :
  l1 ≡ₚ l2 → Sorted desc l1 → Sorted desc l2 →
  (∀ t, List.filter (same_key t) l1 = List.filter (same_key t) l2) → l1 = l2.
Proof.
  revert l2. induction l1 as [|x l1 IH]; intros l2 Hp Hs1 Hs2 Hf.
  { symmetry. by apply Permutation_nil. }
  destruct l2 as [|y l2]; [by apply Permutation_nil_r in Hp|].
  assert (key x = key y) as Hxy.
  { pose proof (desc_head _ _ Hs1) as H1. pose proof (desc_head _ _ Hs2) as H2.
    assert (x ∈ y :: l2) as [|Hx]%elem_of_cons by (rewrite <- Hp; left); [by subst|].
    assert (y ∈ x :: l1) as [|Hy]%elem_of_cons by (rewrite Hp; left); [by subst|].
    rewrite Forall_forall in H1, H2. specialize (H1 y Hy). specialize (H2 x Hx). lia. }
  pose proof (Hf (key x)) as Hx. cbn [List.filter] in Hx.
  replace (same_key (key x) x) with true in Hx by (symmetry; by apply bool_decide_eq_true).
  replace (same_key (key x) y) with true in Hx by (symmetry; by apply bool_decide_eq_true).
  injection Hx as -> _.
  f_equal. apply IH.
  - by apply Permutation_cons_inv in Hp.
  - by apply Sorted_inv in Hs1 as [? _].
  - by apply Sorted_inv in Hs2 as [? _].
  - intros t. specialize (Hf t). simpl in Hf. destruct (same_key t y); [by injection Hf|done].
Qed.

End ArraySort.

(** ** The date comparator *)

(** The comparator of lines 405-409, as [SortCompare] uses it: a record
    with a falsy date sorts after the other, and otherwise the later date
    comes first.  The difference of two time values is NaN when either is
    an invalid date, and [SortCompare] reads NaN as [+0]. *)
Definition date_compare (a b : record) : Z :=
  if negb (truthy (date a)) then 1%Z
  else if negb (truthy (date b)) then (-1)%Z
  else match date_time (date b), date_time (date a) with
       | Some tb, Some ta => (tb - ta)%Z
       | _, _ => 0%Z
       end.

(** Line 405: [sortedData]. *)
Definition sortedData (filteredData : list record) : list record :=
  sort_by date_compare filteredData.

(** Lines 402 and 412-450: the rows [updateTable] writes into the table
    body, after emptying it. *)
Definition table_body (filteredData : list record) : list jstr :=
  row_html <$> sortedData filteredData.

(** Lines 457-469: the options of [$('#dataTable').DataTable(...)]. *)
Definition dataTable_options : jsval :=
  JObj [(‹"language"›, JObj [(‹"url"›, JStr ‹"//cdn.datatables.net/plug-ins/1.13.4/i18n/fr-FR.json"›)]);
        (‹"pageLength"›, JNum 10);
        (‹"lengthMenu"›, JArr [JNum 5; JNum 10; JNum 25; JNum 50; JNum 100]);
        (‹"order"›, JArr [JArr [JNum 9; JStr ‹"desc"›]]);
        (‹"dom"›, JStr ‹"Bfrtip"›);
        (‹"buttons"›, JArr [JStr ‹"copy"›; JStr ‹"csv"›; JStr ‹"excel"›; JStr ‹"pdf"›; JStr ‹"print"›]);
        (‹"responsive"›, JBool true)].

(** A record with a date that is truthy and valid. *)
Definition dated (r : record) : Prop := truthy (date r) = true ∧ is_Some (date_time (date r)).

#[export] Instance dated_dec r : Decision (dated r).
Proof. unfold dated. apply _. Defined.

Definition date_key (r : record) : Z := default 0%Z (date_time (date r)).

Lemma date_compare_key a b : dated a → dated b → date_compare a b = (date_key b - date_key a)%Z.
Proof.
  intros [Ha [ta Hta]] [Hb [tb Htb]]. unfold date_compare, date_key.
  rewrite Ha, Hb, Hta, Htb. done.
Qed.

Lemma dataTable_options_typed : has_type dataTable_options datatables_options_ty = true.
Proof. vm_compute. reflexivity. Qed.

(** ** Properties *)

(** C11: When every record has a valid date, the table order is the one
    ECMA-262 requires of a stable sort with this comparator: a
    permutation of [filteredData], by decreasing date, records of equal
    date in their [filteredData] order; and it is the only list with
    these three properties. *)
Theorem sortedData_refines data :
  Forall dated data →
  sortedData data ≡ₚ data ∧ Sorted (desc date_key) (sortedData data) ∧
  (∀ t, List.filter (same_key date_key t) (sortedData data) = List.filter (same_key date_key t) data) ∧
  (∀ l, l ≡ₚ data → Sorted (desc date_key) l →
        (∀ t, List.filter (same_key date_key t) l = List.filter (same_key date_key t) data) →
        l = sortedData data).
Proof.
  intros Hd. pose proof (sort_by_perm date_compare data) as Hp.
  pose proof (sort_by_sorted _ _ _ date_compare_key data Hd) as Hs.
  pose proof (λ t, sort_by_same_key _ _ _ date_compare_key t data Hd) as Hf.
  split_and!; [done..|]. intros l Hl Hls Hlf.
  apply (desc_stable_unique date_key); [by rewrite Hl, Hp|done|done|].
  intros t. by rewrite Hlf, Hf.
Qed.

(** C30 (spec gap): The comparator is not consistent in the sense of
    ECMA-262: two records without a date each sort after the other, and
    a record with an invalid date is equal to every record with a date,
    whatever their dates.  The order of such rows in the table is then
    implementation-defined. *)
Theorem date_compare_inconsistent a b c :
  truthy (date a) = false → truthy (date b) = false → dated c →
  date_compare a b = 1%Z ∧ date_compare b a = 1%Z ∧
  (∀ d, truthy (date d) = true → date_time (date d) = None →
        date_compare d c = 0%Z ∧ date_compare c d = 0%Z).
Proof.
  intros Ha Hb [Hc [tc Htc]]. unfold date_compare. rewrite Ha, Hb. split_and!; [done..|].
  intros d Hd Hdt. rewrite Hd, Hc, Hdt, Htc. done.
Qed.

(** C35: For two records whose date cells are strings [YYYY-MM-DD] of
    calendar days of the years 0000-9999, the comparator sorts the later
    day first: it is negative exactly when the first record's day is
    later, and zero exactly when both are the same day. *)
Theorem date_compare_calendar a b ya ma da yb mb db :
  date a = CStr (iso_date ya ma da) → date b = CStr (iso_date yb mb db) →
  (0 <= ya < 10000)%Z → valid_date ya ma da → (0 <= yb < 10000)%Z → valid_date yb mb db →
  ((date_compare a b < 0)%Z ↔ date_lt (yb, mb, db) (ya, ma, da)) ∧
  (date_compare a b = 0%Z ↔ (ya, ma, da) = (yb, mb, db)).
Proof.
  intros Ha Hb Hya Hva Hyb Hvb. unfold date_compare. rewrite Ha, Hb.
  assert (∀ y m d, truthy (CStr (iso_date y m d)) = true) as Ht by done.
  rewrite !Ht, !date_time_iso by done. cbn [negb].
  destruct (days_from_civil_order yb mb db ya ma da Hvb Hva) as [Hlt Heq].
  unfold ms_per_day. split; [rewrite <- Hlt; lia|split; intros E].
  - symmetry. apply Heq. lia.
  - injection E as -> -> ->. lia.
Qed.

(** C25: The rows [updateTable] writes read back, cell by cell, as the
    escaped fields of the sorted records, and the column DataTables
    orders by when it enhances the table ([order: [[9, 'desc']]], "sort
    by date, latest first") is the tenth cell of every row, the date. *)
Theorem table_body_cells data :
  jget dataTable_options [‹"order"›] = Some (JArr [JArr [JNum 9; JStr ‹"desc"›]]) ∧
  Forall2 (λ r html, row_cells html = columns r) (sortedData data) (table_body data) ∧
  (∀ html, html ∈ table_body data →
     ∃ r, r ∈ data ∧ row_cells html !! 9 = Some (escapeHtml (cell_toString (date r)))).
Proof.
  split_and!; [vm_compute; reflexivity| |].
  - unfold table_body. induction (sortedData data) as [|r l IH]; constructor; [|done].
    apply row_cells_columns.
  - intros html (r & -> & Hr)%list_elem_of_fmap. exists r.
    split; [by rewrite <- (sort_by_perm date_compare data)|]. by rewrite row_cells_columns.
Qed.

(** ** Witnesses *)

Definition dated_record (e : jstr) (d : cell) : record :=
  {| equipement := CStr e; marque := CStr []; inventaire := CStr []; serie := CStr [];
     etablissement := CStr ‹"CEM Ibn Khaldoun"›; type := CEM; panne := CStr [];
     technicien := CStr []; statut := Rec; date := d |}.

Definition dated_rows : list record :=
  [dated_record ‹"PC-01"› (CStr ‹"2023-12-25"›);
   dated_record ‹"PC-02"› (CNum 1709251200000);
   dated_record ‹"PC-03"› (CStr ‹"2024-03-01"›)].

Lemma sortedData_refines_witness :
  Forall dated dated_rows ∧
  sortedData dated_rows = [dated_record ‹"PC-02"› (CNum 1709251200000);
                           dated_record ‹"PC-03"› (CStr ‹"2024-03-01"›);
                           dated_record ‹"PC-01"› (CStr ‹"2023-12-25"›)] ∧
  sortedData dated_rows ≡ₚ dated_rows.
Proof.
  assert (Forall dated dated_rows) as H by (apply (bool_decide_unpack _); by vm_compute).
  split_and!; [exact H|vm_compute; reflexivity|apply (sortedData_refines _ H)].
Defined.

Lemma date_compare_inconsistent_witness :
  let a := dated_record ‹"PC-04"› (CStr []) in
  let b := dated_record ‹"PC-05"› (CNum 0) in
  let c := dated_record ‹"PC-01"› (CStr ‹"2023-12-25"›) in
  truthy (date a) = false ∧ truthy (date b) = false ∧ dated c ∧
  date_compare a b = 1%Z ∧ date_compare b a = 1%Z.
Proof.
  cbv zeta.
  assert (dated (dated_record ‹"PC-01"› (CStr ‹"2023-12-25"›))) as Hc
    by (apply (bool_decide_unpack _); by vm_compute).
  assert (truthy (date (dated_record ‹"PC-04"› (CStr []))) = false) as Ha by reflexivity.
  assert (truthy (date (dated_record ‹"PC-05"› (CNum 0))) = false) as Hb by reflexivity.
  split_and!; [exact Ha|exact Hb|exact Hc| |]; apply (date_compare_inconsistent _ _ _ Ha Hb Hc).
Defined.

Lemma date_compare_calendar_witness :
  let a := dated_record ‹"PC-06"› (CStr (iso_date 2024 2 29)) in
  let b := dated_record ‹"PC-01"› (CStr (iso_date 2023 12 25)) in
  valid_date 2024 2 29 ∧ valid_date 2023 12 25 ∧ (date_compare a b < 0)%Z.
Proof.
  cbv zeta.
  assert (valid_date 2024 2 29) as Hva by (split; [lia|]; split; [lia|]; by vm_compute).
  assert (valid_date 2023 12 25) as Hvb by (split; [lia|]; split; [lia|]; by vm_compute).
  split_and!; [exact Hva|exact Hvb|].
  apply (date_compare_calendar (dated_record ‹"PC-06"› (CStr (iso_date 2024 2 29)))
           (dated_record ‹"PC-01"› (CStr (iso_date 2023 12 25))) 2024 2 29 2023 12 25
           eq_refl eq_refl ltac:(lia) Hva ltac:(lia) Hvb).
  simpl. lia.
Defined.

End Table.
