(* ===== verification/Charts.v ===== *)
(** The two charts of [updateCharts] (app.js lines 269-397): the
    configuration objects passed to [new Chart(ctx, config)] by
    [updateStatusChart] (lines 289-327) and [updateTypeChart] (lines
    347-396), and the part of Chart.js (version 3 or later) the script
    relies on: the registry of live charts.  [new Chart] on a canvas that
    already holds a live chart throws "Canvas is already in use", and
    [destroy()] removes a chart from the registry.  Chart.js itself is
    not part of the repository; its registry is modelled from its
    documented behaviour. *)

From S2P Require Import Prelude JsString JsValue Schema Classify Normalize Stats.

Module Charts.
Import Schema Classify Normalize Stats.

(** [Object.values(counts)] as numbers. *)
Definition count_values (counts : list (jstr * nat)) : list jsval :=
  (λ c, JNum (Z.of_nat c.2)) <$> counts.

(** [Object.keys(counts)] as strings. *)
Definition count_labels (counts : list (jstr * nat)) : list jsval := (λ c, JStr c.1) <$> counts.

Definition font (size : Z) : jsval := JObj [(‹"size"›, JNum size)].
Definition bold_font (size : Z) : jsval := JObj [(‹"size"›, JNum size); (‹"weight"›, JStr ‹"bold"›)].

(** Lines 295-299 and 363-369: one colour per label. *)
Definition status_colors : list jsval := [JStr ‹"#4299e1"›; JStr ‹"#48bb78"›; JStr ‹"#f56565"›].
Definition type_colors : list jsval :=
  [JStr ‹"#667eea"›; JStr ‹"#764ba2"›; JStr ‹"#f687b3"›; JStr ‹"#f6ad55"›; JStr ‹"#cbd5e0"›].

(** Lines 289-327. *)
Definition statusChartConfig (filteredData : list record) : jsval :=
  let statusCounts := statusCounts filteredData in
  JObj [(‹"type"›, JStr ‹"doughnut"›);
        (‹"data"›, JObj [
          (‹"labels"›, JArr (count_labels statusCounts));
          (‹"datasets"›, JArr [JObj [
            (‹"data"›, JArr (count_values statusCounts));
            (‹"backgroundColor"›, JArr status_colors);
            (‹"borderWidth"›, JNum 2);
            (‹"borderColor"›, JStr ‹"#fff"›)]])]);
        (‹"options"›, JObj [
          (‹"responsive"›, JBool true);
          (‹"maintainAspectRatio"›, JBool false);
          (‹"plugins"›, JObj [
            (‹"legend"›, JObj [(‹"position"›, JStr ‹"bottom"›);
                               (‹"labels"›, JObj [(‹"padding"›, JNum 20); (‹"font"›, font 14)])]);
            (‹"title"›, JObj [(‹"display"›, JBool true); (‹"text"›, JStr ‹"Répartition par Statut"›);
                              (‹"font"›, bold_font 16)])])])].

(** Lines 347-396. *)
Definition typeChartConfig (filteredData : list record) : jsval :=
  let typeCounts := typeCounts filteredData in
  JObj [(‹"type"›, JStr ‹"bar"›);
        (‹"data"›, JObj [
          (‹"labels"›, JArr (count_labels typeCounts));
          (‹"datasets"›, JArr [JObj [
            (‹"label"›, JStr ‹"Nombre d'équipements"›);
            (‹"data"›, JArr (count_values typeCounts));
            (‹"backgroundColor"›, JArr type_colors);
            (‹"borderWidth"›, JNum 1)]])]);
        (‹"options"›, JObj [
          (‹"responsive"›, JBool true);
          (‹"maintainAspectRatio"›, JBool false);
          (‹"scales"›, JObj [
            (‹"y"›, JObj [(‹"beginAtZero"›, JBool true);
                          (‹"title"›, JObj [(‹"display"›, JBool true);
                                            (‹"text"›, JStr ‹"Nombre d'équipements"›)])]);
            (‹"x"›, JObj [(‹"title"›, JObj [(‹"display"›, JBool true);
                                            (‹"text"›, JStr ‹"Type d'établissement"›)])])]);
          (‹"plugins"›, JObj [
            (‹"legend"›, JObj [(‹"display"›, JBool false)]);
            (‹"title"›, JObj [(‹"display"›, JBool true);
                              (‹"text"›, JStr ‹"Répartition par Type d'Établissement"›);
                              (‹"font"›, bold_font 16)])])])].

(** ** The Chart.js registry *)

(** A chart: the canvas it draws on and its configuration. *)
Record chart := mkChart { chart_canvas : jstr; chart_config : jsval }.

(** The live charts by id, in creation order, and the next id. *)
Record registry := mkRegistry { instances : list (nat * chart); next_id : nat }.

Definition empty_registry : registry := mkRegistry [] 0.

(** [Chart.getChart(canvas)]: the live chart drawing on [canvas]. *)
Definition chart_on (reg : registry) (canvas : jstr) : option nat :=
  last (List.filter (λ e, bool_decide (chart_canvas e.2 = canvas)) (instances reg)).*1.

Definition canvas_in_use_msg (id : nat) (canvas : jstr) : jstr :=
  ‹"Canvas is already in use. Chart with ID '"› ++ Z_toString (Z.of_nat id) ++
  ‹"' must be destroyed before the canvas with ID '"› ++ canvas ++ ‹"' can be reused."›.

(** [new Chart(canvas, config)]: the id of the new chart. *)
Definition new_chart (canvas : jstr) (config : jsval) (reg : registry) : throws (nat * registry) :=
  match chart_on reg canvas with
  | Some id => Throw (Error (canvas_in_use_msg id canvas))
  | None => Ok (next_id reg, mkRegistry (instances reg ++ [(next_id reg, mkChart canvas config)])
                                        (S (next_id reg)))
  end.

(** [chart.destroy()]; destroying a destroyed chart does nothing. *)
Definition destroy_chart (id : nat) (reg : registry) : registry :=
  mkRegistry (List.filter (λ e, negb (e.1 =? id)) (instances reg)) (next_id reg).

(** The registry as Chart.js keeps it: chart ids are distinct and below
    the next id, and a canvas holds at most one live chart. *)
Definition registry_wf (reg : registry) : Prop :=
  NoDup (instances reg).*1 ∧ Forall (λ e, e.1 < next_id reg) (instances reg) ∧
  NoDup (chart_canvas <$> (instances reg).*2).

(** ** What a chart draws *)

(** The labels, values and colours of a configuration's first dataset,
    read as Chart.js reads them. *)
Definition dataset0 (cfg : jsval) : option (list jsval * list jsval * list jsval) :=
  match jget cfg [‹"data"›; ‹"labels"›], jget cfg [‹"data"›; ‹"datasets"›] with
  | Some (JArr labels), Some (JArr (ds :: _)) =>
      match jget ds [‹"data"›], jget ds [‹"backgroundColor"›] with
      | Some (JArr vals), Some (JArr colors) => Some (labels, vals, colors)
      | _, _ => None
      end
  | _, _ => None
  end.

Definition num_total (vs : list jsval) : Z :=
  foldr (λ v acc, ((match v with JNum n => n | _ => 0 end) + acc)%Z) 0%Z vs.

Lemma num_total_count_values counts : num_total (count_values counts) = Z.of_nat (sum_list counts.*2).
Proof.
  induction counts as [|[k c] counts IH]; [done|]. unfold num_total, count_values in *.
  rewrite fmap_cons. cbn [foldr fmap list_fmap sum_list]. rewrite IH. simpl. lia.
Qed.

#[export] Instance statusChartConfig_perm : Proper ((≡ₚ) ==> (=)) statusChartConfig.
Proof. intros d1 d2 H. unfold statusChartConfig. by rewrite (statusCounts_perm _ _ H). Qed.

#[export] Instance typeChartConfig_perm : Proper ((≡ₚ) ==> (=)) typeChartConfig.
Proof. intros d1 d2 H. unfold typeChartConfig. by rewrite (typeCounts_perm _ _ H). Qed.

Lemma statusChartConfig_typed data : has_type (statusChartConfig data) chart_config_ty = true.
Proof.
  unfold statusChartConfig, statusCounts.
  generalize (count_statut Rec data) (count_statut Re data) (count_statut Nr data).
  intros. vm_compute. reflexivity.
Qed.

Lemma typeChartConfig_typed data : has_type (typeChartConfig data) chart_config_ty = true.
Proof.
  unfold typeChartConfig, typeCounts.
  generalize (count_type EP data) (count_type CEM data) (count_type Lycee data)
             (count_type Direction data) (count_type Autre data).
  intros. vm_compute. reflexivity.
Qed.

Lemma chart_on_None reg c : chart_on reg c = None ↔ c ∉ chart_canvas <$> (instances reg).*2.
Proof.
  unfold chart_on. rewrite last_None. induction (instances reg) as [|[i ch] l IH]; [set_solver|].
  simpl. case_bool_decide; simpl; set_solver.
Qed.

Lemma chart_on_snoc reg c e :
  chart_canvas e.2 = c → chart_on (mkRegistry (instances reg ++ [e]) (next_id reg)) c = Some e.1.
Proof.
  intros He. unfold chart_on. simpl. rewrite List.filter_app. simpl.
  rewrite bool_decide_true by done. by rewrite fmap_app, fmap_cons, fmap_nil, last_snoc.
Qed.

Lemma new_chart_Ok c cfg reg id reg' :
  new_chart c cfg reg = Ok (id, reg') →
  chart_on reg c = None ∧ id = next_id reg ∧
  reg' = mkRegistry (instances reg ++ [(next_id reg, mkChart c cfg)]) (S (next_id reg)).
Proof. unfold new_chart. case_match; [done|]. by intros [= <- <-]. Qed.

Lemma new_chart_wf c cfg reg id reg' :
  registry_wf reg → new_chart c cfg reg = Ok (id, reg') → registry_wf reg'.
Proof.
  intros (Hids & Hlt & Hcv) (Hon & -> & ->)%new_chart_Ok. apply chart_on_None in Hon.
  split_and!; simpl; rewrite ?fmap_app; simpl.
  - apply NoDup_app. split_and!; [done| |apply NoDup_singleton].
    intros i Hi ->%list_elem_of_singleton. apply list_elem_of_fmap in Hi as ([i' ch] & Heq & Hi).
    eapply Forall_forall in Hlt; [|exact Hi]. simpl in *. lia.
  - apply Forall_app. split; [|by apply Forall_singleton; simpl; lia].
    eapply Forall_impl; [exact Hlt|]. simpl. lia.
  - apply NoDup_app. split_and!; [done| |apply NoDup_singleton]. set_solver.
Qed.

Lemma destroy_chart_wf id reg : registry_wf reg → registry_wf (destroy_chart id reg).
Proof.
  intros (Hids & Hlt & Hcv). unfold destroy_chart. split_and!; simpl.
  - by apply NoDup_fmap_filter.
  - by apply Forall_list_filter.
  - rewrite <- list_fmap_compose. apply NoDup_fmap_filter. by rewrite list_fmap_compose.
Qed.

(** C27: Each chart is drawn with its full label set in a fixed order, one
    value and one colour per label, and its values add up to the number
    of records shown (spec section 4.6). *)
Theorem chart_configs_cover data :
  dataset0 (statusChartConfig data) =
    Some ([JStr ‹"Reçus"›; JStr ‹"Réparés"›; JStr ‹"Non réparés"›],
          count_values (statusCounts data), status_colors) ∧
  dataset0 (typeChartConfig data) =
    Some ([JStr ‹"EP"›; JStr ‹"CEM"›; JStr ‹"Lycée"›; JStr ‹"Direction"›; JStr ‹"Autre"›],
          count_values (typeCounts data), type_colors) ∧
  length (count_values (statusCounts data)) = length status_colors ∧
  length (count_values (typeCounts data)) = length type_colors ∧
  num_total (count_values (statusCounts data)) = Z.of_nat (length data) ∧
  num_total (count_values (typeCounts data)) = Z.of_nat (length data).
Proof.
  destruct (chart_counts_cover data) as (_ & Hs & _ & Ht).
  split_and!; [vm_compute; reflexivity..|done|done| |];
    rewrite num_total_count_values; by f_equal.
Qed.

End Charts.
