(* ===== verification/Page.v ===== *)
(** The page [updateDisplay] draws (app.js lines 248-470): the four
    counters of [updateStats] (lines 261-265), the charts of
    [updateStatusChart] and [updateTypeChart] held in [window.statusChart]
    and [window.typeChart] (lines 275-397), the table body of
    [updateTable] and the DataTables instance held in the global
    [dataTable] (lines 400-470).

    The drawing operations are written once, in a Section, for any state
    [State] that contains a page ([pg], [set_pg]) and can raise an alert
    ([warn]); [App] instantiates them with the session state.

    DataTables is a library outside the repository.  The model keeps of
    it what the script relies on: [$('#dataTable').DataTable(options)]
    enhances the table with its current rows.  On a table that is already
    enhanced it raises the "Cannot reinitialise" warning (an alert,
    DataTables' default error mode) and keeps the existing instance.
    [destroy()] removes the enhancement and puts back into the body the
    rows the instance read when it was created: DataTables 1.13 detaches
    the body's children and re-appends its own row elements
    ([jqTbody.children().detach(); jqTbody.append(rows)]).  The only code
    that enhances the table is [updateTable], which stores the instance
    in [dataTable]. *)

From S2P Require Import Prelude JsString JsValue JsDate Schema Classify Normalize Stats Render Table Charts.

Module Page.
Import Schema Classify Normalize Stats Render Table Charts.

(** A DataTables instance: the rows it read and its options. *)
Record grid := mkGrid { grid_rows : list jstr; grid_options : jsval }.

Record page := mkPage {
  statsShown : option stats;   (** the counters; [None] as the page was loaded *)
  statusChart : option nat;    (** [window.statusChart] when it holds a chart *)
  typeChart : option nat;      (** [window.typeChart] when it holds a chart *)
  charts : registry;           (** the live charts of Chart.js *)
  tableBody : list jstr;       (** the rows of [#tableBody] *)
  dataTable : option grid;     (** the global [dataTable] *)
  tableEnhanced : bool         (** [#dataTable] carries a live DataTables instance *)
}.

(** Before the first drawing: the canvases hold no chart, so
    [window.statusChart] is the canvas element, not a chart. *)
Definition initial_page : page := mkPage None None None empty_registry [] None false.

Definition set_statsShown v p :=
  mkPage v (statusChart p) (typeChart p) (charts p) (tableBody p) (dataTable p) (tableEnhanced p).
Definition set_statusChart v p :=
  mkPage (statsShown p) v (typeChart p) (charts p) (tableBody p) (dataTable p) (tableEnhanced p).
Definition set_typeChart v p :=
  mkPage (statsShown p) (statusChart p) v (charts p) (tableBody p) (dataTable p) (tableEnhanced p).
Definition set_charts v p :=
  mkPage (statsShown p) (statusChart p) (typeChart p) v (tableBody p) (dataTable p) (tableEnhanced p).
Definition set_tableBody v p :=
  mkPage (statsShown p) (statusChart p) (typeChart p) (charts p) v (dataTable p) (tableEnhanced p).
Definition set_dataTable v p :=
  mkPage (statsShown p) (statusChart p) (typeChart p) (charts p) (tableBody p) v (tableEnhanced p).
Definition set_tableEnhanced v p :=
  mkPage (statsShown p) (statusChart p) (typeChart p) (charts p) (tableBody p) (dataTable p) v.

Definition reinit_warning : jstr :=
  ‹"DataTables warning: table id=dataTable - Cannot reinitialise DataTable. For more information about this error, please see http://datatables.net/tn/3"›.

Section Draw.
Context {State : Type} (pg : State → page) (set_pg : page → State → State) (warn : jstr → State → State).

Definition get_page : ST State page := s ← st_get; mret (pg s).
Definition modify_page (f : page → page) : ST State unit := st_modify (λ s, set_pg (f (pg s)) s).

(** Lines 261-265: the four counters. *)
Definition showStats (filteredData : list record) : ST State unit :=
  modify_page (set_statsShown (Some (updateStats filteredData))).

(** Lines 275-328. *)
Definition updateStatusChart (filteredData : list record) : ST State unit :=
  p ← get_page;
  match statusChart p with
  | Some id => modify_page (λ p, set_charts (destroy_chart id (charts p)) p)
  | None => mret ()
  end;;
  p ← get_page;
  '(id, reg) ← st_lift (new_chart ‹"statusChart"› (statusChartConfig filteredData) (charts p));
  modify_page (λ p, set_statusChart (Some id) (set_charts reg p)).

(** Lines 331-397. *)
Definition updateTypeChart (filteredData : list record) : ST State unit :=
  p ← get_page;
  match typeChart p with
  | Some id => modify_page (λ p, set_charts (destroy_chart id (charts p)) p)
  | None => mret ()
  end;;
  p ← get_page;
  '(id, reg) ← st_lift (new_chart ‹"typeChart"› (typeChartConfig filteredData) (charts p));
  modify_page (λ p, set_typeChart (Some id) (set_charts reg p)).

(** Lines 269-272. *)
Definition updateCharts (filteredData : list record) : ST State unit :=
  updateStatusChart filteredData;; updateTypeChart filteredData.

(** [$('#dataTable').DataTable(options)]. *)
Definition initDataTable : ST State grid :=
  p ← get_page;
  if tableEnhanced p then
    st_modify (warn reinit_warning);;
    mret (default (mkGrid (tableBody p) dataTable_options) (dataTable p))
  else
    modify_page (set_tableEnhanced true);;
    mret (mkGrid (tableBody p) dataTable_options).

(** Lines 400-470. *)
Definition updateTable (filteredData : list record) : ST State unit :=
  modify_page (set_tableBody (table_body filteredData));;
  p ← get_page;
  match dataTable p with
  | Some g => modify_page (λ p, set_tableEnhanced false (set_tableBody (grid_rows g) p))
  | None => mret ()
  end;;
  g ← initDataTable;
  modify_page (set_dataTable (Some g)).

(** Lines 248-252. *)
Definition updateDisplay (filteredData : list record) : ST State unit :=
  showStats filteredData;; updateCharts filteredData;; updateTable filteredData.

End Draw.

(** ** The drawn page *)

(** The rows the table holds once [updateTable] has drawn [data] on [p]:
    the new rows when there was no instance, and otherwise the rows the
    old instance's [destroy()] put back, which the new instance reads. *)
Definition kept_rows (p : page) (data : list record) : list jstr :=
  match dataTable p with Some g => grid_rows g | None => table_body data end.

(** The page after drawing [data] when the next chart id is [n] and the
    table is enhanced with [rows]. *)
Definition drawn_at (n : nat) (data : list record) (rows : list jstr) : page :=
  {| statsShown := Some (updateStats data);
     statusChart := Some n;
     typeChart := Some (S n);
     charts := mkRegistry [(n, mkChart ‹"statusChart"› (statusChartConfig data));
                           (S n, mkChart ‹"typeChart"› (typeChartConfig data))] (S (S n));
     tableBody := rows;
     dataTable := Some (mkGrid rows dataTable_options);
     tableEnhanced := true |}.

(** A page the next drawing succeeds on: each canvas holds at most the
    chart its window variable names, with an id below the next one, and
    an enhanced table has its instance in [dataTable]. *)
Definition charts_ready (p : page) : bool :=
  match statusChart p, typeChart p, instances (charts p) with
  | None, None, [] => true
  | Some i, Some j, [(i', c1); (j', c2)] =>
      (i =? i') && (j =? j') && negb (i =? j) && (i <? next_id (charts p)) && (j <? next_id (charts p))
      && bool_decide (chart_canvas c1 = ‹"statusChart"›) && bool_decide (chart_canvas c2 = ‹"typeChart"›)
  | _, _, _ => false
  end.

Definition page_ready (p : page) : Prop :=
  charts_ready p = true ∧ (tableEnhanced p = true → is_Some (dataTable p)).

#[export] Instance page_ready_dec p : Decision (page_ready p).
Proof. unfold page_ready. apply _. Defined.

Lemma type_ne_status : ‹"typeChart"› ≠ ‹"statusChart"›.
Proof. by vm_compute. Qed.

Lemma charts_ready_cases p :
  charts_ready p = true →
  (statusChart p = None ∧ typeChart p = None ∧ instances (charts p) = []) ∨
  (∃ i j c1 c2, statusChart p = Some i ∧ typeChart p = Some j ∧
     instances (charts p) = [(i, c1); (j, c2)] ∧ i ≠ j ∧ j < next_id (charts p) ∧
     chart_canvas c1 = ‹"statusChart"› ∧ chart_canvas c2 = ‹"typeChart"›).
Proof.
  unfold charts_ready.
  destruct (statusChart p) as [i|], (typeChart p) as [j|], (instances (charts p)) as [|[i' c1] [|[j' c2] [|]]];
    try done; [|by left].
  rewrite !andb_true_iff, negb_true_iff, !Nat.eqb_eq, Nat.eqb_neq, !Nat.ltb_lt, !bool_decide_eq_true.
  intros ((((((-> & ->) & ?) & ?) & ?) & ?) & ?). right. by exists i', j', c1, c2.
Qed.

Lemma chart_on_other reg c e :
  instances reg = [e] → chart_canvas e.2 ≠ c → chart_on reg c = None.
Proof. intros Hi Hc. unfold chart_on. rewrite Hi. simpl. by rewrite bool_decide_false. Qed.

(** The registry once the chart [var] names, if any, is destroyed. *)
Definition release (var : option nat) (reg : registry) : registry :=
  match var with Some id => destroy_chart id reg | None => reg end.

Definition add_chart (canvas : jstr) (config : jsval) (reg : registry) : registry :=
  mkRegistry (instances reg ++ [(next_id reg, mkChart canvas config)]) (S (next_id reg)).

Ltac page_simpl :=
  unfold release, add_chart, destroy_chart, drawn_at, kept_rows, set_dataTable, set_tableEnhanced, set_tableBody,
    set_typeChart, set_charts, set_statusChart, set_statsShown;
  cbn [instances next_id charts statusChart typeChart statsShown tableBody dataTable tableEnhanced
       app List.filter fst snd].

Section DrawRun.
Context {State : Type} (pg : State → page) (set_pg : page → State → State) (warn : jstr → State → State).
Hypothesis pg_set : ∀ p s, pg (set_pg p s) = p.
Hypothesis set_set : ∀ p p' s, set_pg p (set_pg p' s) = set_pg p s.

Lemma modify_page_run f s : modify_page pg set_pg f s = (Ok (), set_pg (f (pg s)) s).
Proof. done. Qed.

Lemma get_page_run s : get_page pg s = (Ok (pg s), s).
Proof. done. Qed.

#[local] Hint Rewrite modify_page_run get_page_run pg_set set_set : maint.

Lemma updateStatusChart_run data s :
  chart_on (release (statusChart (pg s)) (charts (pg s))) ‹"statusChart"› = None →
  updateStatusChart pg set_pg data s =
    (Ok (), set_pg (set_statusChart (Some (next_id (charts (pg s))))
                     (set_charts (add_chart ‹"statusChart"› (statusChartConfig data)
                                    (release (statusChart (pg s)) (charts (pg s)))) (pg s))) s).
Proof.
  unfold updateStatusChart, new_chart. intros Hfree.
  autorewrite with maint.
  destruct (statusChart (pg s)) eqn:E; simpl in Hfree; autorewrite with maint; simpl;
    rewrite Hfree; autorewrite with maint; done.
Qed.

Lemma updateTypeChart_run data s :
  chart_on (release (typeChart (pg s)) (charts (pg s))) ‹"typeChart"› = None →
  updateTypeChart pg set_pg data s =
    (Ok (), set_pg (set_typeChart (Some (next_id (charts (pg s))))
                     (set_charts (add_chart ‹"typeChart"› (typeChartConfig data)
                                    (release (typeChart (pg s)) (charts (pg s)))) (pg s))) s).
Proof.
  unfold updateTypeChart, new_chart. intros Hfree.
  autorewrite with maint.
  destruct (typeChart (pg s)) eqn:E; simpl in Hfree; autorewrite with maint; simpl;
    rewrite Hfree; autorewrite with maint; done.
Qed.

Lemma updateTable_run data s :
  (tableEnhanced (pg s) = true → is_Some (dataTable (pg s))) →
  updateTable pg set_pg warn data s =
    (Ok (), set_pg (set_dataTable (Some (mkGrid (kept_rows (pg s) data) dataTable_options))
                     (set_tableEnhanced true (set_tableBody (kept_rows (pg s) data) (pg s)))) s).
Proof.
  unfold updateTable, initDataTable, kept_rows. intros Ht.
  run_maint. destruct (dataTable (pg s)) eqn:E; run_maint; [done|].
  destruct (tableEnhanced (pg s)); [by destruct Ht|]. by run_maint.
Qed.

(** Drawing a ready page succeeds: every canvas is free when its chart is
    created, and the table is not enhanced when DataTables is called. *)
Lemma updateDisplay_run data s :
  page_ready (pg s) →
  updateDisplay pg set_pg warn data s =
    (Ok (), set_pg (drawn_at (next_id (charts (pg s))) data (kept_rows (pg s) data)) s).
Proof.
  intros [Hc Ht]. unfold updateDisplay, showStats, updateCharts. autorewrite with maint.
  destruct (charts_ready_cases _ Hc) as [(Hs & Hty & Hi)|(i & j & c1 & c2 & Hs & Hty & Hi & Hij & Hj & H1 & H2)].
  - rewrite updateStatusChart_run; run_maint; [|rewrite Hs; cbn [release]; unfold chart_on; rewrite Hi; done].
    rewrite updateTypeChart_run; run_maint;
      [|rewrite Hs, Hty; apply chart_on_other with (e := (next_id (charts (pg s)),
          mkChart ‹"statusChart"› (statusChartConfig data)));
        [page_simpl; by rewrite Hi|apply not_eq_sym, type_ne_status]].
    rewrite updateTable_run; run_maint; [|done].
    rewrite Hs, Hty. page_simpl. rewrite Hi. done.
  - assert ((j =? i) = false) as Eji by (apply Nat.eqb_neq; lia).
    assert ((next_id (charts (pg s)) =? j) = false) as Enj by (apply Nat.eqb_neq; lia).
    rewrite updateStatusChart_run; run_maint;
      [|rewrite Hs; apply chart_on_other with (e := (j, c2));
        [page_simpl; rewrite Hi; simpl; by rewrite Nat.eqb_refl, Eji|simpl; rewrite H2; apply type_ne_status]].
    rewrite updateTypeChart_run; run_maint;
      [|rewrite Hs, Hty; apply chart_on_other with (e := (next_id (charts (pg s)),
          mkChart ‹"statusChart"› (statusChartConfig data)));
        [page_simpl; rewrite Hi; simpl; rewrite Nat.eqb_refl, Eji; simpl; by rewrite Nat.eqb_refl, Enj
        |apply not_eq_sym, type_ne_status]].
    rewrite updateTable_run; run_maint; [|done].
    rewrite Hs, Hty. page_simpl. rewrite Hi. simpl.
    rewrite Nat.eqb_refl, Eji. simpl. by rewrite Nat.eqb_refl, Enj.
Qed.

End DrawRun.

(** ** What drawing leaves untouched *)

Section Frame.
Context {State X : Type} (pg : State → page) (set_pg : page → State → State) (warn : jstr → State → State).
Context (f : State → X).
Hypothesis f_set : ∀ p s, f (set_pg p s) = f s.
Hypothesis f_warn : ∀ m s, f (warn m s) = f s.

(** [m] leaves [f] unchanged, whether it returns or throws. *)
Definition preserves {A} (m : ST State A) : Prop := ∀ s, f (snd (m s)) = f s.

Lemma preserves_bind {A B} (m : ST State A) (k : A → ST State B) :
  preserves m → (∀ a, preserves (k a)) → preserves (m ≫= k).
Proof.
  intros Hm Hk s. rewrite st_bind_run. specialize (Hm s).
  destruct (m s) as [[a|e] s']; simpl in *; [by rewrite Hk|done].
Qed.

Lemma preserves_ret {A} (a : A) : preserves (mret a).
Proof. done. Qed.

Lemma preserves_lift {A} (t : throws A) : preserves (st_lift t).
Proof. intros s. by destruct t. Qed.

Lemma preserves_get_page : preserves (get_page pg).
Proof. done. Qed.

Lemma preserves_modify_page g : preserves (modify_page pg set_pg g).
Proof. intros s. apply f_set. Qed.

Lemma preserves_warn m : preserves (st_modify (warn m)).
Proof. intros s. apply f_warn. Qed.

Ltac preserves_tac :=
  repeat first
    [ apply preserves_bind | apply preserves_ret | apply preserves_lift | apply preserves_get_page
    | apply preserves_modify_page | apply preserves_warn | progress intros | progress case_match ].

Lemma updateDisplay_frame data : preserves (updateDisplay pg set_pg warn data).
Proof.
  unfold updateDisplay, showStats, updateCharts, updateStatusChart, updateTypeChart, updateTable,
    initDataTable.
  preserves_tac.
Qed.

End Frame.

Lemma drawn_at_ready n data rows : page_ready (drawn_at n data rows).
Proof.
  split; [|done]. unfold charts_ready, drawn_at.
  cbn [statusChart typeChart charts instances next_id chart_canvas fst snd]. rewrite !Nat.eqb_refl.
  replace (n =? S n) with false by (symmetry; apply Nat.eqb_neq; lia).
  rewrite !(proj2 (Nat.ltb_lt _ _)) by lia. rewrite !bool_decide_true by done. done.
Qed.

(** Once the table has an instance, drawing keeps the instance's rows. *)
Lemma kept_rows_drawn n data rows data' : kept_rows (drawn_at n data rows) data' = rows.
Proof. done. Qed.

Lemma initial_page_ready : page_ready initial_page.
Proof. done. Qed.

(** What a drawing hands to the libraries is well formed: the registry of
    the drawn page keeps the Chart.js invariant, each chart it holds was
    created with a configuration of the type Chart.js documents for
    [new Chart], and the table is enhanced with options of the type
    DataTables documents, whatever the records drawn. *)
Lemma drawn_page_typed n data rows :
  registry_wf (charts (drawn_at n data rows)) ∧
  Forall (λ e, has_type (chart_config e.2) chart_config_ty = true) (instances (charts (drawn_at n data rows))) ∧
  (∀ g, dataTable (drawn_at n data rows) = Some g → has_type (grid_options g) datatables_options_ty = true).
Proof.
  split_and!.
  - pose proof type_ne_status. split_and!; simpl.
    + apply NoDup_cons_2; [intros ?%list_elem_of_singleton; lia|apply NoDup_singleton].
    + repeat constructor; simpl; lia.
    + apply NoDup_cons_2; [intros ?%list_elem_of_singleton; congruence|apply NoDup_singleton].
  - unfold drawn_at. cbn [charts instances].
    constructor; [apply statusChartConfig_typed|constructor; [apply typeChartConfig_typed|constructor]].
  - intros g Hg. injection Hg as <-. apply dataTable_options_typed.
Qed.

End Page.
