(* ===== verification/App.v ===== *)
(** The session: the global state of app.js (lines 2-5 and the DOM values
    the handlers read and write), every handler, and the DOM events as a
    step relation.  The handlers are functions in the state-and-exception
    monad [M := ST app].  JavaScript does not roll back on an exception, so a
    handler that throws leaves the state as it was at the throw.  An
    exception that leaves an event listener is recorded as an
    [UncaughtError] effect.  Asynchronous reads are explicit: starting a
    read appends the file to [pending], and any pending read may complete
    next. *)

From S2P Require Import Prelude JsString JsValue JsDate Classify Normalize Filters Stats Render Csv Table Charts Page.

Module App.
Import Classify Normalize Filters Stats Render Csv Table Charts Page.

(** ** Data *)

(** What [XLSX.read] returns, with each sheet given by the rows
    [sheet_to_json(sheet, { defval: '' })] yields. *)
Record workbook := mkWorkbook {
  SheetNames : list jstr;
  Sheets : gmap jstr (list row)
}.

(** What a [FileReader] delivers for a file: an error ([onerror]), or the
    bytes, which [XLSX.read] parses into a workbook or rejects. *)
Inductive file_contents :=
  | Unreadable
  | Bytes (parsed : throws workbook).

Record file := mkFile { fname : jstr; contents : file_contents }.

(** The observable outputs of the script. *)
Inductive effect :=
  | Alert (msg : jstr)
  | Download (filename : jstr) (content : jstr)
  | UncaughtError (e : js_error).

(** The session state: the globals of lines 2-4, the DOM values the
    handlers read and write, the page as last drawn (with the globals
    [dataTable], [window.statusChart] and [window.typeChart]), the reads
    in flight and the effects so far. *)
Record app := mkApp {
  currentData : list record;
  filteredData : list record;
  currentWorkbook : option workbook;
  filters : Filters.filters;
  sheetSelect : jstr;
  fileName : jstr;
  title : jstr;
  page : Page.page;
  pending : list file;
  fetching : bool;
  effects : list effect
}.

Definition set_currentData d s :=
  mkApp d (filteredData s) (currentWorkbook s) (filters s) (sheetSelect s) (fileName s)
    (title s) (page s) (pending s) (fetching s) (effects s).
Definition set_filteredData d s :=
  mkApp (currentData s) d (currentWorkbook s) (filters s) (sheetSelect s) (fileName s)
    (title s) (page s) (pending s) (fetching s) (effects s).
Definition set_currentWorkbook w s :=
  mkApp (currentData s) (filteredData s) w (filters s) (sheetSelect s) (fileName s)
    (title s) (page s) (pending s) (fetching s) (effects s).
Definition set_filters f s :=
  mkApp (currentData s) (filteredData s) (currentWorkbook s) f (sheetSelect s) (fileName s)
    (title s) (page s) (pending s) (fetching s) (effects s).
Definition set_sheetSelect v s :=
  mkApp (currentData s) (filteredData s) (currentWorkbook s) (filters s) v (fileName s)
    (title s) (page s) (pending s) (fetching s) (effects s).
Definition set_fileName n s :=
  mkApp (currentData s) (filteredData s) (currentWorkbook s) (filters s) (sheetSelect s) n
    (title s) (page s) (pending s) (fetching s) (effects s).
Definition set_title t s :=
  mkApp (currentData s) (filteredData s) (currentWorkbook s) (filters s) (sheetSelect s)
    (fileName s) t (page s) (pending s) (fetching s) (effects s).
Definition set_page v s :=
  mkApp (currentData s) (filteredData s) (currentWorkbook s) (filters s) (sheetSelect s)
    (fileName s) (title s) v (pending s) (fetching s) (effects s).
Definition set_pending p s :=
  mkApp (currentData s) (filteredData s) (currentWorkbook s) (filters s) (sheetSelect s)
    (fileName s) (title s) (page s) p (fetching s) (effects s).
Definition set_fetching b s :=
  mkApp (currentData s) (filteredData s) (currentWorkbook s) (filters s) (sheetSelect s)
    (fileName s) (title s) (page s) (pending s) b (effects s).
Definition add_effect e s :=
  mkApp (currentData s) (filteredData s) (currentWorkbook s) (filters s) (sheetSelect s)
    (fileName s) (title s) (page s) (pending s) (fetching s) (effects s ++ [e]).

(** ** The state-and-exception monad *)

Abbreviation M := (ST app).

Definition get : M app := st_get.
Definition modify (f : app → app) : M unit := st_modify f.
Definition raise {A} (e : js_error) : M A := st_raise e.
Definition lift {A} (t : throws A) : M A := st_lift t.
(** [try { m } catch (error) { h(error) }]. *)
Definition catch (m : M unit) (h : js_error → M unit) : M unit :=
  λ s, match m s with (Ok a, s') => (Ok a, s') | (Throw e, s') => h e s' end.
Definition alert (msg : jstr) : M unit := modify (add_effect (Alert msg)).

(** ** The handlers *)

(** [updateDisplay] (lines 248-252) draws [filteredData] on the page; the
    warnings of DataTables are alerts. *)
Definition updateDisplay : M unit :=
  s ← get;
  Page.updateDisplay page set_page (λ m, add_effect (Alert m)) (filteredData s).

(** [applyFilters] (lines 199-235): nothing when [currentData] is empty;
    otherwise the view is recomputed from the four selects and drawn. *)
Definition applyFilters : M unit :=
  s ← get;
  if bool_decide (currentData s = []) then mret ()
  else
    modify (λ s, set_filteredData (filterData (filters s) (currentData s)) s);;
    updateDisplay.

Definition title_prefix : jstr := ‹"📊 Système de Gestion de Maintenance - "›.

(** The texts of the alerts of lines 102 and 87. *)
Definition not_found_msg (v : jstr) : jstr := ‹"Feuille non trouvée: "› ++ v.
Definition excel_error_msg (e : js_error) : jstr :=
  ‹"Erreur lors de la lecture du fichier Excel: "› ++ error_message e.

(** [loadSheetData] (lines 100-121). *)
Definition loadSheetData (sheetName : jstr) : M unit :=
  s ← get;
  match currentWorkbook s ≫= (λ wb, Sheets wb !! sheetName) with
  | None => alert (not_found_msg sheetName)
  | Some jsonData =>
      data ← lift (normalizeData jsonData);
      modify (set_currentData data);;
      applyFilters;;
      modify (set_title (title_prefix ++ sheetName))
  end.

(** [reader.onload] (lines 73-90): the [try] block and its [catch]. *)
Definition onload (parsed : throws workbook) : M unit :=
  catch
    (wb ← lift parsed;
     modify (set_currentWorkbook (Some wb));;
     s ← get;
     loadSheetData (sheetSelect s))
    (λ e, alert (excel_error_msg e)).

(** [reader.onerror] (lines 92-94). *)
Definition onerror : M unit := alert ‹"Erreur lors de la lecture du fichier"›.

(** The completion of a read: [onload] or [onerror]. *)
Definition readDone (f : file) : M unit :=
  match contents f with
  | Unreadable => onerror
  | Bytes parsed => onload parsed
  end.

(** [readExcelFile] (lines 70-97): [readAsArrayBuffer] starts a read that
    completes later. *)
Definition readExcelFile (f : file) : M unit :=
  modify (λ s, set_pending (pending s ++ [f]) s).

(** [handleFileUpload] (lines 59-67). *)
Definition handleFileUpload (chosen : option file) : M unit :=
  match chosen with
  | None => mret ()
  | Some f => modify (set_fileName (fname f));; readExcelFile f
  end.

(** The end of the [fetch] of [loadDefaultFile] (lines 40-56): with the
    blob of an [ok] response the file is read; on any failure only the
    console is written. *)
Definition defaultFileFetched (blob : option file_contents) : M unit :=
  match blob with
  | None => mret ()
  | Some c => readExcelFile (mkFile ‹"gestion-maintenace.xlsx"› c)
  end.

(** The [change] listener of [sheetSelect] (lines 21-26), run after the
    select took the value [v]. *)
Definition onSheetChange (v : jstr) : M unit :=
  s ← get;
  match currentWorkbook s with
  | Some _ => loadSheetData v
  | None => mret ()
  end.

(** [resetFilters] (lines 238-245). *)
Definition resetFilters : M unit := modify (set_filters reset_filters);; applyFilters.

(** The alert of line 482. *)
Definition no_data_msg : jstr := ‹"Aucune donnée à exporter"›.

(** [exportToCSV] (lines 480-516), at the instant whose ISO text is
    [iso_now]. *)
Definition exportToCSV (iso_now : jstr) : M unit :=
  s ← get;
  if bool_decide (filteredData s = []) then alert no_data_msg
  else modify (add_effect (Download (csv_filename (sheetSelect s) iso_now)
                                    (csvString (filteredData s)))).

(** ** Events *)

(** The four filter selects (lines 29-32). *)
Inductive filter_select := WilayaSelect | TypeSelect | TechnicienSelect | StatutSelect.

Definition set_select (which : filter_select) (v : jstr) (f : Filters.filters) : Filters.filters :=
  match which with
  | WilayaSelect => mkFilters v (typeFilter f) (technicienFilter f) (statutFilter f)
  | TypeSelect => mkFilters (wilayaFilter f) v (technicienFilter f) (statutFilter f)
  | TechnicienSelect => mkFilters (wilayaFilter f) (typeFilter f) v (statutFilter f)
  | StatutSelect => mkFilters (wilayaFilter f) (typeFilter f) (technicienFilter f) v
  end.

(** Running a listener: an exception that leaves it is reported, and the
    state stays as the handler left it. *)
Definition run (m : M unit) (s : app) : app :=
  match m s with
  | (Ok _, s') => s'
  | (Throw e, s') => add_effect (UncaughtError e) s'
  end.

(** The state after [DOMContentLoaded] (lines 8-13): the listeners are
    installed and the fetch of the default file is in flight.  The
    initial values of the selects come from the page. *)
Definition init (f : Filters.filters) (sheet : jstr) : app :=
  {| currentData := []; filteredData := []; currentWorkbook := None; filters := f;
     sheetSelect := sheet; fileName := []; title := []; page := initial_page; pending := [];
     fetching := true; effects := [] |}.

(** One DOM or asynchronous event. *)
Inductive step : app → app → Prop :=
  | step_fetch s blob :
      fetching s = true →
      step s (run (defaultFileFetched blob) (set_fetching false s))
  | step_choose s chosen :
      step s (run (handleFileUpload chosen) s)
  | step_read s i f :
      pending s !! i = Some f →
      step s (run (readDone f) (set_pending (delete i (pending s)) s))
  | step_sheet s v :
      step s (run (onSheetChange v) (set_sheetSelect v s))
  | step_filter s which v :
      step s (run applyFilters (set_filters (set_select which v (filters s)) s))
  | step_reset s :
      step s (run resetFilters s)
  | step_export s iso_now :
      step s (run (exportToCSV iso_now) s).

(** The states a session can reach. *)
Inductive reachable : app → Prop :=
  | reach_init f sheet : reachable (init f sheet)
  | reach_step s s' : reachable s → step s s' → reachable s'.

(** ** Running the monad *)

Lemma get_run s : get s = (Ok s, s).
Proof. done. Qed.

Lemma modify_run f s : modify f s = (Ok (), f s).
Proof. done. Qed.

Lemma lift_run {A} (t : throws A) s :
  lift t s = match t with Ok a => (Ok a, s) | Throw e => (Throw e, s) end.
Proof. by destruct t. Qed.

#[export] Hint Rewrite get_run modify_run @lift_run : maint.

Lemma page_set_page p s : page (set_page p s) = p.
Proof. done. Qed.

Lemma set_page_set_page p p' s : set_page p (set_page p' s) = set_page p s.
Proof. done. Qed.

(** The state [applyFilters] leaves when the page is ready to draw. *)
Definition applyFilters_state (s : app) : app :=
  if bool_decide (currentData s = []) then s
  else set_page (drawn_at (next_id (charts (page s))) (filterData (filters s) (currentData s))
                   (kept_rows (page s) (filterData (filters s) (currentData s))))
         (set_filteredData (filterData (filters s) (currentData s)) s).

Lemma applyFilters_nil s : currentData s = [] → applyFilters s = (Ok (), s).
Proof. intros H. unfold applyFilters. run_maint. by rewrite bool_decide_true. Qed.

Lemma applyFilters_run s : page_ready (page s) → applyFilters s = (Ok (), applyFilters_state s).
Proof.
  intros Hr. unfold applyFilters, applyFilters_state, updateDisplay. run_maint.
  case_bool_decide; [done|]. run_maint.
  by rewrite (Page.updateDisplay_run page set_page _ page_set_page set_page_set_page).
Qed.

(** [applyFilters] changes only the filtered records, the page and the
    effects, whether it returns or throws. *)
Lemma applyFilters_frame {X} (f : app → X) s :
  (∀ p s, f (set_page p s) = f s) → (∀ e s, f (add_effect e s) = f s) →
  (∀ d s, f (set_filteredData d s) = f s) → f (snd (applyFilters s)) = f s.
Proof.
  intros Hp He Hd. unfold applyFilters, updateDisplay. run_maint. case_bool_decide; [done|].
  run_maint. rewrite (updateDisplay_frame page set_page _ f Hp (λ m, He (Alert m))). apply Hd.
Qed.

Lemma resetFilters_run s :
  page_ready (page s) → resetFilters s = (Ok (), applyFilters_state (set_filters reset_filters s)).
Proof. intros Hr. unfold resetFilters. run_maint. by apply applyFilters_run. Qed.

Lemma loadSheetData_run v s :
  loadSheetData v s =
  match currentWorkbook s ≫= (λ wb, Sheets wb !! v) with
  | None => (Ok (), add_effect (Alert (not_found_msg v)) s)
  | Some rows =>
      match normalizeData rows with
      | Throw e => (Throw e, s)
      | Ok data =>
          match applyFilters (set_currentData data s) with
          | (Ok _, s') => (Ok (), set_title (title_prefix ++ v) s')
          | (Throw e, s') => (Throw e, s')
          end
      end
  end.
Proof.
  unfold loadSheetData, alert. run_maint.
  destruct (currentWorkbook s ≫= _) as [rows|]; [|done].
  destruct (normalizeData rows); run_maint; [|done].
  destruct (applyFilters _) as [[] ?]; by run_maint.
Qed.

Lemma sheetSelect_set_currentWorkbook w s : sheetSelect (set_currentWorkbook w s) = sheetSelect s.
Proof. reflexivity. Qed.

Lemma onload_run parsed s :
  onload parsed s =
  match parsed with
  | Throw e => (Ok (), add_effect (Alert (excel_error_msg e)) s)
  | Ok wb =>
      match loadSheetData (sheetSelect s) (set_currentWorkbook (Some wb) s) with
      | (Ok a, s') => (Ok a, s')
      | (Throw e, s') => (Ok (), add_effect (Alert (excel_error_msg e)) s')
      end
  end.
Proof.
  unfold onload, catch, alert. destruct parsed as [wb|e]; run_maint; [|reflexivity].
  destruct (loadSheetData (sheetSelect s) (set_currentWorkbook (Some wb) s)) as [[a|e] s'];
    reflexivity.
Qed.

(** The completion of a read, on every branch. *)
Lemma readDone_run f s :
  run (readDone f) s =
  match contents f with
  | Unreadable => add_effect (Alert ‹"Erreur lors de la lecture du fichier"›) s
  | Bytes (Throw e) => add_effect (Alert (excel_error_msg e)) s
  | Bytes (Ok wb) =>
      match Sheets wb !! sheetSelect s with
      | None => add_effect (Alert (not_found_msg (sheetSelect s))) (set_currentWorkbook (Some wb) s)
      | Some rows =>
          match normalizeData rows with
          | Throw e => add_effect (Alert (excel_error_msg e)) (set_currentWorkbook (Some wb) s)
          | Ok data =>
              match applyFilters (set_currentData data (set_currentWorkbook (Some wb) s)) with
              | (Ok _, s') => set_title (title_prefix ++ sheetSelect s) s'
              | (Throw e, s') => add_effect (Alert (excel_error_msg e)) s'
              end
          end
      end
  end.
Proof.
  unfold run, readDone. destruct (contents f) as [|[wb|e]];
    [unfold onerror, alert; by rewrite modify_run| |by rewrite onload_run].
  rewrite onload_run, loadSheetData_run. simpl.
  destruct (Sheets wb !! sheetSelect s); [|done]. destruct (normalizeData _); [|done].
  by destruct (applyFilters _) as [[] ?].
Qed.

(** The change of sheet, on every branch.  The listener has no [catch]. *)
Lemma onSheetChange_run v s :
  run (onSheetChange v) (set_sheetSelect v s) =
  match currentWorkbook s with
  | None => set_sheetSelect v s
  | Some wb =>
      match Sheets wb !! v with
      | None => add_effect (Alert (not_found_msg v)) (set_sheetSelect v s)
      | Some rows =>
          match normalizeData rows with
          | Throw e => add_effect (UncaughtError e) (set_sheetSelect v s)
          | Ok data =>
              match applyFilters (set_currentData data (set_sheetSelect v s)) with
              | (Ok _, s') => set_title (title_prefix ++ v) s'
              | (Throw e, s') => add_effect (UncaughtError e) s'
              end
          end
      end
  end.
Proof.
  unfold run, onSheetChange. run_maint.
  change (currentWorkbook (set_sheetSelect v s)) with (currentWorkbook s).
  destruct (currentWorkbook s) as [wb|] eqn:Hw; [|done].
  rewrite loadSheetData_run. change (currentWorkbook (set_sheetSelect v s)) with (currentWorkbook s).
  rewrite Hw. cbn [mbind option_bind].
  destruct (Sheets wb !! v); [|done]. destruct (normalizeData _); [|done].
  by destruct (applyFilters _) as [[] ?].
Qed.

Lemma exportToCSV_run iso_now s :
  run (exportToCSV iso_now) s =
  if bool_decide (filteredData s = []) then add_effect (Alert no_data_msg) s
  else add_effect (Download (csv_filename (sheetSelect s) iso_now) (csvString (filteredData s))) s.
Proof. unfold run, exportToCSV, alert. run_maint. by case_bool_decide. Qed.

(** A read's completion changes neither the selected sheet, nor the file
    name shown, nor the reads in flight, nor the fetch. *)
Lemma readDone_frame f s :
  sheetSelect (run (readDone f) s) = sheetSelect s ∧ fileName (run (readDone f) s) = fileName s ∧
  pending (run (readDone f) s) = pending s ∧ fetching (run (readDone f) s) = fetching s.
Proof.
  rewrite readDone_run. destruct (contents f) as [|[wb|e]]; [done| |done].
  destruct (Sheets wb !! _); [|done]. destruct (normalizeData _) as [data|]; [|done].
  set (s0 := set_currentData data (set_currentWorkbook (Some wb) s)).
  pose proof (applyFilters_frame sheetSelect s0) as F1. pose proof (applyFilters_frame fileName s0) as F2.
  pose proof (applyFilters_frame pending s0) as F3. pose proof (applyFilters_frame fetching s0) as F4.
  destruct (applyFilters s0) as [[] s']; simpl in *; split_and!; auto.
Qed.

(** A read of a workbook whose selected sheet normalises adopts the
    workbook and its records. *)
Lemma readDone_loaded f s wb rows data :
  contents f = Bytes (Ok wb) → Sheets wb !! sheetSelect s = Some rows → normalizeData rows = Ok data →
  currentWorkbook (run (readDone f) s) = Some wb ∧ currentData (run (readDone f) s) = data.
Proof.
  intros Hc Hs Hn. rewrite readDone_run, Hc, Hs, Hn.
  set (s0 := set_currentData data (set_currentWorkbook (Some wb) s)).
  pose proof (applyFilters_frame currentWorkbook s0) as F1. pose proof (applyFilters_frame currentData s0) as F2.
  destruct (applyFilters s0) as [[] s']; simpl in *; split; auto.
Qed.

(** ** Invariants *)

(** The counters and charts show the filtered records and the table is
    enhanced with the rows of some drawing, or the page is as loaded, with
    no record filtered. *)
Definition view_ok (s : app) : Prop :=
  (∃ n d, page s = drawn_at n (filteredData s) (table_body d)) ∨
  (page s = initial_page ∧ filteredData s = []).

(** Outside the empty-data case the view is the filter of the data. *)
Definition view_fresh (s : app) : Prop :=
  currentData s ≠ [] → filteredData s = filterData (filters s) (currentData s).

(** Every record held is a canonical record. *)
Definition data_wf (s : app) : Prop :=
  Forall record_wf (currentData s) ∧ Forall record_wf (filteredData s).

Definition Inv (s : app) : Prop := view_ok s ∧ view_fresh s ∧ data_wf s.

Lemma view_ok_ready s : view_ok s → page_ready (page s).
Proof. intros [(n & d & ->)|[-> _]]; [apply drawn_at_ready|apply initial_page_ready]. Qed.

Lemma view_ok_kept s data : view_ok s → ∃ d, kept_rows (page s) data = table_body d.
Proof. intros [(n & d & ->)|[-> _]]; by eexists. Qed.

Lemma Inv_applyFilters_state s : view_ok s → data_wf s → Inv (applyFilters_state s).
Proof.
  intros Hv [Hc Hf]. unfold applyFilters_state. case_bool_decide as Hnil.
  - split; [done|split; [by intros ?|done]].
  - destruct (view_ok_kept s (filterData (filters s) (currentData s)) Hv) as [d Hd].
    split; [left; exists (next_id (charts (page s))), d; simpl; by rewrite Hd|split; [done|]].
    split; [done|].
    unfold filterData. apply Forall_forall. intros r Hr.
    apply list_elem_of_In, filter_In in Hr as [Hr _].
    rewrite Forall_forall in Hc. apply Hc. by apply list_elem_of_In.
Qed.

(** A state that agrees with an invariant state on the data, the page and
    the selects satisfies the invariant. *)
Lemma Inv_frame s s' :
  currentData s' = currentData s → filteredData s' = filteredData s →
  filters s' = filters s → page s' = page s → Inv s → Inv s'.
Proof. unfold Inv, view_ok, view_fresh, data_wf. intros -> -> -> ->. done. Qed.

Lemma Inv_add_effect e s : Inv s → Inv (add_effect e s).
Proof. by apply Inv_frame. Qed.

Lemma Inv_run m s : Inv (snd (m s)) → Inv (run m s).
Proof. unfold run. destruct (m s) as [[] s']; [done|]. apply Inv_add_effect. Qed.

Lemma Inv_loadSheetData v s : Inv s → Inv (snd (loadSheetData v s)).
Proof.
  intros HI. rewrite loadSheetData_run.
  destruct (currentWorkbook s ≫= _) as [rows|]; [|by apply Inv_add_effect].
  destruct (normalizeData rows) as [data|e] eqn:Hn; [|done].
  destruct HI as (Hv & _ & _ & Hf).
  rewrite applyFilters_run by (apply view_ok_ready, Hv). simpl.
  apply (Inv_frame (applyFilters_state (set_currentData data s))); [done..|].
  apply Inv_applyFilters_state; [done|]. split; [|done].
  apply normalizeData_Ok in Hn as [_ ->]. apply normalize_spec_wf.
Qed.

Lemma Inv_readDone f s : Inv s → Inv (snd (readDone f s)).
Proof.
  intros HI. unfold readDone. destruct (contents f) as [|parsed]; [by apply Inv_add_effect|].
  rewrite onload_run. destruct parsed as [wb|e]; [|by apply Inv_add_effect].
  pose proof (Inv_loadSheetData (sheetSelect s) (set_currentWorkbook (Some wb) s)) as HL.
  destruct (loadSheetData _ _) as [[] s'] eqn:E; simpl in *.
  - apply HL. by apply Inv_frame with s.
  - apply Inv_add_effect, HL. by apply Inv_frame with s.
Qed.

Lemma Inv_applyFilters s : view_ok s → data_wf s → Inv (snd (applyFilters s)).
Proof. intros Hv Hw. rewrite applyFilters_run by (apply view_ok_ready, Hv). by apply Inv_applyFilters_state. Qed.

Lemma Inv_step s s' : Inv s → step s s' → Inv s'.
Proof.
  intros HI Hstep. destruct Hstep as [s blob _|s chosen|s i f _|s v|s which v|s|s iso_now];
    apply Inv_run.
  - destruct blob; simpl; apply Inv_frame with s; done.
  - destruct chosen; simpl; apply Inv_frame with s; done.
  - apply Inv_readDone. by apply Inv_frame with s.
  - unfold onSheetChange. run_maint.
    destruct (currentWorkbook s); [apply Inv_loadSheetData|]; by apply Inv_frame with s.
  - destruct HI as (Hv & _ & Hw). by apply Inv_applyFilters.
  - unfold resetFilters. run_maint. destruct HI as (Hv & _ & Hw). by apply Inv_applyFilters.
  - unfold exportToCSV, alert. run_maint.
    case_bool_decide; simpl; by apply Inv_add_effect.
Qed.

Lemma Inv_init f sheet : Inv (init f sheet).
Proof. split; [right; done|split; [done|split; constructor]]. Qed.

Lemma reachable_Inv s : reachable s → Inv s.
Proof.
  induction 1 as [f sheet|s s' _ IH Hstep]; [apply Inv_init|by eapply Inv_step].
Qed.

(** ** The table once enhanced *)

(** The page is drawn from the filtered records with the table enhanced
    with [rows]. *)
Definition table_kept (rows : list jstr) (s : app) : Prop :=
  ∃ n, page s = drawn_at n (filteredData s) rows.

Lemma table_kept_frame rows s s' :
  filteredData s' = filteredData s → page s' = page s → table_kept rows s → table_kept rows s'.
Proof. unfold table_kept. by intros -> ->. Qed.

Lemma table_kept_run rows m s : table_kept rows (snd (m s)) → table_kept rows (run m s).
Proof. unfold run. destruct (m s) as [[] s']; [done|]. by apply table_kept_frame. Qed.

Lemma table_kept_applyFilters rows s : table_kept rows s → table_kept rows (snd (applyFilters s)).
Proof.
  intros [n Hp]. rewrite applyFilters_run by (rewrite Hp; apply drawn_at_ready).
  unfold applyFilters_state. case_bool_decide; [by exists n|]. rewrite Hp. by eexists.
Qed.

Lemma table_kept_loadSheetData rows v s : table_kept rows s → table_kept rows (snd (loadSheetData v s)).
Proof.
  intros H. rewrite loadSheetData_run.
  destruct (currentWorkbook s ≫= _) as [sheet|]; [|by apply table_kept_frame with s].
  destruct (normalizeData sheet) as [data|e]; [|done].
  pose proof (table_kept_applyFilters rows (set_currentData data s)) as HA.
  destruct (applyFilters _) as [[] s'']; simpl in *;
    [apply table_kept_frame with s''; [done|done|]|]; apply HA; by apply table_kept_frame with s.
Qed.

Lemma table_kept_readDone rows f s : table_kept rows s → table_kept rows (snd (readDone f s)).
Proof.
  intros H. unfold readDone. destruct (contents f) as [|parsed]; [by apply table_kept_frame with s|].
  rewrite onload_run. destruct parsed as [wb|e]; [|by apply table_kept_frame with s].
  pose proof (table_kept_loadSheetData rows (sheetSelect s) (set_currentWorkbook (Some wb) s)) as HL.
  destruct (loadSheetData _ _) as [[] s'] eqn:E; simpl in *;
    [|apply table_kept_frame with s'; [done|done|]]; apply HL; by apply table_kept_frame with s.
Qed.

(** Every step keeps the rows the table is enhanced with. *)
Lemma table_kept_step rows s s' : table_kept rows s → step s s' → table_kept rows s'.
Proof.
  intros H Hstep. destruct Hstep as [s blob _|s chosen|s i f _|s v|s which v|s|s iso_now];
    apply table_kept_run.
  - destruct blob; simpl; by apply table_kept_frame with s.
  - destruct chosen; simpl; by apply table_kept_frame with s.
  - apply table_kept_readDone. by apply table_kept_frame with s.
  - unfold onSheetChange. run_maint.
    destruct (currentWorkbook s); [apply table_kept_loadSheetData|]; by apply table_kept_frame with s.
  - apply table_kept_applyFilters. by apply table_kept_frame with s.
  - unfold resetFilters. run_maint. apply table_kept_applyFilters. by apply table_kept_frame with s.
  - unfold exportToCSV, alert. run_maint. case_bool_decide; simpl; by apply table_kept_frame with s.
Qed.

End App.
