(* ===== verification/Session.v ===== *)
(** Properties of whole sessions of app.js, over the model of [App]:
    what every reachable state satisfies (the page shows the filtered
    records, the filtered records follow the data and the selects, the
    redraws never fail), that the table keeps the rows of its first
    drawing, what the handlers do on each branch, the behaviours that
    contradict the spec, and the asynchronous reads, which always
    terminate.  A concrete session, [demo_s0] to [demo_s3], gives the
    witnesses. *)

From S2P Require Import Prelude JsString JsValue JsDate Schema Classify Normalize Filters Stats Render Csv Table Charts Page App.

Module Session.
Import Schema Classify Normalize Filters Stats Render Csv Table Charts Page App.

(** ** A session *)

(** A workbook with a sheet of one record and a sheet whose only row has
    no equipment, and one whose equipment is a number. *)
Definition sheet_vide : list row := [[(‹"Marque"›, CStr ‹"HP"›)]].
Definition sheet_cassee : list row := [[(‹"Equipement"›, CNum 7)]].

Definition demo_workbook : workbook :=
  {| SheetNames := [‹"Maintenance"›; ‹"Vide"›; ‹"Cassée"›];
     Sheets := <[‹"Maintenance"› := scenario_rows]> (<[‹"Vide"› := sheet_vide]>
                 (<[‹"Cassée"› := sheet_cassee]> ∅)) |}.

Definition demo_file : file := mkFile ‹"parc.xlsx"› (Bytes (Ok demo_workbook)).
Definition other_file : file :=
  mkFile ‹"autre.xlsx"› (Bytes (Ok {| SheetNames := [‹"Maintenance"›];
                                       Sheets := <[‹"Maintenance"› := sheet_vide]> ∅ |})).

(** The page opens on the sheet "Maintenance"; the default file is
    missing; the user chooses [demo_file], whose read completes. *)
Definition demo_s0 : app := init reset_filters ‹"Maintenance"›.
Definition demo_s1 : app := run (defaultFileFetched None) (set_fetching false demo_s0).
Definition demo_s2 : app := run (handleFileUpload (Some demo_file)) demo_s1.
Definition demo_s3 : app := run (readDone demo_file) (set_pending (delete 0 (pending demo_s2)) demo_s2).

Lemma demo_s1_reachable : reachable demo_s1.
Proof. eapply reach_step; [apply reach_init|]. unfold demo_s1. by apply step_fetch. Qed.

Lemma demo_s3_reachable : reachable demo_s3.
Proof.
  eapply reach_step; [eapply reach_step; [apply demo_s1_reachable|apply step_choose]|].
  unfold demo_s3. apply step_read. vm_compute. reflexivity.
Qed.

(** ** Properties of the session *)

(** C1: In every reachable state the counters and both charts show
    exactly the filtered records and the table is enhanced with the rows
    of some list of records, or the page is as loaded before the first
    view, and then no record is filtered. *)
Theorem reachable_display s :
  reachable s →
  (∃ n d, page s = drawn_at n (filteredData s) (table_body d)) ∨
  (page s = initial_page ∧ filteredData s = []).
Proof. intros H. apply (reachable_Inv s H). Qed.

(** C9 (code bug): Once the table has a DataTables instance, no event
    changes its rows: [updateTable] writes the new rows and then calls
    [dataTable.destroy()] (line 454), which puts back the rows the
    instance read when it was created, and the new instance reads these.
    Counters and charts follow the filtered records, the table keeps
    showing the records of its first drawing. *)
Theorem table_stale s s' :
  reachable s → dataTable (page s) ≠ None → step s s' →
  tableBody (page s') = tableBody (page s) ∧ dataTable (page s') = dataTable (page s) ∧
  statsShown (page s') = Some (updateStats (filteredData s')).
Proof.
  intros Hr Hd Hs. destruct (reachable_Inv s Hr) as [[(n & d & Hp)|[Hp _]] _]; [|by rewrite Hp in Hd].
  destruct (table_kept_step (table_body d) s s') as [n' Hp']; [by exists n|done|].
  by rewrite Hp, Hp'.
Qed.

(** C8: In every reachable state where records are loaded, the filtered
    records are the loaded records that pass the current selects. *)
Theorem reachable_filtered s :
  reachable s → currentData s ≠ [] → filteredData s = filterData (filters s) (currentData s).
Proof. intros H. apply (reachable_Inv s H). Qed.

(** C17: Every record held in a reachable state, loaded or filtered, has a
    non-blank string equipment. *)
Theorem reachable_records_wf s :
  reachable s → Forall record_wf (currentData s) ∧ Forall record_wf (filteredData s).
Proof. intros H. apply (reachable_Inv s H). Qed.

(** With no record on screen the export only alerts (line 482). *)
Theorem export_empty_alert s iso_now :
  filteredData s = [] → run (exportToCSV iso_now) s = add_effect (Alert no_data_msg) s.
Proof. intros H. by rewrite exportToCSV_run, bool_decide_true. Qed.

(** C2 (code bug): Switching to a sheet none of whose rows has an
    equipment empties [currentData], and [applyFilters] then returns
    early (line 200): the previous sheet's records stay in [filteredData]
    and on the page, under the new sheet's title, and the export
    downloads them under the new sheet's name. *)
Theorem sheet_change_stale_view s v wb rows iso_now :
  currentWorkbook s = Some wb → Sheets wb !! v = Some rows → normalizeData rows = Ok [] →
  filteredData s ≠ [] →
  let s' := run (onSheetChange v) (set_sheetSelect v s) in
  step s s' ∧ currentData s' = [] ∧ filteredData s' = filteredData s ∧
  page s' = page s ∧ title s' = title_prefix ++ v ∧
  run (exportToCSV iso_now) s' =
    add_effect (Download (csv_filename v iso_now) (csvString (filteredData s))) s'.
Proof.
  intros Hw Hv Hn Hne s'. subst s'. split; [apply step_sheet|].
  rewrite onSheetChange_run, Hw, Hv, Hn, applyFilters_nil by done.
  rewrite exportToCSV_run, bool_decide_false by done. done.
Qed.

(** C14 (spec divergence): When the selected sheet of a newly read file
    makes [normalizeData] throw, the new workbook is adopted (line 76)
    but the records, the filtered view and the page are the previous
    file's: a partial load (spec section 7: no partial success). *)
Theorem onload_normalize_error_partial s f wb rows e :
  contents f = Bytes (Ok wb) → Sheets wb !! sheetSelect s = Some rows →
  normalizeData rows = Throw e →
  run (readDone f) s = add_effect (Alert (excel_error_msg e)) (set_currentWorkbook (Some wb) s).
Proof. intros Hc Hs Hn. by rewrite readDone_run, Hc, Hs, Hn. Qed.

(** C33: A file that does not parse only raises an alert: the
    workbook, the records and the page are left as they were (spec
    section 7). *)
Theorem onload_parse_error_untouched s f e :
  contents f = Bytes (Throw e) → run (readDone f) s = add_effect (Alert (excel_error_msg e)) s.
Proof. intros Hc. by rewrite readDone_run, Hc. Qed.

(** C10 (spec gap): Two files chosen one after the other are read
    concurrently, and the read that completes last decides the data: when
    the second file's read completes first, the page ends up with the
    first file's workbook and records, under the second file's name
    (spec section 5: last to finish wins, not last requested). *)
Theorem reads_last_finish_wins s f1 f2 wb1 rows data :
  pending s = [] → contents f1 = Bytes (Ok wb1) →
  Sheets wb1 !! sheetSelect s = Some rows → normalizeData rows = Ok data →
  let s1 := run (handleFileUpload (Some f1)) s in
  let s2 := run (handleFileUpload (Some f2)) s1 in
  let s3 := run (readDone f2) (set_pending (delete 1 (pending s2)) s2) in
  let s4 := run (readDone f1) (set_pending (delete 0 (pending s3)) s3) in
  step s s1 ∧ step s1 s2 ∧ step s2 s3 ∧ step s3 s4 ∧
  currentWorkbook s4 = Some wb1 ∧ currentData s4 = data ∧ fileName s4 = fname f2 ∧ pending s4 = [].
Proof.
  intros Hp Hc Hs Hn s1 s2 s3 s4.
  assert (pending s2 = [f1; f2]) as Hp2 by (subst s1 s2; simpl; by rewrite Hp).
  destruct (readDone_frame f2 (set_pending (delete 1 (pending s2)) s2)) as (Hs3 & Hf3 & Hp3 & _).
  fold s3 in Hs3, Hf3, Hp3. rewrite Hp2 in Hp3.
  destruct (readDone_frame f1 (set_pending (delete 0 (pending s3)) s3)) as (_ & Hf4 & Hp4 & _).
  fold s4 in Hf4, Hp4. rewrite Hp3 in Hp4.
  assert (sheetSelect (set_pending (delete 0 (pending s3)) s3) = sheetSelect s) as Hsel
    by (simpl; rewrite Hs3; done).
  destruct (readDone_loaded f1 (set_pending (delete 0 (pending s3)) s3) wb1 rows data Hc)
    as (Hw4 & Hd4); [by rewrite Hsel|done|].
  fold s4 in Hw4, Hd4. split_and!; try done.
  - apply step_choose.
  - apply step_choose.
  - apply step_read. by rewrite Hp2.
  - apply step_read. by rewrite Hp3.
  - rewrite Hf4. simpl. rewrite Hf3. done.
Qed.

(** C31 (spec divergence): When a newly read file has no sheet of the
    selected name, the alert of line 102 is raised but the new workbook
    has already replaced the previous one (line 76), while the records
    and the page stay the previous file's (spec section 7: no state
    change). *)
Theorem readDone_missing_sheet s f wb :
  contents f = Bytes (Ok wb) → Sheets wb !! sheetSelect s = None →
  run (readDone f) s =
    add_effect (Alert (not_found_msg (sheetSelect s))) (set_currentWorkbook (Some wb) s).
Proof. intros Hc Hs. by rewrite readDone_run, Hc, Hs. Qed.

(** C19: Switching to a sheet that normalises to records loads them: the
    records, the filtered view, the counters, the charts and the title
    all follow the new sheet, with no alert; the table is enhanced with
    the rows [updateTable] keeps ([kept_rows]). *)
Theorem sheet_change_loads s v wb rows data :
  page_ready (page s) →
  currentWorkbook s = Some wb → Sheets wb !! v = Some rows → normalizeData rows = Ok data →
  data ≠ [] →
  let s' := run (onSheetChange v) (set_sheetSelect v s) in
  currentData s' = data ∧ filteredData s' = filterData (filters s) data ∧
  page s' = drawn_at (next_id (charts (page s))) (filterData (filters s) data)
              (kept_rows (page s) (filterData (filters s) data)) ∧
  title s' = title_prefix ++ v ∧ effects s' = effects s.
Proof.
  intros Hr Hw Hv Hn Hne s'. subst s'.
  rewrite onSheetChange_run, Hw, Hv, Hn, applyFilters_run by done. unfold applyFilters_state.
  rewrite bool_decide_false by done. done.
Qed.

(** C32 (spec divergence): The sheet listener (lines 21-26) has no [catch]:
    when the new sheet makes [normalizeData] throw, the exception leaves
    the listener uncaught, with no alert, while the records and the page
    stay the previous sheet's under the new select value (spec section 7:
    errors are surfaced to the user at the boundary). *)
Theorem sheet_change_uncaught s v wb rows e :
  currentWorkbook s = Some wb → Sheets wb !! v = Some rows → normalizeData rows = Throw e →
  run (onSheetChange v) (set_sheetSelect v s) = add_effect (UncaughtError e) (set_sheetSelect v s).
Proof. intros Hw Hv Hn. by rewrite onSheetChange_run, Hw, Hv, Hn. Qed.

(** C7: In every reachable state the destroy guards of lines 279-281,
    335-337 and 453-455 leave both canvases and the table free: redrawing
    succeeds, with no "Canvas is already in use" exception from Chart.js
    and no "Cannot reinitialise" warning from DataTables, and leaves the
    counters and charts drawn from [filteredData] and the table with the
    rows [updateTable] keeps ([kept_rows]). *)
Theorem reachable_redraw s :
  reachable s →
  updateDisplay s =
    (Ok (), set_page (drawn_at (next_id (charts (page s))) (filteredData s)
                        (kept_rows (page s) (filteredData s))) s).
Proof.
  intros H. destruct (reachable_Inv s H) as [Hv _]. unfold updateDisplay. run_maint.
  apply (Page.updateDisplay_run page set_page _ page_set_page set_page_set_page).
  by apply view_ok_ready.
Qed.


(** ** The asynchronous completions *)

(** The events that no user causes: the end of the default file's
    [fetch] and the completion of a pending read. *)
Inductive async_step : app → app → Prop :=
  | async_fetch s blob :
      fetching s = true →
      async_step s (run (defaultFileFetched blob) (set_fetching false s))
  | async_read s i f :
      pending s !! i = Some f →
      async_step s (run (readDone f) (set_pending (delete i (pending s)) s)).

Lemma async_step_step s s' : async_step s s' → step s s'.
Proof. destruct 1; by constructor. Qed.

(** The reads in flight, and the fetch counting for two: its end can
    start one more read. *)
Definition async_measure (s : app) : nat := length (pending s) + (if fetching s then 2 else 0).

Lemma async_step_measure s s' : async_step s s' → async_measure s' < async_measure s.
Proof.
  unfold async_measure. destruct 1 as [s blob Hf|s i f Hi].
  - rewrite Hf. destruct blob; simpl; [rewrite length_app; simpl|]; lia.
  - destruct (readDone_frame f (set_pending (delete i (pending s)) s)) as (_ & _ & -> & ->). simpl.
    rewrite length_delete by eauto. apply lookup_lt_Some in Hi. destruct (fetching s); lia.
Qed.

(** C12: Whatever the state, the asynchronous completions
    cannot go on forever: every sequence of them is finite. *)
Theorem async_terminates : well_founded (λ s' s, async_step s s').
Proof.
  apply (wf_projected (<) async_measure); [intros s' s; apply async_step_measure|apply lt_wf].
Qed.

(** ** Witnesses *)

Definition demo_iso : jstr := ‹"2026-11-09T10:00:00.000Z"›.

Lemma reachable_display_witness :
  reachable demo_s3 ∧
  ((∃ n d, page demo_s3 = drawn_at n (filteredData demo_s3) (table_body d)) ∨
   (page demo_s3 = initial_page ∧ filteredData demo_s3 = [])).
Proof. split; [apply demo_s3_reachable|apply reachable_display, demo_s3_reachable]. Defined.

Lemma reachable_filtered_witness :
  reachable demo_s3 ∧ currentData demo_s3 ≠ [] ∧
  filteredData demo_s3 = filterData (filters demo_s3) (currentData demo_s3).
Proof.
  assert (currentData demo_s3 ≠ []) as H by (apply (bool_decide_unpack _); by vm_compute).
  split; [apply demo_s3_reachable|split; [exact H|]].
  apply reachable_filtered; [apply demo_s3_reachable|exact H].
Defined.

Lemma reachable_records_wf_witness :
  reachable demo_s3 ∧ Forall record_wf (currentData demo_s3) ∧ Forall record_wf (filteredData demo_s3).
Proof. split; [apply demo_s3_reachable|apply reachable_records_wf, demo_s3_reachable]. Defined.

Lemma sheet_change_stale_view_witness :
  currentWorkbook demo_s3 = Some demo_workbook ∧ Sheets demo_workbook !! ‹"Vide"› = Some sheet_vide ∧
  normalizeData sheet_vide = Ok [] ∧ filteredData demo_s3 ≠ [] ∧
  let s' := run (onSheetChange ‹"Vide"›) (set_sheetSelect ‹"Vide"› demo_s3) in
  step demo_s3 s' ∧ currentData s' = [] ∧ filteredData s' = filteredData demo_s3 ∧
  page s' = page demo_s3 ∧ title s' = title_prefix ++ ‹"Vide"› ∧
  run (exportToCSV demo_iso) s' =
    add_effect (Download (csv_filename ‹"Vide"› demo_iso) (csvString (filteredData demo_s3))) s'.
Proof.
  assert (currentWorkbook demo_s3 = Some demo_workbook) as H1 by (vm_compute; reflexivity).
  assert (Sheets demo_workbook !! ‹"Vide"› = Some sheet_vide) as H2 by (vm_compute; reflexivity).
  assert (normalizeData sheet_vide = Ok []) as H3 by (vm_compute; reflexivity).
  assert (filteredData demo_s3 ≠ []) as H4 by (apply (bool_decide_unpack _); by vm_compute).
  split_and!; [exact H1|exact H2|exact H3|exact H4|].
  exact (sheet_change_stale_view demo_s3 ‹"Vide"› demo_workbook sheet_vide demo_iso H1 H2 H3 H4).
Defined.

Definition demo_error : js_error := TypeError ‹"equipement.trim is not a function"›.

Lemma onload_normalize_error_partial_witness :
  let s := set_sheetSelect ‹"Cassée"› demo_s3 in
  contents demo_file = Bytes (Ok demo_workbook) ∧
  Sheets demo_workbook !! sheetSelect s = Some sheet_cassee ∧
  normalizeData sheet_cassee = Throw demo_error ∧
  run (readDone demo_file) s =
    add_effect (Alert (excel_error_msg demo_error)) (set_currentWorkbook (Some demo_workbook) s).
Proof.
  cbv zeta.
  assert (contents demo_file = Bytes (Ok demo_workbook)) as H1 by reflexivity.
  assert (Sheets demo_workbook !! sheetSelect (set_sheetSelect ‹"Cassée"› demo_s3) = Some sheet_cassee)
    as H2 by (vm_compute; reflexivity).
  assert (normalizeData sheet_cassee = Throw demo_error) as H3 by (vm_compute; reflexivity).
  split_and!; [exact H1|exact H2|exact H3|].
  exact (onload_normalize_error_partial _ demo_file demo_workbook sheet_cassee demo_error H1 H2 H3).
Defined.

Definition corrupt_file : file := mkFile ‹"notes.txt"› (Bytes (Throw (ParseError ‹"Unsupported file"›))).

Lemma onload_parse_error_untouched_witness :
  contents corrupt_file = Bytes (Throw (ParseError ‹"Unsupported file"›)) ∧
  run (readDone corrupt_file) demo_s3 =
    add_effect (Alert (excel_error_msg (ParseError ‹"Unsupported file"›))) demo_s3.
Proof.
  assert (contents corrupt_file = Bytes (Throw (ParseError ‹"Unsupported file"›))) as H by reflexivity.
  split; [exact H|apply onload_parse_error_untouched, H].
Defined.

Lemma readDone_missing_sheet_witness :
  let s := set_sheetSelect ‹"Feuil1"› demo_s3 in
  contents demo_file = Bytes (Ok demo_workbook) ∧ Sheets demo_workbook !! sheetSelect s = None ∧
  run (readDone demo_file) s =
    add_effect (Alert (not_found_msg (sheetSelect s))) (set_currentWorkbook (Some demo_workbook) s).
Proof.
  cbv zeta.
  assert (contents demo_file = Bytes (Ok demo_workbook)) as H1 by reflexivity.
  assert (Sheets demo_workbook !! sheetSelect (set_sheetSelect ‹"Feuil1"› demo_s3) = None)
    as H2 by (vm_compute; reflexivity).
  split_and!; [exact H1|exact H2|].
  exact (readDone_missing_sheet _ demo_file demo_workbook H1 H2).
Defined.

Lemma reads_last_finish_wins_witness :
  pending demo_s1 = [] ∧ contents demo_file = Bytes (Ok demo_workbook) ∧
  Sheets demo_workbook !! sheetSelect demo_s1 = Some scenario_rows ∧
  normalizeData scenario_rows = Ok (omap normalize_spec scenario_rows) ∧
  let s1 := run (handleFileUpload (Some demo_file)) demo_s1 in
  let s2 := run (handleFileUpload (Some other_file)) s1 in
  let s3 := run (readDone other_file) (set_pending (delete 1 (pending s2)) s2) in
  let s4 := run (readDone demo_file) (set_pending (delete 0 (pending s3)) s3) in
  step demo_s1 s1 ∧ step s1 s2 ∧ step s2 s3 ∧ step s3 s4 ∧
  currentWorkbook s4 = Some demo_workbook ∧ currentData s4 = omap normalize_spec scenario_rows ∧
  fileName s4 = fname other_file ∧ pending s4 = [].
Proof.
  assert (pending demo_s1 = []) as H1 by (vm_compute; reflexivity).
  assert (contents demo_file = Bytes (Ok demo_workbook)) as H2 by reflexivity.
  assert (Sheets demo_workbook !! sheetSelect demo_s1 = Some scenario_rows) as H3
    by (vm_compute; reflexivity).
  assert (normalizeData scenario_rows = Ok (omap normalize_spec scenario_rows)) as H4
    by (vm_compute; reflexivity).
  split_and!; [exact H1|exact H2|exact H3|exact H4|].
  exact (reads_last_finish_wins demo_s1 demo_file other_file demo_workbook _ _ H1 H2 H3 H4).
Defined.

Lemma sheet_change_loads_witness :
  page_ready (page demo_s3) ∧ currentWorkbook demo_s3 = Some demo_workbook ∧
  Sheets demo_workbook !! ‹"Maintenance"› = Some scenario_rows ∧
  normalizeData scenario_rows = Ok (omap normalize_spec scenario_rows) ∧
  omap normalize_spec scenario_rows ≠ [] ∧
  let s' := run (onSheetChange ‹"Maintenance"›) (set_sheetSelect ‹"Maintenance"› demo_s3) in
  currentData s' = omap normalize_spec scenario_rows ∧
  filteredData s' = filterData (filters demo_s3) (omap normalize_spec scenario_rows) ∧
  page s' = drawn_at (next_id (charts (page demo_s3)))
              (filterData (filters demo_s3) (omap normalize_spec scenario_rows))
              (kept_rows (page demo_s3) (filterData (filters demo_s3) (omap normalize_spec scenario_rows))) ∧
  title s' = title_prefix ++ ‹"Maintenance"› ∧ effects s' = effects demo_s3.
Proof.
  assert (page_ready (page demo_s3)) as H0 by (apply (bool_decide_unpack _); by vm_compute).
  assert (currentWorkbook demo_s3 = Some demo_workbook) as H1 by (vm_compute; reflexivity).
  assert (Sheets demo_workbook !! ‹"Maintenance"› = Some scenario_rows) as H2
    by (vm_compute; reflexivity).
  assert (normalizeData scenario_rows = Ok (omap normalize_spec scenario_rows)) as H3
    by (vm_compute; reflexivity).
  assert (omap normalize_spec scenario_rows ≠ []) as H4 by (apply (bool_decide_unpack _); by vm_compute).
  split_and!; [exact H0|exact H1|exact H2|exact H3|exact H4|].
  exact (sheet_change_loads demo_s3 _ demo_workbook _ _ H0 H1 H2 H3 H4).
Defined.

Lemma sheet_change_uncaught_witness :
  currentWorkbook demo_s3 = Some demo_workbook ∧
  Sheets demo_workbook !! ‹"Cassée"› = Some sheet_cassee ∧
  normalizeData sheet_cassee = Throw demo_error ∧
  run (onSheetChange ‹"Cassée"›) (set_sheetSelect ‹"Cassée"› demo_s3) =
    add_effect (UncaughtError demo_error) (set_sheetSelect ‹"Cassée"› demo_s3).
Proof.
  assert (currentWorkbook demo_s3 = Some demo_workbook) as H1 by (vm_compute; reflexivity).
  assert (Sheets demo_workbook !! ‹"Cassée"› = Some sheet_cassee) as H2 by (vm_compute; reflexivity).
  assert (normalizeData sheet_cassee = Throw demo_error) as H3 by (vm_compute; reflexivity).
  split_and!; [exact H1|exact H2|exact H3|].
  exact (sheet_change_uncaught demo_s3 _ demo_workbook _ _ H1 H2 H3).
Defined.

Lemma reachable_redraw_witness :
  reachable demo_s3 ∧
  updateDisplay demo_s3 =
    (Ok (), set_page (drawn_at (next_id (charts (page demo_s3))) (filteredData demo_s3)
                        (kept_rows (page demo_s3) (filteredData demo_s3))) demo_s3).
Proof. split; [apply demo_s3_reachable|apply reachable_redraw, demo_s3_reachable]. Defined.


(** Choosing a technician nobody has empties the view: the counters drop
    to zero while the table still lists the loaded record. *)
Definition demo_s4 : app :=
  run applyFilters (set_filters (set_select TechnicienSelect ‹"Personne"› (filters demo_s3)) demo_s3).

Lemma table_stale_witness :
  reachable demo_s3 ∧ dataTable (page demo_s3) ≠ None ∧ step demo_s3 demo_s4 ∧
  filteredData demo_s4 = [] ∧ tableBody (page demo_s4) ≠ table_body (filteredData demo_s4) ∧
  tableBody (page demo_s4) = tableBody (page demo_s3) ∧ dataTable (page demo_s4) = dataTable (page demo_s3) ∧
  statsShown (page demo_s4) = Some (updateStats (filteredData demo_s4)).
Proof.
  assert (dataTable (page demo_s3) ≠ None) as H1 by (apply (bool_decide_unpack _); by vm_compute).
  assert (step demo_s3 demo_s4) as H2 by (unfold demo_s4; apply step_filter).
  split_and!; [apply demo_s3_reachable|exact H1|exact H2|vm_compute; reflexivity
              |apply (bool_decide_unpack _); by vm_compute|..];
    apply (table_stale demo_s3 demo_s4 demo_s3_reachable H1 H2).
Defined.

End Session.
